(** * Attendance tracker skill (src/api/alexa.js): data model, record store,
      attendance calculator and session manager, with their properties.

    The JavaScript module is embedded shallowly.  The Firestore collection
    [attendance] is a finite map from attendance keys to user documents, and
    every [async] function takes the collection and gives back the new one;
    reads and writes of the store always succeed.  Values the module draws
    from its environment are explicit arguments: the clock ([now], in epoch
    milliseconds, read by [new Date()]), the suffix produced by
    [Math.random().toString(36).substring(2, 6)], and the server timestamp
    stored in [updatedAt].

    A [Date] is its time value in epoch milliseconds, [None] standing for an
    Invalid Date.  The process runs in UTC, so that the local getters
    ([getDay], [getDate], [getFullYear], ...) are the UTC ones.  Strings are
    ASCII.  A handler answers with a value of [Response] that names the
    sentence spoken and carries the values interpolated into it. *)

From Stdlib Require Import ZArith String Ascii List Lia Permutation Sorted.
From stdpp Require Import base option list gmap strings pretty sorting.
From Equations Require Import Equations.
Import ListNotations.

Local Open Scope string_scope.
Local Open Scope list_scope.
Local Open Scope Z_scope.

(* ------------------------------------------------------------------ *)
(** ** Strings *)

(** [String.prototype.toLowerCase], on ASCII text. *)
Definition lowerChar (c : ascii) : ascii :=
  let n := nat_of_ascii c in
  if ((65 <=? n) && (n <=? 90))%nat then ascii_of_nat (n + 32) else c.

Fixpoint toLowerCase (s : string) : string :=
  match s with
  | EmptyString => EmptyString
  | String c r => String (lowerChar c) (toLowerCase r)
  end.

(** The character class [a-z0-9]. *)
Definition isLowerAlnum (c : ascii) : bool :=
  let n := nat_of_ascii c in
  (((97 <=? n) && (n <=? 122)) || ((48 <=? n) && (n <=? 57)))%nat.

(** [s.replace(/[^a-z0-9]/g, '')]. *)
Fixpoint stripNonAlnum (s : string) : string :=
  match s with
  | EmptyString => EmptyString
  | String c r =>
      if isLowerAlnum c then String c (stripNonAlnum r) else stripNonAlnum r
  end.

(** [s.substring(0, n)]. *)
Definition prefix (n : nat) (s : string) : string := String.substring 0 n s.

(** JavaScript truthiness of a value that is a string or [undefined]. *)
Definition truthy (o : option string) : bool :=
  match o with
  | Some s => negb (String.eqb s "")
  | None => false
  end.

(** [a || b] on such values. *)
Definition orElse (o : option string) (d : string) : string :=
  match o with
  | Some s => if String.eqb s "" then d else s
  | None => d
  end.

(* ------------------------------------------------------------------ *)
(** ** Data model *)

(** An element of [holidays]: [{ date, name }]. *)
Module Holiday.
Record t := mk {
  date : string;
  name : string
}.
End Holiday.

(** An element of [sessions].  [createdAt] holds the time value of the ISO
    timestamp that [saveSession] writes with [new Date().toISOString()] and
    that the sort comparator reads back with [new Date(s.createdAt)]. *)
Record Session := mkSession {
  name : string;
  code : string;
  startDate : option string;
  endDate : option string;
  createdAt : Z;
  isSelected : bool
}.

(** A document of the [attendance] collection.  A field is [None] when the
    document does not have it; the same shape serves as the partial document
    handed to [updateUserData]. *)
Record UserData := mkUserData {
  records : option (gmap string bool);
  holidays : option (list Holiday.t);
  notEnrolled : option (list string);
  sessions : option (list Session);
  weeklyDaysOff : option (list Z);
  updatedAt : option Z
}.

(** The [attendance] collection. *)
Abbreviation Store := (gmap string UserData).

(** The document [{}]. *)
Definition emptyDoc : UserData :=
  mkUserData None None None None None None.

(** What [getDayStatus] returns besides [null]: a plain tag, or the object
    [{ status: 'holiday', name }]. *)
Inductive DayStatus :=
| Tag (status : string)
| Tagged (status : string) (holidayName : string).

(** [extraData]: [{}] or [{ holidayName }]. *)
Record ExtraData := mkExtra { holidayName : option string }.

(* ------------------------------------------------------------------ *)
(** ** Attendance record store *)

(** [getUserData]: the stored document, or [{}]. *)
Definition getUserData (attendanceKey : string) (db : Store) : UserData :=
  match db !! attendanceKey with
  | Some doc => doc
  | None => emptyDoc
  end.

(** The merge of one field: the new value if the update has the field. *)
Definition mergeField {A} (old new : option A) : option A :=
  match new with
  | Some v => Some v
  | None => old
  end.

(** Modelled from the spec: the merge-set of the document store,
    [docRef.set(updates, { merge: true })], whose implementation (the
    Firestore client) is not part of the sources.  Section 4.1 of the spec
    gives its contract: a shallow merge-upsert, in which a field of [updates]
    replaces the stored field and a field absent from [updates] is left as
    it is. *)
Definition mergeDoc (old updates : UserData) : UserData :=
  {| records := mergeField (records old) (records updates);
     holidays := mergeField (holidays old) (holidays updates);
     notEnrolled := mergeField (notEnrolled old) (notEnrolled updates);
     sessions := mergeField (sessions old) (sessions updates);
     weeklyDaysOff := mergeField (weeklyDaysOff old) (weeklyDaysOff updates);
     updatedAt := mergeField (updatedAt old) (updatedAt updates) |}.

Definition updateUserData (attendanceKey : string) (updates : UserData)
    (db : Store) : Store :=
  <[attendanceKey := mergeDoc (getUserData attendanceKey db) updates]> db.

(** The partial document [{ sessions }]. *)
Definition sessionsOnly (l : list Session) : UserData :=
  {| records := None; holidays := None; notEnrolled := None;
     sessions := Some l; weeklyDaysOff := None; updatedAt := None |}.

(** [holidays.some(h => h.date === d)] and [holidays.find(...)]. *)
Definition isHolidayOn (d : string) (h : Holiday.t) : bool :=
  String.eqb (Holiday.date h) d.

(** [notEnrolled.includes(d)]. *)
Definition includes (d : string) (l : list string) : bool :=
  existsb (String.eqb d) l.

(** [userData.records && userData.records[d]]: [None] is [undefined]. *)
Definition recordOn (d : string) (userData : UserData) : option bool :=
  match records userData with
  | Some m => m !! d
  | None => None
  end.

Definition getDayStatus (attendanceKey date : string) (db : Store)
    : option DayStatus :=
  let userData := getUserData attendanceKey db in
  match recordOn date userData with
  | Some b => Some (Tag (if b then "present" else "absent"))
  | None =>
      match List.find (isHolidayOn date) (default [] (holidays userData)) with
      | Some holiday => Some (Tagged "holiday" (Holiday.name holiday))
      | None =>
          if includes date (default [] (notEnrolled userData))
          then Some (Tag "not-enrolled")
          else None
      end
  end.

(** [setDayStatus]; [ts] is the server timestamp written to [updatedAt].
    The value returned is always [{ success: true }] and is left out. *)
Definition setDayStatus (ts : Z) (attendanceKey date status : string)
    (extraData : ExtraData) (db : Store) : Store :=
  let userData := getUserData attendanceKey db in
  let records0 := default ∅ (records userData) in
  let holidays0 := default [] (holidays userData) in
  let notEnrolled0 := default [] (notEnrolled userData) in
  let records1 := delete date records0 in
  let holidays1 := List.filter (fun h => negb (isHolidayOn date h)) holidays0 in
  let notEnrolled1 := List.filter (fun d => negb (String.eqb d date)) notEnrolled0 in
  let '(records2, holidays2, notEnrolled2) :=
    if String.eqb status "present" then
      (<[date := true]> records1, holidays1, notEnrolled1)
    else if String.eqb status "absent" then
      (<[date := false]> records1, holidays1, notEnrolled1)
    else if String.eqb status "holiday" then
      (records1,
       holidays1 ++ [Holiday.mk date (orElse (holidayName extraData) "Holiday")],
       notEnrolled1)
    else if String.eqb status "not-enrolled" then
      (records1, holidays1, notEnrolled1 ++ [date])
    else (records1, holidays1, notEnrolled1) in
  updateUserData attendanceKey
    {| records := Some records2;
       holidays := Some holidays2;
       notEnrolled := Some notEnrolled2;
       sessions := None;
       weeklyDaysOff := None;
       updatedAt := Some ts |} db.

(* ------------------------------------------------------------------ *)
(** ** Date and calendar utilities *)

Definition msPerDay : Z := 86400000.

(** Day number (days since 1970-01-01) of a proleptic Gregorian date, with
    [m] in 1..12. *)
Definition daysFromCivil (y m d : Z) : Z :=
  let y' := if m <=? 2 then y - 1 else y in
  let era := y' / 400 in
  let yoe := y' - era * 400 in
  let mp := if 2 <? m then m - 3 else m + 9 in
  let doy := (153 * mp + 2) / 5 + d - 1 in
  let doe := yoe * 365 + yoe / 4 - yoe / 100 + doy in
  era * 146097 + doe - 719468.

(** Year, month (1..12) and day of the month of a day number. *)
Definition civilFromDays (z : Z) : Z * Z * Z :=
  let z' := z + 719468 in
  let era := z' / 146097 in
  let doe := z' - era * 146097 in
  let yoe := (doe - doe / 1460 + doe / 36524 - doe / 146096) / 365 in
  let doy := doe - (365 * yoe + yoe / 4 - yoe / 100) in
  let mp := (5 * doy + 2) / 153 in
  let d := doy - (153 * mp + 2) / 5 + 1 in
  let m := if mp <? 10 then mp + 3 else mp - 9 in
  let y := yoe + era * 400 in
  (if m <=? 2 then y + 1 else y, m, d).

(** ECMAScript [MakeDay(year, month, date)]: [month] is zero-based and may
    lie outside 0..11, [date] may lie outside the month. *)
Definition MakeDay (year month dt : Z) : Z :=
  daysFromCivil (year + month / 12) (month mod 12 + 1) 1 + dt - 1.

(** ECMAScript [TimeClip]: a time value further than 8.64e15 ms from the
    epoch is an Invalid Date. *)
Definition TimeClip (t : Z) : option Z :=
  if Z.abs t <=? 8640000000000000 then Some t else None.

(** [new Date(year, month, day)]; years 0..99 mean 1900..1999. *)
Definition newDateYMD (year month day : Z) : option Z :=
  let yr := if (0 <=? year) && (year <=? 99) then 1900 + year else year in
  TimeClip (MakeDay yr month day * msPerDay).

(** ECMAScript [Day(t)]. *)
Definition Day (t : Z) : Z := t / msPerDay.

Definition getFullYear (t : Z) : Z := fst (fst (civilFromDays (Day t))).
(** [getMonth()], zero-based. *)
Definition getMonth (t : Z) : Z := snd (fst (civilFromDays (Day t))) - 1.
Definition getDate (t : Z) : Z := snd (civilFromDays (Day t)).
(** [getDay()]: 0 is Sunday. *)
Definition getDay (t : Z) : Z := (Day t + 4) mod 7.

(** [String(n)] for an integer. *)
Definition showZ (n : Z) : string := pretty n.

(** [s.padStart(k, '0')]. *)
Fixpoint zeros (k : nat) : string :=
  match k with
  | O => EmptyString
  | S k' => String "0" (zeros k')
  end.

Definition padStart (k : nat) (s : string) : string :=
  zeros (k - String.length s) +:+ s.

(** [getFormattedDate(date)]: [`${year}-${month}-${day}`]. *)
Definition getFormattedDate (t : Z) : string :=
  showZ (getFullYear t) +:+ "-" +:+ padStart 2 (showZ (getMonth t + 1))
    +:+ "-" +:+ padStart 2 (showZ (getDate t)).

(** [date.toISOString().split('T')[0]]: four-digit years 0000..9999, and the
    signed six-digit form outside that range. *)
Definition toISODate (t : Z) : string :=
  let y := getFullYear t in
  let ys := if (0 <=? y) && (y <=? 9999) then padStart 4 (showZ y)
            else (if y <? 0 then "-" else "+") +:+ padStart 6 (showZ (Z.abs y)) in
  ys +:+ "-" +:+ padStart 2 (showZ (getMonth t + 1))
     +:+ "-" +:+ padStart 2 (showZ (getDate t)).

Definition isDigit (c : ascii) : bool :=
  let n := nat_of_ascii c in ((48 <=? n) && (n <=? 57))%nat.

Fixpoint digitsValue (acc : Z) (s : string) : option Z :=
  match s with
  | EmptyString => Some acc
  | String c r =>
      if isDigit c
      then digitsValue (10 * acc + Z.of_nat (nat_of_ascii c - 48)) r
      else None
  end.

(** [Number(s)] on a string of decimal digits ([Number('')] is 0); [None]
    stands for [NaN].  Other numeric spellings (signs, exponents, blanks)
    do not occur in the strings the module converts. *)
Definition Number (s : string) : option Z := digitsValue 0 s.

(** [s.split(sep)] for a one-character separator. *)
Fixpoint splitOn (sep : ascii) (s : string) : list string :=
  match s with
  | EmptyString => [EmptyString]
  | String c r =>
      if Ascii.eqb c sep then EmptyString :: splitOn sep r
      else match splitOn sep r with
           | x :: xs => String c x :: xs
           | [] => [String c EmptyString]
           end
  end.

Definition digitsOfLength (k : nat) (s : string) : option Z :=
  if (String.length s =? k)%nat then Number s else None.

(** [new Date(str)] for the ISO date-only forms [YYYY], [YYYY-MM] and
    [YYYY-MM-DD], which denote midnight UTC.  The month must lie in 1..12
    and the day in 1..31; a day past the end of the month rolls over into
    the next one, as in V8.  Any other string gives an Invalid Date. *)
Definition parseDate (s : string) : option Z :=
  match splitOn "-" s with
  | [y] =>
      match digitsOfLength 4 y with
      | Some y' => Some (MakeDay y' 0 1 * msPerDay)
      | None => None
      end
  | [y; m] =>
      match digitsOfLength 4 y, digitsOfLength 2 m with
      | Some y', Some m' =>
          if (1 <=? m') && (m' <=? 12)
          then Some (MakeDay y' (m' - 1) 1 * msPerDay) else None
      | _, _ => None
      end
  | [y; m; d] =>
      match digitsOfLength 4 y, digitsOfLength 2 m, digitsOfLength 2 d with
      | Some y', Some m', Some d' =>
          if (1 <=? m') && (m' <=? 12) && (1 <=? d') && (d' <=? 31)
          then Some (MakeDay y' (m' - 1) d' * msPerDay) else None
      | _, _, _ => None
      end
  | _ => None
  end.

(** [new Date(str)] when [str] may be [undefined]. *)
Definition newDate (o : option string) : option Z :=
  match o with
  | Some s => parseDate s
  | None => None
  end.

(** [isNonWorkingDay]: [getDay()] of an Invalid Date is [NaN], which is
    neither [=== 0] nor included in an array of weekday numbers. *)
Definition isNonWorkingDay (dateStr : string) (userData : UserData) : bool :=
  match parseDate dateStr with
  | None => false
  | Some t =>
      let dayOfWeek := getDay t in
      if dayOfWeek =? 0 then true
      else if existsb (Z.eqb dayOfWeek) (default [] (weeklyDaysOff userData))
      then true
      else false
  end.

(** [getYearMonthFromDate(dateStr)]; the getters of an Invalid Date give
    [NaN]. *)
Definition getYearMonthFromDate (now : Z) (dateStr : option string) : string :=
  let d := if truthy dateStr then newDate dateStr else Some now in
  match d with
  | Some t => showZ (getFullYear t) +:+ "-" +:+ padStart 2 (showZ (getMonth t + 1))
  | None => "NaN-NaN"
  end.

(* ------------------------------------------------------------------ *)
(** ** Attendance calculator *)

(** [userData.holidays && userData.holidays.some(h => h.date === dateStr)]. *)
Definition isHoliday (dateStr : string) (userData : UserData) : bool :=
  existsb (isHolidayOn dateStr) (default [] (holidays userData)).

(** [userData.notEnrolled && userData.notEnrolled.includes(dateStr)]. *)
Definition isNotEnrolled (dateStr : string) (userData : UserData) : bool :=
  includes dateStr (default [] (notEnrolled userData)).

(** [userData.records && userData.records[dateStr] === true]. *)
Definition isPresent (dateStr : string) (userData : UserData) : bool :=
  match recordOn dateStr userData with
  | Some true => true
  | _ => false
  end.

(** The part of the loop body that both calculations share: the
    non-working-day, holiday and not-enrolled tests (each a [continue]),
    then the two counters [(presentDays, totalWorkingDays)]. *)
Definition countDay (userData : UserData) (dateStr : string) (acc : Z * Z)
    : Z * Z :=
  let '(presentDays, totalWorkingDays) := acc in
  if isNonWorkingDay dateStr userData then acc
  else if isHoliday dateStr userData then acc
  else if isNotEnrolled dateStr userData then acc
  else (if isPresent dateStr userData then presentDays + 1 else presentDays,
        totalWorkingDays + 1).

(** [Math.round((presentDays / totalWorkingDays) * 100)], rounding half up,
    in exact arithmetic.  For totals up to 31 (any month) the double
    computation of the source gives the same integer: a tie needs
    [presentDays / totalWorkingDays] to be a multiple of 1/8, which doubles
    represent exactly. *)
Definition roundPercent (presentDays totalWorkingDays : Z) : Z :=
  (200 * presentDays + totalWorkingDays) / (2 * totalWorkingDays).

Definition percentageOf (presentDays totalWorkingDays : Z) : Z :=
  if 0 <? totalWorkingDays then roundPercent presentDays totalWorkingDays else 0.

(** The date string built in the monthly loop. *)
Definition monthDateStr (year month day : Z) : string :=
  showZ year +:+ "-" +:+ padStart 2 (showZ month) +:+ "-" +:+ padStart 2 (showZ day).

(** Body of the monthly [for] loop; [dateStr > today] compares strings. *)
Definition monthBody (userData : UserData) (year month : Z) (today : string)
    (day : Z) (acc : Z * Z) : Z * Z :=
  let dateStr := monthDateStr year month day in
  if String.ltb today dateStr then acc
  else countDay userData dateStr acc.

(** [for (let day = 1; day <= daysInMonth; day++)], entered at [day] with
    [n] iterations left. *)
Fixpoint monthLoop (userData : UserData) (year month : Z) (today : string)
    (n : nat) (day : Z) (acc : Z * Z) : Z * Z :=
  match n with
  | O => acc
  | S n' =>
      monthLoop userData year month today n' (day + 1)
        (monthBody userData year month today day acc)
  end.

(** [calculateMonthlyAttendance].  When a component of [yearMonth] is
    missing or not a number, or the date is out of range, [daysInMonth] is
    [NaN] and the loop does not run. *)
Definition calculateMonthlyAttendance (now : Z) (attendanceKey yearMonth : string)
    (db : Store) : Z :=
  let userData := getUserData attendanceKey db in
  match List.map Number (splitOn "-" yearMonth) with
  | Some year :: Some month :: _ =>
      match newDateYMD year month 0 with
      | Some lastDay =>
          let daysInMonth := getDate lastDay in
          let today := getFormattedDate now in
          let '(presentDays, totalWorkingDays) :=
            monthLoop userData year month today (Z.to_nat daysInMonth) 1 (0, 0) in
          percentageOf presentDays totalWorkingDays
      | None => 0
      end
  | _ => 0
  end.

(** The value [calculateSessionAttendance] returns. *)
Record SessionAttendance := mkSessionAttendance {
  percentage : Z;
  sessionName : string;
  presentDays : Z;
  totalWorkingDays : Z
}.

(** The session-matching predicate of [calculateSessionAttendance] and
    [saveSession]: [s.name.toLowerCase() === x.toLowerCase() || s.code === x]. *)
Definition matchesNameOrCode (nm cd : string) (s : Session) : bool :=
  String.eqb (toLowerCase (name s)) (toLowerCase nm) || String.eqb (code s) cd.

(** The window of [calculateSessionAttendance]: [(startDate, endDate,
    sessionUsed)] after the three resolution steps. *)
Definition resolveWindow (now : Z) (userData : UserData)
    (sessionName : option string) : option string * option string * string :=
  let sessions := default [] (sessions userData) in
  let selectedSession := List.find isSelected sessions in
  let w1 : option string * option string * string :=
    match selectedSession with
    | Some s =>
        (startDate s,
         Some (orElse (endDate s) (getFormattedDate now)),
         orElse (Some (name s)) "current session")
    | None => (None, None, "current session")
    end in
  let missing (w : option string * option string * string) :=
    negb (truthy (fst (fst w))) || negb (truthy (snd (fst w))) in
  let w2 :=
    if missing w1 && truthy sessionName then
      let hint := default "" sessionName in
      match List.find (matchesNameOrCode hint hint) sessions with
      | Some session => (startDate session, endDate session, name session)
      | None => w1
      end
    else w1 in
  if missing w2 then
    let currentYear := showZ (getFullYear now) in
    (Some (currentYear +:+ "-01-01"), Some (currentYear +:+ "-12-31"), "current year")
  else w2.

(** Body of the [while] loop: the counters after the day [currentDate]. *)
Definition sessionBody (userData : UserData) (currentDate : Z) (acc : Z * Z)
    : Z * Z :=
  countDay userData (toISODate currentDate) acc.

(** A value together with the equation that it is that value, so that the
    loop test is available to the termination argument. *)
Definition inspect {A} (a : A) : {b | a = b} := exist _ a eq_refl.

(** [while (currentDate <= end && currentDate <= today)]; each iteration
    ends with [currentDate.setDate(currentDate.getDate() + 1)]. *)
Equations? sessionLoop (userData : UserData) (endT today : Z)
    (currentDate : Z) (acc : Z * Z) : Z * Z
    by wf (Z.to_nat ((Z.min endT today - currentDate) / msPerDay + 1)) lt :=
  sessionLoop userData endT today currentDate acc
    with inspect ((currentDate <=? endT) && (currentDate <=? today)) => {
    | exist _ true _ =>
        sessionLoop userData endT today (currentDate + msPerDay)
          (sessionBody userData currentDate acc);
    | exist _ false _ => acc }.
Proof.
  apply andb_prop in e as [H1 H2].
  apply Z.leb_le in H1, H2.
  assert (Hpos : 0 <= (Z.min endT today - currentDate) / msPerDay)
    by (apply Z.div_pos; unfold msPerDay; lia).
  replace (Z.min endT today - (currentDate + msPerDay))
    with (Z.min endT today - currentDate + (-1) * msPerDay) by lia.
  rewrite Z.div_add by (unfold msPerDay; lia). lia.
Qed.

(** [calculateSessionAttendance]: a comparison with an Invalid Date is
    false, so the loop does not run unless all three dates are valid. *)
Definition calculateSessionAttendance (now : Z) (attendanceKey : string)
    (sessionName : option string) (db : Store) : SessionAttendance :=
  let userData := getUserData attendanceKey db in
  let '(startDate, endDate, sessionUsed) := resolveWindow now userData sessionName in
  let start := newDate startDate in
  let endT := newDate endDate in
  let today := parseDate (getFormattedDate now) in
  let '(presentDays, totalWorkingDays) :=
    match start, endT, today with
    | Some s, Some e, Some t => sessionLoop userData e t s (0, 0)
    | _, _, _ => (0, 0)
    end in
  {| percentage := percentageOf presentDays totalWorkingDays;
     sessionName := sessionUsed;
     presentDays := presentDays;
     totalWorkingDays := totalWorkingDays |}.

(* ------------------------------------------------------------------ *)
(** ** Session manager *)

(** [generateSessionCode]; [random] is the value of
    [Math.random().toString(36).substring(2, 6)], at most four characters
    of [0-9a-z]. *)
Definition generateSessionCode (random : string) (sessionName : string) : string :=
  let base := prefix 8 (stripNonAlnum (toLowerCase sessionName)) in
  base +:+ random.

(** [l.findIndex(p)], with [None] for -1. *)
Fixpoint findIndex {A} (p : A -> bool) (l : list A) : option nat :=
  match l with
  | [] => None
  | x :: l' => if p x then Some O else S <$> findIndex p l'
  end.

(** [{ ...session, isSelected: b }]. *)
Definition withSelected (b : bool) (s : Session) : Session :=
  {| name := name s; code := code s; startDate := startDate s;
     endDate := endDate s; createdAt := createdAt s; isSelected := b |}.

(** [sessions.map(session => ({ ...session, isSelected: session.code === c }))]. *)
Definition selectByCode (c : string) (l : list Session) : list Session :=
  List.map (fun session => withSelected (String.eqb (code session) c) session) l.

(** [Array.prototype.sort(cmp)], which is stable: an element is placed
    before the first later one that the comparator does not put ahead of
    it. *)
Fixpoint insertBy {A} (cmp : A -> A -> Z) (x : A) (l : list A) : list A :=
  match l with
  | [] => [x]
  | y :: l' => if cmp x y <=? 0 then x :: y :: l' else y :: insertBy cmp x l'
  end.

Definition sortBy {A} (cmp : A -> A -> Z) (l : list A) : list A :=
  foldr (insertBy cmp) [] l.

(** [(a, b) => new Date(b.createdAt) - new Date(a.createdAt)]. *)
Definition newestFirst (a b : Session) : Z := createdAt b - createdAt a.

(** The result of [setAlexaPresetSession]:
    [{ success: true, session }] or [{ success: false, error }]. *)
Inductive PresetResult :=
| PresetOk (session : Session)
| PresetError (error : string).

(** The predicate of the [find] in [setAlexaPresetSession]. *)
Definition matchesIdentifier (sessionIdentifier : string) (s : Session) : bool :=
  String.eqb (code s) sessionIdentifier
  || (negb (String.eqb (name s) "")
      && String.eqb (toLowerCase (name s)) (toLowerCase sessionIdentifier)).

Definition setAlexaPresetSession (attendanceKey sessionIdentifier : string)
    (db : Store) : Store * PresetResult :=
  let userData := getUserData attendanceKey db in
  match sessions userData with
  | None | Some [] => (db, PresetError "No sessions found")
  | Some l =>
      match List.find (matchesIdentifier sessionIdentifier) l with
      | None => (db, PresetError "Session not found")
      | Some found =>
          let sessions' := selectByCode (code found) l in
          (updateUserData attendanceKey (sessionsOnly sessions') db,
           PresetOk found)
      end
  end.

Definition getAlexaPresetSession (attendanceKey : string) (db : Store)
    : option Session :=
  List.find isSelected (default [] (sessions (getUserData attendanceKey db))).

Definition clearAlexaPresetSession (attendanceKey : string) (db : Store) : Store :=
  let sessions0 := default [] (sessions (getUserData attendanceKey db)) in
  let updatedSessions := List.map (withSelected false) sessions0 in
  updateUserData attendanceKey (sessionsOnly updatedSessions) db.

(** The list [saveSession] stores, from the list it read. *)
Definition upsert (sessions0 : list Session) (sessionData : Session)
    (setAsPreset : bool) : list Session :=
  let existingIndex :=
    findIndex (matchesNameOrCode (name sessionData) (code sessionData)) sessions0 in
  let updatedSessions :=
    match existingIndex with
    | Some i => <[i := sessionData]> sessions0
    | None => sessions0 ++ [sessionData]
    end in
  let updatedSessions :=
    if setAsPreset then selectByCode (code sessionData) updatedSessions
    else updatedSessions in
  sortBy newestFirst updatedSessions.

(** [saveSession]; [now] is the clock read by [new Date().toISOString()]
    and [random] the suffix drawn by [generateSessionCode]. *)
Definition saveSession (now : Z) (random : string) (attendanceKey sessionName : string)
    (startDate endDate : option string) (setAsPreset : bool) (db : Store)
    : Store * Session :=
  let userData := getUserData attendanceKey db in
  let sessions0 := default [] (sessions userData) in
  let sessionCode := generateSessionCode random sessionName in
  let sessionData :=
    {| name := sessionName; code := sessionCode; startDate := startDate;
       endDate := endDate; createdAt := now; isSelected := setAsPreset |} in
  (updateUserData attendanceKey
     (sessionsOnly (upsert sessions0 sessionData setAsPreset)) db,
   sessionData).

Definition getAvailableSessions (attendanceKey : string) (db : Store)
    : list Session :=
  default [] (sessions (getUserData attendanceKey db)).

(* ------------------------------------------------------------------ *)
(** ** Intent handlers *)

(** What a handler answers: one constructor per [speak(...)] of the
    handlers below, carrying the values interpolated into the sentence. *)
Inductive Response :=
| NonWorkingDay
| AlreadyMarked (status : string)
| ConfirmChange (oldStatus newStatus : string)
| Marked (status : string)
| NoSessionsYet
| AvailableSessions (names : list string) (andMore : bool)
| SessionSet (sessionName : string)
| AmbiguousSessions (count : nat) (sessionName : string)
    (dateRanges : list (option string * option string))
    (sessionCodes : list string)
| NotFoundNoSessions (sessionName : string)
| NotFoundAvailable (sessionName : string) (names : list string) (andMore : bool).

(** [sessionAttributes.pendingStatusChange]. *)
Record PendingStatusChange := mkPending {
  pendingDate : string;
  newStatus : string;
  oldStatus : string
}.

(** The session attributes the handlers below touch. *)
Record SessionAttributes := mkAttributes {
  pendingStatusChange : option PendingStatusChange
}.

(** [existingStatus.status || existingStatus]. *)
Definition statusOf (st : DayStatus) : string :=
  match st with
  | Tag s => s
  | Tagged s _ => s
  end.

(** [MarkPresentIntentHandler.handle] for a linked account, from the point
    where [getUserKey] has given the caller's attendance key; [ts] is the
    server timestamp of a write. *)
Definition MarkPresentIntentHandler (now ts : Z) (attendanceKey : string)
    (attrs : SessionAttributes) (db : Store)
    : Response * SessionAttributes * Store :=
  let today := getFormattedDate now in
  let userData := getUserData attendanceKey db in
  if isNonWorkingDay today userData then (NonWorkingDay, attrs, db)
  else
    match getDayStatus attendanceKey today db with
    | Some existingStatus =>
        if String.eqb (statusOf existingStatus) "present"
        then (AlreadyMarked "present", attrs, db)
        else
          (ConfirmChange (statusOf existingStatus) "present",
           {| pendingStatusChange :=
                Some (mkPending today "present" (statusOf existingStatus)) |},
           db)
    | None =>
        (Marked "present", attrs,
         setDayStatus ts attendanceKey today "present" (mkExtra None) db)
    end.

(** [sessions.slice(0, 5).map(s => s.name)] and whether more remain. *)
Definition firstFiveNames (l : list Session) : list string * bool :=
  (List.map name (take 5 l), (5 <? length l)%nat).

(** [SelectSessionIntentHandler.handle] for a linked account, from the
    point where [getUserKey] has given the caller's attendance key;
    [sessionName] is the value of the slot of that name. *)
Definition SelectSessionIntentHandler (attendanceKey : string)
    (sessionName : option string) (db : Store) : Response * Store :=
  let sessions := getAvailableSessions attendanceKey db in
  match sessionName with
  | None | Some EmptyString =>
      match sessions with
      | [] => (NoSessionsYet, db)
      | _ => let '(names, more) := firstFiveNames sessions in
             (AvailableSessions names more, db)
      end
  | Some sessionName =>
      match List.find (fun s => String.eqb (code s) sessionName) sessions with
      | Some exactCodeMatch =>
          (SessionSet (name exactCodeMatch),
           fst (setAlexaPresetSession attendanceKey (code exactCodeMatch) db))
      | None =>
          let nameMatches :=
            List.filter (fun s => String.eqb (toLowerCase (name s))
                                    (toLowerCase sessionName)) sessions in
          match nameMatches with
          | [only] =>
              (SessionSet (name only),
               fst (setAlexaPresetSession attendanceKey (code only) db))
          | _ :: _ :: _ =>
              (AmbiguousSessions (length nameMatches) sessionName
                 (List.map (fun s => (startDate s, endDate s)) nameMatches)
                 (List.map code nameMatches),
               db)
          | [] =>
              match sessions with
              | [] => (NotFoundNoSessions sessionName, db)
              | _ => let '(names, more) := firstFiveNames sessions in
                     (NotFoundAvailable sessionName names more, db)
              end
          end
      end
  end.

(* ------------------------------------------------------------------ *)
(** ** Vocabulary of the properties *)

(** The three places a date can be recorded in. *)
Inductive Container := InRecords | InHolidays | InNotEnrolled.

(** [records[d]] is defined; [holidays] has an entry dated [d];
    [notEnrolled] contains [d]. *)
Definition holdsIn (c : Container) (d : string) (doc : UserData) : Prop :=
  match c with
  | InRecords => is_Some (recordOn d doc)
  | InHolidays => isHoliday d doc = true
  | InNotEnrolled => isNotEnrolled d doc = true
  end.

Definition exactlyOne (P Q R : Prop) : Prop :=
  (P /\ ~ Q /\ ~ R) \/ (~ P /\ Q /\ ~ R) \/ (~ P /\ ~ Q /\ R).

(** The statuses [setDayStatus] acts on. *)
Definition dayStatuses : list string :=
  ["present"; "absent"; "holiday"; "not-enrolled"].

(** The number of dates of a list that satisfy a test. *)
Definition countIf (p : string -> bool) (dates : list string) : Z :=
  Z.of_nat (length (List.filter p dates)).

(** A working day: not a Sunday or weekly day off, not a holiday, not marked
    not-enrolled. *)
Definition isWorkingDay (userData : UserData) (dateStr : string) : bool :=
  negb (isNonWorkingDay dateStr userData)
  && negb (isHoliday dateStr userData)
  && negb (isNotEnrolled dateStr userData).

Definition isWorkingPresent (userData : UserData) (dateStr : string) : bool :=
  isWorkingDay userData dateStr && isPresent dateStr userData.

(** The instants [start], [start] + 1 day, ... that are not after [last]. *)
Definition daysUpTo (start last : Z) : list Z :=
  List.map (fun i => start + Z.of_nat i * msPerDay)
    (List.seq 0 (Z.to_nat ((last - start) / msPerDay + 1))).

(** The dates the session loop visits when it starts at [start] and the
    last day it may visit is [last]. *)
Definition windowDays (start : option Z) (last : Z) : list string :=
  match start with
  | Some s => List.map toISODate (daysUpTo s last)
  | None => []
  end.

(** The date strings the monthly loop builds for [n] consecutive days from
    [first]. *)
Definition monthDates (year month first : Z) (n : nat) : list string :=
  List.map (fun i => monthDateStr year month (first + Z.of_nat i)) (List.seq 0 n).

(** The dates [calculateMonthlyAttendance] goes through for [yearMonth]:
    every day of that month, or none when [yearMonth] does not give a year
    and a month number. *)
Definition datesOfMonth (yearMonth : string) : list string :=
  match List.map Number (splitOn "-" yearMonth) with
  | Some year :: Some month :: _ =>
      match newDateYMD year month 0 with
      | Some lastDay => monthDates year month 1 (Z.to_nat (getDate lastDay))
      | None => []
      end
  | _ => []
  end.

(** An eligible working day of the monthly calculation: on or before
    [today], and a working day. *)
Definition isEligible (userData : UserData) (today dateStr : string) : bool :=
  negb (String.ltb today dateStr) && isWorkingDay userData dateStr.

Definition isEligiblePresent (userData : UserData) (today dateStr : string) : bool :=
  isEligible userData today dateStr && isPresent dateStr userData.

(** [r] is [x / y * 100] rounded to the nearest integer, halves upwards:
    [r - 1/2 <= 100 x / y < r + 1/2]. *)
Definition isRoundedPercent (x y r : Z) : Prop :=
  2 * r * y - y <= 200 * x < 2 * r * y + y.

(** Newest first: each session was created no earlier than the next. *)
Definition notOlder (a b : Session) : Prop := createdAt b <= createdAt a.

(** The name test of [saveSession] and of the name filter of
    [SelectSessionIntentHandler]:
    [s.name.toLowerCase() === nm.toLowerCase()]. *)
Definition sameName (nm : string) (s : Session) : bool :=
  String.eqb (toLowerCase (name s)) (toLowerCase nm).

(** [p] holds of the [n] integers from [start]. *)
Fixpoint allFrom (p : Z -> bool) (start : Z) (n : nat) : bool :=
  match n with
  | O => true
  | S k => p start && allFrom p (start + 1) k
  end.

(** For a day [doe] of a 400-year era, what [civilFromDays] computes is in
    range and [daysFromCivil] leads back to [doe]. *)
Definition eraCheck (doe : Z) : bool :=
  let yoe := (doe - doe / 1460 + doe / 36524 - doe / 146096) / 365 in
  let doy := doe - (365 * yoe + yoe / 4 - yoe / 100) in
  let mp := (5 * doy + 2) / 153 in
  let d := doy - (153 * mp + 2) / 5 + 1 in
  let m := if mp <? 10 then mp + 3 else mp - 9 in
  (0 <=? yoe) && (yoe <=? 399) && (1 <=? m) && (m <=? 12)
  && (1 <=? d) && (d <=? 31)
  && ((if 2 <? m then m - 3 else m + 9) =? mp)
  && ((153 * mp + 2) / 5 + d - 1 =? doy)
  && (yoe * 365 + yoe / 4 - yoe / 100 + doy =? doe).

Fixpoint allDigits (s : string) : bool :=
  match s with
  | EmptyString => true
  | String c r => isDigit c && allDigits r
  end.

(** [s] is [k] decimal digits that read as [n]. *)
Definition readsAs (k : nat) (n : Z) (s : string) : bool :=
  allDigits s
  && match digitsOfLength k s with
     | Some n' => n' =? n
     | None => false
     end.

(** The year part of [toISODate], and of [getFormattedDate] from the year
    1000 on. *)
Definition yearCheck (y : Z) : bool :=
  readsAs 4 y (padStart 4 (showZ y))
  && ((y <? 1000) || String.eqb (padStart 4 (showZ y)) (showZ y)).

(** The month and day parts. *)
Definition twoDigitCheck (n : Z) : bool := readsAs 2 n (padStart 2 (showZ n)).

(** Today, as the handlers see it, is a Sunday: the date string of today
    denotes a day whose weekday is 0. *)
Definition todayIsSunday (now : Z) : Prop :=
  exists t, parseDate (getFormattedDate now) = Some t /\ getDay t = 0.

(* ------------------------------------------------------------------ *)
(** ** Sample documents *)

(** The "Term1" scenario: a selected session over the first week of 2024,
    with two days present, two absent and one holiday. *)
Definition term1 : Session :=
  mkSession "Term1" "term1ab12" (Some "2024-01-01") (Some "2024-01-05") 0 true.

Definition term1Doc : UserData :=
  {| records := Some (<["2024-01-01" := true]> (<["2024-01-02" := false]>
                       (<["2024-01-04" := true]> (<["2024-01-05" := false]> ∅))));
     holidays := Some [Holiday.mk "2024-01-03" "New Year"];
     notEnrolled := None;
     sessions := Some [term1];
     weeklyDaysOff := None;
     updatedAt := None |}.

Definition term1Db : Store := {["user" := term1Doc]}.

(** 2024-01-03, at noon. *)
Definition noon3January : Z := 19725 * msPerDay + 43200000.

(** 2024-03-10 (a Sunday), one hour past midnight. *)
Definition sunday10March : Z := 19792 * msPerDay + 3600000.

(** A stored list with one session, "Fall", that is the preset. *)
Definition fallPreset : Session :=
  mkSession "Fall" "fallab12" (Some "2023-09-01") (Some "2023-12-20") 100 true.

Definition fallDb : Store := {["user" := sessionsOnly [fallPreset]]}.

(** Two sessions named "Fall"; the second one is the preset. *)
Definition fallOld : Session :=
  mkSession "Fall" "fallcd34" (Some "2022-09-01") (Some "2022-12-20") 200 false.

Definition twoFallsDb : Store := {["user" := sessionsOnly [fallOld; fallPreset]]}.

(** Two sessions that carry the same code, and a store that three calls of
    [saveSession] bring into that state: "Fall!" is saved, then "Fall", then
    "Fall" again with the random suffix that "Fall!" had drawn. *)
Definition fallA : Session :=
  mkSession "Fall" "fall0001" (Some "2024-09-02") (Some "2024-12-20") 300 false.
Definition fallBang : Session :=
  mkSession "Fall!" "fall0001" (Some "2023-09-01") (Some "2023-12-20") 100 false.

Definition sharedCodeDb : Store :=
  let db1 := fst (saveSession 100 "0001" "user" "Fall!" (Some "2023-09-01")
                    (Some "2023-12-20") false ∅) in
  let db2 := fst (saveSession 200 "zz99" "user" "Fall" (Some "2024-09-01")
                    (Some "2024-12-20") false db1) in
  fst (saveSession 300 "0001" "user" "Fall" (Some "2024-09-02")
         (Some "2024-12-20") false db2).

(** Two sessions named "Fall" up to case, stored under one code. *)
Definition fallTwin : Session :=
  mkSession "FALL" "fall0001" (Some "2025-09-01") (Some "2025-12-19") 150 false.

Definition twinDb : Store := {["user" := sessionsOnly [fallA; fallTwin]]}.

(** A session whose name is the code of a later one. *)
Definition namedLikeCode : Session :=
  mkSession "fallab12" "springzz" (Some "2024-01-08") (Some "2024-05-31") 300 false.

Definition shadowDb : Store := {["user" := sessionsOnly [namedLikeCode; fallPreset]]}.

(** A user with [records = {}] and [weeklyDaysOff = []]. *)
Definition emptyRecordsDb : Store :=
  {["user" := {| records := Some ∅; holidays := None; notEnrolled := None;
                 sessions := None; weeklyDaysOff := Some [];
                 updatedAt := None |}]}.

(** No session attributes. *)
Definition noAttributes : SessionAttributes := mkAttributes None.

(* ------------------------------------------------------------------ *)
(** ** Account linking and the credentials collection *)

(** The Firestore collection [credentials] is a finite map from document
    ids to documents, threaded like the [attendance] collection.  The
    answer of the Amazon profile API to [getAlexaUserProfile] is an input
    of the turn: [None] when the request fails or is refused. *)
Module Profile.
Record t := mk {
  email : option string;
  name : option string
}.
End Profile.

(** A document of [credentials], with the fields the module reads or
    writes. *)
Module Credential.
Record t := mk {
  alexaUserId : option string;
  email : option string;
  name : option string;
  username : option string;
  type : option string;
  key : option string;
  linkedGoogleUid : option string;
  mappedToGoogle : option bool;
  createdAt : option Z
}.
End Credential.

(** The [credentials] collection. *)
Abbreviation Credentials := (gmap string Credential.t).

(** What [findGoogleUserByEmail] returns besides [null]. *)
Module GoogleUser.
Record t := mk {
  uid : string;
  key : string;
  email : option string;
  name : option string
}.
End GoogleUser.

(** What [getExistingAlexaUser] returns besides [{ exists: false }]. *)
Module ExistingAlexa.
Record t := mk {
  alexaDocId : string;
  key : option string;
  linkedGoogleUid : option string;
  mappedToGoogle : bool
}.
End ExistingAlexa.

(** [a || b] when [b] may be [null]. *)
Definition orNull (a b : option string) : option string :=
  if truthy a then a else b.

(** A value that is given, that is truthy: the tests [if (!x) ...] on a
    slot value or a key. *)
Definition given (o : option string) : option string :=
  if truthy o then o else None.

(** [alexaProfile?.email] and [alexaProfile?.name]. *)
Definition profileEmail (alexaProfile : option Profile.t) : option string :=
  match alexaProfile with
  | Some p => Profile.email p
  | None => None
  end.

Definition profileName (alexaProfile : option Profile.t) : option string :=
  match alexaProfile with
  | Some p => Profile.name p
  | None => None
  end.

(** The test of the query [where('email', '==', email)]. *)
Definition hasEmail (email : string) (doc : string * Credential.t) : bool :=
  match Credential.email (snd doc) with
  | Some e => String.eqb e email
  | None => false
  end.

(** [findGoogleUserByEmail]: the query is limited to one document, which
    is the first match in the order the store lists its documents. *)
Definition findGoogleUserByEmail (email : string) (creds : Credentials)
    : option GoogleUser.t :=
  match List.filter (hasEmail email) (map_to_list creds) with
  | [] => None
  | doc :: _ =>
      let data := snd doc in
      Some {| GoogleUser.uid := fst doc;
              GoogleUser.key := orElse (Credential.key data) (fst doc);
              GoogleUser.email := Credential.email data;
              GoogleUser.name :=
                orNull (orNull (Credential.name data) (Credential.username data))
                  None |}
  end.

(** [createAlexaUserDocument]; [now] is [Date.now()], [random] the value
    of [Math.random().toString(36).substring(2, 11)] and [ts] the server
    timestamp.  It returns [{ alexaDocId, userKey }]. *)
Definition createAlexaUserDocument (now ts : Z) (random : string)
    (alexaUserId : string) (alexaProfile : option Profile.t)
    (linkedGoogleUid sharedKey : option string) (creds : Credentials)
    : Credentials * (string * string) :=
  let alexaDocId := "alexa-" +:+ alexaUserId in
  let userKey := orElse sharedKey ("key-" +:+ showZ now +:+ "-" +:+ random) in
  let alexaUserData :=
    {| Credential.alexaUserId := Some alexaUserId;
       Credential.email := orNull (profileEmail alexaProfile) None;
       Credential.name := Some (orElse (profileName alexaProfile) "Alexa User");
       Credential.username := None;
       Credential.type := Some "alexa";
       Credential.key := Some userKey;
       Credential.linkedGoogleUid := orNull linkedGoogleUid None;
       Credential.mappedToGoogle := Some (truthy linkedGoogleUid);
       Credential.createdAt := Some ts |} in
  (<[alexaDocId := alexaUserData]> creds, (alexaDocId, userKey)).

Definition getExistingAlexaUser (alexaUserId : string) (creds : Credentials)
    : option ExistingAlexa.t :=
  let alexaDocId := "alexa-" +:+ alexaUserId in
  match creds !! alexaDocId with
  | Some data =>
      Some {| ExistingAlexa.alexaDocId := alexaDocId;
              ExistingAlexa.key := Credential.key data;
              ExistingAlexa.linkedGoogleUid :=
                orNull (Credential.linkedGoogleUid data) None;
              ExistingAlexa.mappedToGoogle :=
                default false (Credential.mappedToGoogle data) |}
  | None => None
  end.

(** [findOrCreateUserMapping]: the key for the attendance data of the
    Alexa user, [None] when the stored document has no [key] field.
    [alexaProfile] is what [getAlexaUserProfile(accessToken)] answers.
    Reads and writes of the store succeed, so the [catch] branch is not
    taken. *)
Definition findOrCreateUserMapping (now ts : Z) (random : string)
    (alexaProfile : option Profile.t) (alexaUserId : string)
    (creds : Credentials) : Credentials * option string :=
  match getExistingAlexaUser alexaUserId creds with
  | Some existingAlexa => (creds, ExistingAlexa.key existingAlexa)
  | None =>
      let alexaEmail := profileEmail alexaProfile in
      let standalone :=
        let '(creds', (_, userKey)) :=
          createAlexaUserDocument now ts random alexaUserId alexaProfile
            None None creds in
        (creds', Some userKey) in
      match alexaEmail with
      | Some email =>
          if String.eqb email "" then standalone
          else
            match findGoogleUserByEmail email creds with
            | Some googleUser =>
                let '(creds', (_, userKey)) :=
                  createAlexaUserDocument now ts random alexaUserId alexaProfile
                    (Some (GoogleUser.uid googleUser))
                    (Some (GoogleUser.key googleUser)) creds in
                (creds', Some userKey)
            | None => standalone
            end
      | None => standalone
      end
  end.

(* ------------------------------------------------------------------ *)
(** ** The skill: one request after another *)

Module Skill.

(** What one request brings with it: the user id and the access token of
    the request envelope, and what the environment answers while the
    request is handled, namely the profile the Amazon API returns, the
    clock (read as one instant), the server timestamp of a write, and the
    random suffixes drawn for a new attendance key and for a session
    code. *)
Record Turn := mkTurn {
  userId : string;
  accessToken : option string;
  alexaProfile : option Profile.t;
  now : Z;
  serverTimestamp : Z;
  keyRandom : string;
  codeRandom : string
}.

(** The two collections. *)
Record World := mkWorld {
  credentials : Credentials;
  attendance : Store
}.

(** [sessionAttributes.pendingStatusChange]. *)
Record PendingStatusChange := mkPending {
  date : string;
  newStatus : string;
  oldStatus : string;
  holidayName : option string
}.

(** The values of [shouldSetAsPreset], which is
    [setAsPreset && (... === 'yes' || ... === 'true')]: [undefined] (also
    when the attribute is absent), the empty string, or a boolean. *)
Inductive PresetFlag :=
| NoFlag
| EmptyFlag
| Flag (b : bool).

(** The session attributes, which the platform hands back with the next
    request of the same session.  [inSessionCreation] is only ever set to
    [true] or deleted. *)
Record SessionAttributes := mkAttributes {
  pendingStatusChange : option PendingStatusChange;
  inSessionCreation : bool;
  sessionCreationStep : option string;
  pendingSessionName : option string;
  pendingStartDate : option string;
  shouldSetAsPreset : PresetFlag
}.

(** What is spoken: one constructor per sentence of the handlers,
    carrying the values interpolated into it.  A date that the sentence
    renders with [formatAlexaDate] or [toLocaleString] is carried as the
    value handed to that function. *)
Inductive Speech :=
| LinkAccount
| Welcome
| WelcomeBriefly
| NonWorkingDay
| AlreadyMarked (status : string)
| AlreadyHoliday (name : string)
| ConfirmChange (oldStatus newStatus : string)
| ConfirmHoliday (oldStatus holidayName : string)
| Marked (status : string)
| MarkedHoliday (holidayName : string)
| MarkingError
| AskHolidayName
| HolidayError
| MonthlyReport (month : option Z) (percentage : Z)
| MonthlyError
| SessionReport (result : SessionAttendance)
| SessionError
| PercentageReport (result : SessionAttendance)
| PercentageError
| NoSessionsCreateFirst
| PresetChoices (entries : list (string * bool)) (preset : option string)
| FetchSessionsError
| PresetSet (sessionName : string)
| PresetNotFound (sessionName : string)
| SetPresetError
| CurrentPreset (sessionName : string) (startDate endDate : option string)
| NoPreset
| GetPresetError
| PresetCleared
| NothingToClear
| ClearPresetError
| Selecting (response : Response)
| SelectError
| NoSessionsYet
| SessionList (count : nat) (entries : list (string * bool)) (more : option nat)
    (preset : option string)
| ListError
| AskSessionName (willBePreset : bool)
| CreateSessionError
| AskSessionNameAgain
| AskStartDate (sessionName : string)
| CreateWithNameError
| StartsOn (startDate : string)
| AskStartDateAgain
| Created (sessionName : string) (startDate endDate : option string)
    (asPreset : bool)
| AskEndDateAgain
| DateEcho (date : string)
| DateUnknown
| Changed (date oldStatus newStatus : string) (holidayName : option string)
| ChangeError
| AskSessionNameGreat
| WhatNext
| NoChanges
| Help
| Goodbye
| NotUnderstood
| Silence
| Trouble.

Definition Result : Type := Speech * SessionAttributes * World.

(** [getUserKey]: [None] when it throws for want of an access token. *)
Definition getUserKey (t : Turn) (creds : Credentials)
    : option (Credentials * option string) :=
  if truthy (accessToken t)
  then Some (findOrCreateUserMapping (now t) (serverTimestamp t) (keyRandom t)
               (alexaProfile t) (userId t) creds)
  else None.

(** The document store refuses a document path that is not a non-empty
    string: with such a key every read and write of [attendance]
    throws. *)
Definition documentPath (attendanceKey : option string) : option string :=
  given attendanceKey.

(** The frame of the handlers that work on the attendance data:
    [try { getUserKey; ensureUserCredentials; body } catch { onError }],
    where [body] starts with a read of the user's document. *)
Definition withAttendance (t : Turn) (attrs : SessionAttributes) (w : World)
    (onError : Speech)
    (body : string -> Store -> Speech * SessionAttributes * Store) : Result :=
  match getUserKey t (credentials w) with
  | None => (onError, attrs, w)
  | Some (creds, attendanceKey) =>
      match documentPath attendanceKey with
      | Some key =>
          let '(speech, attrs', db) := body key (attendance w) in
          (speech, attrs', mkWorld creds db)
      | None => (onError, attrs, mkWorld creds (attendance w))
      end
  end.

(** The same frame around a body that does not touch the attendance
    data. *)
Definition withUserKey (t : Turn) (attrs : SessionAttributes) (w : World)
    (onError : Speech) (body : Speech * SessionAttributes) : Result :=
  match getUserKey t (credentials w) with
  | None => (onError, attrs, w)
  | Some (creds, _) =>
      (fst body, snd body, mkWorld creds (attendance w))
  end.

Definition LaunchRequestHandler (t : Turn) (attrs : SessionAttributes)
    (w : World) : Result :=
  if negb (truthy (accessToken t)) then (LinkAccount, attrs, w)
  else withUserKey t attrs w WelcomeBriefly (Welcome, attrs).

(** [MarkPresentIntentHandler] and [MarkAbsentIntentHandler], which are
    the same code up to the status word. *)
Definition markAttendance (status : string) (t : Turn)
    (attrs : SessionAttributes) (w : World) : Result :=
  if negb (truthy (accessToken t)) then (LinkAccount, attrs, w)
  else
    withAttendance t attrs w MarkingError (fun attendanceKey db =>
      let today := getFormattedDate (now t) in
      let userData := getUserData attendanceKey db in
      if isNonWorkingDay today userData then (NonWorkingDay, attrs, db)
      else
        match getDayStatus attendanceKey today db with
        | Some existingStatus =>
            if String.eqb (statusOf existingStatus) status
            then (AlreadyMarked status, attrs, db)
            else
              (ConfirmChange (statusOf existingStatus) status,
               {| pendingStatusChange :=
                    Some (mkPending today status (statusOf existingStatus) None);
                  inSessionCreation := inSessionCreation attrs;
                  sessionCreationStep := sessionCreationStep attrs;
                  pendingSessionName := pendingSessionName attrs;
                  pendingStartDate := pendingStartDate attrs;
                  shouldSetAsPreset := shouldSetAsPreset attrs |},
               db)
        | None =>
            (Marked status, attrs,
             setDayStatus (serverTimestamp t) attendanceKey today status
               (mkExtra None) db)
        end).

Definition MarkPresentIntentHandler : Turn -> SessionAttributes -> World -> Result :=
  markAttendance "present".

Definition MarkAbsentIntentHandler : Turn -> SessionAttributes -> World -> Result :=
  markAttendance "absent".

(** [existingStatus.name || 'a holiday']. *)
Definition holidayNameOf (st : DayStatus) : string :=
  match st with
  | Tag _ => "a holiday"
  | Tagged _ n => if String.eqb n "" then "a holiday" else n
  end.

Definition MarkHolidayIntentHandler (holidayNameSlot : option string) (t : Turn)
    (attrs : SessionAttributes) (w : World) : Result :=
  if negb (truthy (accessToken t)) then (LinkAccount, attrs, w)
  else
    match given holidayNameSlot with
    | None => (AskHolidayName, attrs, w)
    | Some holidayName =>
        withAttendance t attrs w HolidayError (fun attendanceKey db =>
          let today := getFormattedDate (now t) in
          match getDayStatus attendanceKey today db with
          | Some existingStatus =>
              if String.eqb (statusOf existingStatus) "holiday"
              then (AlreadyHoliday (holidayNameOf existingStatus), attrs, db)
              else
                (ConfirmHoliday (statusOf existingStatus) holidayName,
                 {| pendingStatusChange :=
                      Some (mkPending today "holiday" (statusOf existingStatus)
                              (Some holidayName));
                    inSessionCreation := inSessionCreation attrs;
                    sessionCreationStep := sessionCreationStep attrs;
                    pendingSessionName := pendingSessionName attrs;
                    pendingStartDate := pendingStartDate attrs;
                    shouldSetAsPreset := shouldSetAsPreset attrs |},
                 db)
          | None =>
              (MarkedHoliday holidayName, attrs,
               setDayStatus (serverTimestamp t) attendanceKey today "holiday"
                 (mkExtra (Some holidayName)) db)
          end)
    end.

Definition MonthlyAttendanceIntentHandler (monthSlot : option string) (t : Turn)
    (attrs : SessionAttributes) (w : World) : Result :=
  if negb (truthy (accessToken t)) then (LinkAccount, attrs, w)
  else
    withAttendance t attrs w MonthlyError (fun attendanceKey db =>
      let yearMonth := getYearMonthFromDate (now t) monthSlot in
      let percentage := calculateMonthlyAttendance (now t) attendanceKey yearMonth db in
      (MonthlyReport (parseDate (yearMonth +:+ "-01")) percentage, attrs, db)).

Definition SessionAttendanceIntentHandler (sessionNameSlot : option string)
    (t : Turn) (attrs : SessionAttributes) (w : World) : Result :=
  if negb (truthy (accessToken t)) then (LinkAccount, attrs, w)
  else
    withAttendance t attrs w SessionError (fun attendanceKey db =>
      (SessionReport (calculateSessionAttendance (now t) attendanceKey sessionNameSlot db),
       attrs, db)).

Definition GetAttendancePercentageIntentHandler (t : Turn)
    (attrs : SessionAttributes) (w : World) : Result :=
  if negb (truthy (accessToken t)) then (LinkAccount, attrs, w)
  else
    withAttendance t attrs w PercentageError (fun attendanceKey db =>
      (PercentageReport (calculateSessionAttendance (now t) attendanceKey None db),
       attrs, db)).

(** [sessions.slice(0, 5)] with the preset mark of each session. *)
Definition firstFiveMarked (sessions : list Session) : list (string * bool) :=
  List.map (fun session => (name session, isSelected session)) (take 5 sessions).

Definition SetAlexaPresetIntentHandler (sessionNameSlot : option string)
    (t : Turn) (attrs : SessionAttributes) (w : World) : Result :=
  if negb (truthy (accessToken t)) then (LinkAccount, attrs, w)
  else
    match given sessionNameSlot with
    | None =>
        withAttendance t attrs w FetchSessionsError (fun attendanceKey db =>
          let sessions := getAvailableSessions attendanceKey db in
          let presetSession := getAlexaPresetSession attendanceKey db in
          match sessions with
          | [] => (NoSessionsCreateFirst, attrs, db)
          | _ => (PresetChoices (firstFiveMarked sessions) (name <$> presetSession),
                  attrs, db)
          end)
    | Some sessionName =>
        withAttendance t attrs w SetPresetError (fun attendanceKey db =>
          match setAlexaPresetSession attendanceKey sessionName db with
          | (db', PresetOk session) => (PresetSet (name session), attrs, db')
          | (db', PresetError _) => (PresetNotFound sessionName, attrs, db')
          end)
    end.

Definition GetAlexaPresetIntentHandler (t : Turn) (attrs : SessionAttributes)
    (w : World) : Result :=
  if negb (truthy (accessToken t)) then (LinkAccount, attrs, w)
  else
    withAttendance t attrs w GetPresetError (fun attendanceKey db =>
      match getAlexaPresetSession attendanceKey db with
      | Some presetSession =>
          (CurrentPreset (name presetSession) (startDate presetSession)
             (endDate presetSession), attrs, db)
      | None => (NoPreset, attrs, db)
      end).

(** [clearAlexaPresetSession] always answers [{ success: true }], so the
    sentence about there being nothing to clear is never spoken. *)
Definition ClearAlexaPresetIntentHandler (t : Turn) (attrs : SessionAttributes)
    (w : World) : Result :=
  if negb (truthy (accessToken t)) then (LinkAccount, attrs, w)
  else
    withAttendance t attrs w ClearPresetError (fun attendanceKey db =>
      (PresetCleared, attrs, clearAlexaPresetSession attendanceKey db)).

(** The handler of [SelectSessionIntent], around the part modelled above
    for a given attendance key. *)
Definition SelectSessionIntentHandler (sessionNameSlot : option string)
    (t : Turn) (attrs : SessionAttributes) (w : World) : Result :=
  if negb (truthy (accessToken t)) then (LinkAccount, attrs, w)
  else
    withAttendance t attrs w
      (if truthy sessionNameSlot then SelectError else FetchSessionsError)
      (fun attendanceKey db =>
         let '(response, db') :=
           SelectSessionIntentHandler attendanceKey sessionNameSlot db in
         (Selecting response, attrs, db')).

Definition ListSessionsIntentHandler (t : Turn) (attrs : SessionAttributes)
    (w : World) : Result :=
  if negb (truthy (accessToken t)) then (LinkAccount, attrs, w)
  else
    withAttendance t attrs w ListError (fun attendanceKey db =>
      let sessions := getAvailableSessions attendanceKey db in
      let presetSession := getAlexaPresetSession attendanceKey db in
      match sessions with
      | [] => (NoSessionsYet, attrs, db)
      | _ =>
          (SessionList (length sessions) (firstFiveMarked sessions)
             (if (5 <? length sessions)%nat then Some (length sessions - 5)%nat
              else None)
             (name <$> presetSession),
           attrs, db)
      end).

(** [setAsPreset && (setAsPreset.toLowerCase() === 'yes' ||
    setAsPreset.toLowerCase() === 'true')]. *)
Definition shouldSetAsPresetOf (setAsPreset : option string) : PresetFlag :=
  match setAsPreset with
  | None => NoFlag
  | Some s =>
      if String.eqb s "" then EmptyFlag
      else Flag (String.eqb (toLowerCase s) "yes" || String.eqb (toLowerCase s) "true")
  end.

(** Truthiness of a flag: [if (shouldSetAsPreset)] and
    [shouldSetAsPreset || false]. *)
Definition flagSet (f : PresetFlag) : bool :=
  match f with
  | Flag b => b
  | _ => false
  end.

Definition CreateSessionIntentHandler (setAsPreset : option string) (t : Turn)
    (attrs : SessionAttributes) (w : World) : Result :=
  if negb (truthy (accessToken t)) then (LinkAccount, attrs, w)
  else
    let shouldSetAsPreset := shouldSetAsPresetOf setAsPreset in
    withUserKey t attrs w CreateSessionError
      (AskSessionName (flagSet shouldSetAsPreset),
       {| pendingStatusChange := pendingStatusChange attrs;
          inSessionCreation := true;
          sessionCreationStep := Some "name";
          pendingSessionName := pendingSessionName attrs;
          pendingStartDate := pendingStartDate attrs;
          shouldSetAsPreset := shouldSetAsPreset |}).

Definition CreateSessionWithNameIntentHandler
    (sessionNameSlot setAsPreset : option string) (t : Turn)
    (attrs : SessionAttributes) (w : World) : Result :=
  if negb (truthy (accessToken t)) then (LinkAccount, attrs, w)
  else
    let shouldSetAsPreset := shouldSetAsPresetOf setAsPreset in
    match given sessionNameSlot with
    | None => (AskSessionNameAgain, attrs, w)
    | Some sessionName =>
        withUserKey t attrs w CreateWithNameError
          (AskStartDate sessionName,
           {| pendingStatusChange := pendingStatusChange attrs;
              inSessionCreation := true;
              sessionCreationStep := Some "startDate";
              pendingSessionName := Some sessionName;
              pendingStartDate := pendingStartDate attrs;
              shouldSetAsPreset := shouldSetAsPreset |})
    end.

(** The five [delete]s that end a session creation. *)
Definition endCreation (attrs : SessionAttributes) : SessionAttributes :=
  {| pendingStatusChange := pendingStatusChange attrs;
     inSessionCreation := false;
     sessionCreationStep := None;
     pendingSessionName := None;
     pendingStartDate := None;
     shouldSetAsPreset := NoFlag |}.

(** [sessionAttributes.sessionCreationStep === step]. *)
Definition atStep (step : string) (attrs : SessionAttributes) : bool :=
  match sessionCreationStep attrs with
  | Some s => String.eqb s step
  | None => false
  end.

(** [DateIntentHandler], which has no [try]: what it throws goes to
    [ErrorHandler].  It throws when there is no access token, and in the
    end-date step when the attendance key is no document path or
    [pendingSessionName] is [undefined] (of which [generateSessionCode]
    takes [toLowerCase()]); nothing is written in these cases. *)
Definition DateIntentHandler (dateSlot : option string) (t : Turn)
    (attrs : SessionAttributes) (w : World) : Result :=
  match getUserKey t (credentials w) with
  | None => (Trouble, attrs, w)
  | Some (creds, attendanceKey) =>
      let w' := mkWorld creds (attendance w) in
      let dateValue := given dateSlot in
      let outside : Result :=
        match dateValue with
        | Some d => (DateEcho d, attrs, w')
        | None => (DateUnknown, attrs, w')
        end in
      if inSessionCreation attrs then
        if atStep "startDate" attrs then
          match dateValue with
          | Some d =>
              (StartsOn d,
               {| pendingStatusChange := pendingStatusChange attrs;
                  inSessionCreation := inSessionCreation attrs;
                  sessionCreationStep := Some "endDate";
                  pendingSessionName := pendingSessionName attrs;
                  pendingStartDate := Some d;
                  shouldSetAsPreset := shouldSetAsPreset attrs |},
               w')
          | None => (AskStartDateAgain, attrs, w')
          end
        else if atStep "endDate" attrs then
          match dateValue with
          | Some d =>
              let shouldSetAsPreset := flagSet (shouldSetAsPreset attrs) in
              match documentPath attendanceKey, pendingSessionName attrs with
              | Some key, Some sessionName =>
                  let '(db, sessionData) :=
                    saveSession (now t) (codeRandom t) key sessionName
                      (pendingStartDate attrs) (Some d) shouldSetAsPreset
                      (attendance w) in
                  (Created (name sessionData) (pendingStartDate attrs) (Some d)
                     shouldSetAsPreset,
                   endCreation attrs, mkWorld creds db)
              | _, _ => (Trouble, attrs, w')
              end
          | None => (AskEndDateAgain, attrs, w')
          end
        else outside
      else outside
  end.

(** [YesIntentHandler]: [getUserKey] is called outside the [try]. *)
Definition YesIntentHandler (t : Turn) (attrs : SessionAttributes) (w : World)
    : Result :=
  match pendingStatusChange attrs with
  | Some pending =>
      match getUserKey t (credentials w) with
      | None => (Trouble, attrs, w)
      | Some (creds, attendanceKey) =>
          match documentPath attendanceKey with
          | Some key =>
              (Changed (date pending) (oldStatus pending) (newStatus pending)
                 (if String.eqb (newStatus pending) "holiday"
                  then given (holidayName pending) else None),
               {| pendingStatusChange := None;
                  inSessionCreation := inSessionCreation attrs;
                  sessionCreationStep := sessionCreationStep attrs;
                  pendingSessionName := pendingSessionName attrs;
                  pendingStartDate := pendingStartDate attrs;
                  shouldSetAsPreset := shouldSetAsPreset attrs |},
               mkWorld creds
                 (setDayStatus (serverTimestamp t) key (date pending)
                    (newStatus pending) (mkExtra (holidayName pending))
                    (attendance w)))
          | None => (ChangeError, attrs, mkWorld creds (attendance w))
          end
      end
  | None =>
      if negb (inSessionCreation attrs) then
        (AskSessionNameGreat,
         {| pendingStatusChange := pendingStatusChange attrs;
            inSessionCreation := true;
            sessionCreationStep := Some "name";
            pendingSessionName := pendingSessionName attrs;
            pendingStartDate := pendingStartDate attrs;
            shouldSetAsPreset := shouldSetAsPreset attrs |},
         w)
      else (WhatNext, attrs, w)
  end.

Definition NoIntentHandler (t : Turn) (attrs : SessionAttributes) (w : World)
    : Result :=
  let attrs1 :=
    {| pendingStatusChange := None;
       inSessionCreation := inSessionCreation attrs;
       sessionCreationStep := sessionCreationStep attrs;
       pendingSessionName := pendingSessionName attrs;
       pendingStartDate := pendingStartDate attrs;
       shouldSetAsPreset := shouldSetAsPreset attrs |} in
  let attrs2 := if inSessionCreation attrs1 then endCreation attrs1 else attrs1 in
  (NoChanges, attrs2, w).

Definition HelpIntentHandler (t : Turn) (attrs : SessionAttributes) (w : World)
    : Result := (Help, attrs, w).

Definition CancelAndStopIntentHandler (t : Turn) (attrs : SessionAttributes)
    (w : World) : Result := (Goodbye, attrs, w).

Definition FallbackIntentHandler (t : Turn) (attrs : SessionAttributes)
    (w : World) : Result := (NotUnderstood, attrs, w).

Definition SessionEndedRequestHandler (t : Turn) (attrs : SessionAttributes)
    (w : World) : Result := (Silence, attrs, w).

(** The requests the skill has a handler for, with their slot values. *)
Inductive Request :=
| LaunchRequest
| MarkPresentIntent
| MarkAbsentIntent
| MarkHolidayIntent (holidayName : option string)
| MonthlyAttendanceIntent (month : option string)
| SessionAttendanceIntent (sessionName : option string)
| GetAttendancePercentageIntent
| SetAlexaPresetIntent (sessionName : option string)
| GetAlexaPresetIntent
| ClearAlexaPresetIntent
| SelectSessionIntent (sessionName : option string)
| CreateSessionIntent (setAsPreset : option string)
| CreateSessionWithNameIntent (sessionName setAsPreset : option string)
| DateIntent (date : option string)
| ListSessionsIntent
| YesIntent
| NoIntent
| HelpIntent
| CancelIntent
| StopIntent
| FallbackIntent
| SessionEndedRequest.

(** The skill: the handler whose [canHandle] accepts the request. *)
Definition skill (request : Request) : Turn -> SessionAttributes -> World -> Result :=
  match request with
  | LaunchRequest => LaunchRequestHandler
  | MarkPresentIntent => MarkPresentIntentHandler
  | MarkAbsentIntent => MarkAbsentIntentHandler
  | MarkHolidayIntent holidayName => MarkHolidayIntentHandler holidayName
  | MonthlyAttendanceIntent month => MonthlyAttendanceIntentHandler month
  | SessionAttendanceIntent sessionName => SessionAttendanceIntentHandler sessionName
  | GetAttendancePercentageIntent => GetAttendancePercentageIntentHandler
  | SetAlexaPresetIntent sessionName => SetAlexaPresetIntentHandler sessionName
  | GetAlexaPresetIntent => GetAlexaPresetIntentHandler
  | ClearAlexaPresetIntent => ClearAlexaPresetIntentHandler
  | SelectSessionIntent sessionName => SelectSessionIntentHandler sessionName
  | CreateSessionIntent setAsPreset => CreateSessionIntentHandler setAsPreset
  | CreateSessionWithNameIntent sessionName setAsPreset =>
      CreateSessionWithNameIntentHandler sessionName setAsPreset
  | DateIntent date => DateIntentHandler date
  | ListSessionsIntent => ListSessionsIntentHandler
  | YesIntent => YesIntentHandler
  | NoIntent => NoIntentHandler
  | HelpIntent => HelpIntentHandler
  | CancelIntent | StopIntent => CancelAndStopIntentHandler
  | FallbackIntent => FallbackIntentHandler
  | SessionEndedRequest => SessionEndedRequestHandler
  end.

(** A session: the requests of one conversation, each with its turn; the
    attributes a handler leaves come back with the next request. *)
Fixpoint converse (requests : list (Request * Turn)) (attrs : SessionAttributes)
    (w : World) : list Speech * SessionAttributes * World :=
  match requests with
  | [] => ([], attrs, w)
  | (request, t) :: rest =>
      let '(speech, attrs', w') := skill request t attrs w in
      let '(speeches, attrs'', w'') := converse rest attrs' w' in
      (speech :: speeches, attrs'', w'')
  end.

(** The attributes of a new session. *)
Definition newSession : SessionAttributes :=
  mkAttributes None false None None None NoFlag.

(** The attributes with [pendingStatusChange] set to [pending], or
    deleted. *)
Definition withPending (pending : option PendingStatusChange)
    (attrs : SessionAttributes) : SessionAttributes :=
  {| pendingStatusChange := pending;
     inSessionCreation := inSessionCreation attrs;
     sessionCreationStep := sessionCreationStep attrs;
     pendingSessionName := pendingSessionName attrs;
     pendingStartDate := pendingStartDate attrs;
     shouldSetAsPreset := shouldSetAsPreset attrs |}.

(** The caller of the turn is a linked user whom [credentials] knows, with
    the attendance key [key]. *)
Definition knownUser (t : Turn) (key : string) (w : World) : Prop :=
  truthy (accessToken t) = true
  /\ key <> ""
  /\ exists data, credentials w !! ("alexa-" +:+ userId t) = Some data
                  /\ Credential.key data = Some key.

(** The requests whose handlers do not start by asking for a linked
    account. *)
Definition answersWithoutAccount (request : Request) : bool :=
  match request with
  | DateIntent _ | YesIntent | NoIntent | HelpIntent | CancelIntent | StopIntent
  | FallbackIntent | SessionEndedRequest => true
  | _ => false
  end.

(** The requests that lead to [setDayStatus], and those that lead to a
    write of the session list. *)
Definition marksDays (request : Request) : bool :=
  match request with
  | MarkPresentIntent | MarkAbsentIntent | MarkHolidayIntent _ | YesIntent => true
  | _ => false
  end.

Definition writesSessions (request : Request) : bool :=
  match request with
  | SetAlexaPresetIntent _ | ClearAlexaPresetIntent | SelectSessionIntent _
  | DateIntent _ => true
  | _ => false
  end.

(** [db'] is [db] after the status of one day of [key] was set, and after
    the session list of [key] was written. *)
Definition dayMarked (key : string) (db db' : Store) : Prop :=
  exists ts d s extra, db' = setDayStatus ts key d s extra db.

Definition sessionsWritten (key : string) (db db' : Store) : Prop :=
  exists l, db' = updateUserData key (sessionsOnly l) db.

(** What a write of the attendance data by [request] for [key] can be. *)
Definition written (request : Request) (key : string) (db db' : Store) : Prop :=
  (marksDays request = true /\ dayMarked key db db')
  \/ (writesSessions request = true /\ sessionsWritten key db db').

(** How the world [w'] after a request relates to the world [w] before
    it: the credentials are as they were or as [getUserKey] left them, and
    the attendance data are as they were or were written for the caller's
    key. *)
Definition effect (request : Request) (t : Turn) (w w' : World) : Prop :=
  (w' = w
   \/ exists key, getUserKey t (credentials w) = Some (credentials w', key))
  /\ (attendance w' = attendance w
      \/ exists key,
           getUserKey t (credentials w) = Some (credentials w', Some key)
           /\ key <> ""
           /\ written request key (attendance w) (attendance w')).

(** In the date steps of a session creation the session has a name. *)
Definition named (attrs : SessionAttributes) : Prop :=
  atStep "startDate" attrs = true \/ atStep "endDate" attrs = true ->
  is_Some (pendingSessionName attrs).

End Skill.

(* ------------------------------------------------------------------ *)
(** ** Vocabulary of the further properties *)

(** Two documents that carry the same marks: the fields the status of a day
    and the attendance of a month are read from. *)
Definition sameMarks (a b : UserData) : Prop :=
  records a = records b /\ holidays a = holidays b
  /\ notEnrolled a = notEnrolled b /\ weeklyDaysOff a = weeklyDaysOff b.

(** The Gregorian rule for leap years, and the number of days of a month
    (1..12) that follows from it. *)
Definition isLeapYear (year : Z) : bool :=
  (year mod 4 =? 0) && (negb (year mod 100 =? 0) || (year mod 400 =? 0)).

Definition daysOfMonth (year month : Z) : Z :=
  if month =? 2 then (if isLeapYear year then 29 else 28)
  else if (month =? 4) || (month =? 6) || (month =? 9) || (month =? 11) then 30
  else 31.

(** The day number of the first day of the month numbered [n], counting
    months from January of the year 0. *)
Definition monthStart (n : Z) : Z := daysFromCivil (n / 12) (n mod 12 + 1) 1.

(* ------------------------------------------------------------------ *)
(** ** Sample worlds *)

(** A linked Alexa user whose credentials document gives the attendance
    key ["user"], in a world with the "Term1" document. *)
Definition aliceId : string := "amzn1.ask.account.ALICE".

Definition aliceCredentials : Credentials :=
  {["alexa-amzn1.ask.account.ALICE" :=
      Credential.mk (Some aliceId) (Some "alice@example.org") (Some "Alice") None
        (Some "alexa") (Some "user") None (Some false) (Some 0)]}.

Definition aliceWorld : Skill.World := Skill.mkWorld aliceCredentials term1Db.

(** A request of that user at the instant [now]. *)
Definition aliceTurn (now : Z) : Skill.Turn :=
  Skill.mkTurn aliceId (Some "token") None now 7 "k9x2m4p1q" "zz99".

(** 2024-01-08 (a Monday), nine o'clock. *)
Definition monday8January : Z := 19730 * msPerDay + 32400000.

(** The credentials of a user of the web application, and the Amazon
    profile of the same person. *)
Definition bobCredentials : Credentials :=
  {["uid-bob" :=
      Credential.mk None (Some "bob@example.org") (Some "Bob") None None
        (Some "bob-key") None None None]}.

Definition bobProfile : Profile.t :=
  Profile.mk (Some "bob@example.org") (Some "Bob").

(* ================================================================== *)
(** * Properties *)

(** Goals over the sample documents are settled by evaluation. *)
Ltac by_evaluation :=
  vm_compute; repeat split; try reflexivity; try discriminate.

(* ------------------------------------------------------------------ *)
(** ** The definitions on concrete data *)

Example parseDate_reads_utc_midnight :
  parseDate "2024-03-10" = Some (19792 * msPerDay)
  /\ parseDate "2024-03" = Some (19783 * msPerDay)
  /\ parseDate "2024-3-10" = None
  /\ parseDate "10 March 2024" = None.
Proof. by_evaluation. Qed.

Example getFormattedDate_pads :
  getFormattedDate sunday10March = "2024-03-10"
  /\ toISODate (19725 * msPerDay) = "2024-01-03"
  /\ getDay sunday10March = 0
  /\ getDay noon3January = 3.
Proof. by_evaluation. Qed.

Example days_in_month :
  getDate <$> newDateYMD 2024 2 0 = Some 29
  /\ getDate <$> newDateYMD 2023 2 0 = Some 28
  /\ getDate <$> newDateYMD 2024 12 0 = Some 31.
Proof. by_evaluation. Qed.

Example generateSessionCode_strips_and_cuts :
  generateSessionCode "x7k2" "Fall Term 2024!" = "falltermx7k2"
  /\ generateSessionCode "x7k2" "Q1" = "q1x7k2".
Proof. by_evaluation. Qed.

(** The scenario of the spec: Term1 from 2024-01-01 to 2024-01-05, two
    days present, two absent, one holiday. *)
Example term1_session_attendance :
  calculateSessionAttendance sunday10March "user" None term1Db
  = {| percentage := 50; sessionName := "Term1";
       presentDays := 2; totalWorkingDays := 4 |}.
Proof. by_evaluation. Qed.

Example term1_monthly_attendance :
  calculateMonthlyAttendance sunday10March "user" "2024-01" term1Db = 8
  /\ calculateMonthlyAttendance sunday10March "user" "2024-04" term1Db = 0
  /\ calculateMonthlyAttendance sunday10March "user" "2024-W10" term1Db = 0.
Proof. by_evaluation. Qed.

(** A month in which every weekday is a weekly day off has no eligible
    day. *)
Example all_days_off_month :
  calculateMonthlyAttendance sunday10March "user" "2024-01"
    {["user" := {| records := Some {["2024-01-02" := true]};
                   holidays := None; notEnrolled := None; sessions := None;
                   weeklyDaysOff := Some [1; 2; 3; 4; 5; 6];
                   updatedAt := None |}]} = 0.
Proof. by_evaluation. Qed.

Example sortBy_is_stable :
  List.map name
    (sortBy newestFirst
       [mkSession "a" "a1" None None 5 false; mkSession "b" "b1" None None 9 false;
        mkSession "c" "c1" None None 5 false; mkSession "d" "d1" None None 9 false])
  = ["b"; "d"; "a"; "c"].
Proof. by_evaluation. Qed.

(* ------------------------------------------------------------------ *)
(** ** Lists *)

Section ListFacts.
Context {A : Type}.
Implicit Types (p : A -> bool) (cmp : A -> A -> Z) (l : list A).

Lemma existsb_snoc (p : A -> bool) l x :
  existsb p (l ++ [x]) = existsb p l || p x.
Proof. rewrite existsb_app. simpl. by rewrite orb_false_r. Qed.

Lemma find_some_In (p : A -> bool) l x :
  List.find p l = Some x -> In x l /\ p x = true.
Proof. apply List.find_some. Qed.

Lemma find_none_of (p : A -> bool) l :
  (forall x, In x l -> p x = false) -> List.find p l = None.
Proof.
  intros H. induction l as [|x l IH]; [done|]. simpl.
  rewrite (H x) by (by left). apply IH. intros y Hy. apply H. by right.
Qed.

Lemma find_unique (p : A -> bool) l x :
  In x l -> p x = true -> (forall y, In y l -> p y = true -> y = x) ->
  List.find p l = Some x.
Proof.
  intros Hin Hp Huniq.
  destruct (List.find p l) as [y|] eqn:Hf.
  - apply List.find_some in Hf as [Hy Hpy]. by rewrite (Huniq y Hy Hpy).
  - pose proof (List.find_none _ _ Hf x Hin) as Hn. congruence.
Qed.

Lemma findIndex_Some (p : A -> bool) l i :
  findIndex p l = Some i ->
  exists x, l !! i = Some x /\ p x = true
            /\ forall j y, (j < i)%nat -> l !! j = Some y -> p y = false.
Proof.
  revert i. induction l as [|x l IH]; intros i; simpl; [done|].
  destruct (p x) eqn:Hx.
  - intros [= <-]. exists x. repeat split; [done|]. intros j y Hj. lia.
  - destruct (findIndex p l) as [k|]; [|done]. intros [= <-].
    destruct (IH k eq_refl) as (z & Hz & Hpz & Hbefore).
    exists z. repeat split; [done..|].
    intros [|j] y Hj; simpl; [by intros [= <-]|].
    apply Hbefore. lia.
Qed.

Lemma findIndex_None (p : A -> bool) l :
  findIndex p l = None -> forall x, In x l -> p x = false.
Proof.
  induction l as [|y l IH]; simpl; [done|].
  destruct (p y) eqn:Hy; [done|].
  destruct (findIndex p l); [done|]. intros _ x [<-|Hx]; [done|by apply IH].
Qed.

Lemma findIndex_first (p : A -> bool) l i x :
  l !! i = Some x -> p x = true ->
  (forall j y, (j < i)%nat -> l !! j = Some y -> p y = false) ->
  findIndex p l = Some i.
Proof.
  revert i. induction l as [|y l IH]; intros i Hx Hp Hbefore; [done|].
  destruct i as [|i]; simpl in *.
  - injection Hx as ->. by rewrite Hp.
  - rewrite (Hbefore 0%nat y) by (done || lia).
    rewrite (IH i Hx Hp); [done|].
    intros j z Hj Hz. apply (Hbefore (S j)); [lia|done].
Qed.

Lemma insertBy_Permutation (cmp : A -> A -> Z) x l :
  Permutation (insertBy cmp x l) (x :: l).
Proof.
  induction l as [|y l IH]; simpl; [done|].
  destruct (cmp x y <=? 0); [done|].
  rewrite IH. apply perm_swap.
Qed.

Lemma sortBy_Permutation (cmp : A -> A -> Z) l :
  Permutation (sortBy cmp l) l.
Proof.
  induction l as [|x l IH]; simpl; [done|].
  unfold sortBy in *. simpl. rewrite insertBy_Permutation. by constructor.
Qed.

End ListFacts.

(* ------------------------------------------------------------------ *)
(** ** The calendar *)

Lemma allFrom_spec p n :
  forall start z,
    allFrom p start n = true -> start <= z < start + Z.of_nat n -> p z = true.
Proof.
  induction n as [|n IH]; intros start z H Hz; [lia|].
  simpl in H. apply andb_prop in H as [H0 H1].
  destruct (Z.eq_dec z start) as [->|Hne]; [done|].
  apply (IH (start + 1)); [done|lia].
Qed.

Lemma eraCheck_all : allFrom eraCheck 0 (Z.to_nat 146097) = true.
Proof. vm_compute. reflexivity. Qed.

Lemma yearCheck_all : allFrom yearCheck 0 (Z.to_nat 10000) = true.
Proof. vm_compute. reflexivity. Qed.

Lemma twoDigitCheck_all : allFrom twoDigitCheck 1 (Z.to_nat 31) = true.
Proof. vm_compute. reflexivity. Qed.

(** [civilFromDays] gives a month in 1..12 and a day in 1..31, and
    [daysFromCivil] is its inverse. *)
Lemma civilFromDays_inverse z :
  daysFromCivil (fst (fst (civilFromDays z))) (snd (fst (civilFromDays z)))
    (snd (civilFromDays z)) = z
  /\ 1 <= snd (fst (civilFromDays z)) <= 12
  /\ 1 <= snd (civilFromDays z) <= 31.
Proof.
  unfold civilFromDays.
  set (z' := z + 719468). set (era := z' / 146097). set (doe := z' - era * 146097).
  set (yoe := (doe - doe / 1460 + doe / 36524 - doe / 146096) / 365).
  set (doy := doe - (365 * yoe + yoe / 4 - yoe / 100)).
  set (mp := (5 * doy + 2) / 153).
  set (d := doy - (153 * mp + 2) / 5 + 1).
  set (m := if mp <? 10 then mp + 3 else mp - 9).
  cbn [fst snd].
  assert (Hdoe : 0 <= doe < 146097).
  { subst doe era. pose proof (Z.mod_pos_bound z' 146097 ltac:(lia)) as Hb.
    rewrite Z.mod_eq in Hb by lia. lia. }
  pose proof (allFrom_spec eraCheck _ 0 doe eraCheck_all ltac:(lia)) as Hc.
  unfold eraCheck in Hc. cbv zeta in Hc.
  fold yoe in Hc. fold doy in Hc. fold mp in Hc. fold d in Hc. fold m in Hc.
  repeat (apply andb_prop in Hc as [Hc ?]).
  repeat match goal with
         | H : (_ <=? _) = true |- _ => apply Z.leb_le in H
         | H : (_ =? _) = true |- _ => apply Z.eqb_eq in H
         end.
  split; [|lia].
  unfold daysFromCivil.
  set (Y := if m <=? 2 then yoe + era * 400 + 1 else yoe + era * 400).
  assert (Hy : (if m <=? 2 then Y - 1 else Y) = yoe + era * 400).
  { subst Y. destruct (m <=? 2); lia. }
  rewrite Hy.
  assert (Hera : (yoe + era * 400) / 400 = era).
  { rewrite Z.div_add by lia. rewrite Z.div_small by lia. lia. }
  rewrite Hera.
  replace (yoe + era * 400 - era * 400) with yoe by lia.
  match goal with H : (if 2 <? m then _ else _) = mp |- _ => rewrite H end.
  match goal with H : (153 * mp + 2) / 5 + d - 1 = doy |- _ => rewrite H end.
  match goal with H : yoe * 365 + yoe / 4 - yoe / 100 + doy = doe |- _ => rewrite H end.
  subst doe z'. lia.
Qed.

Lemma MakeDay_civil y m d :
  1 <= m <= 12 -> MakeDay y (m - 1) d = daysFromCivil y m d.
Proof.
  intros Hm. unfold MakeDay.
  rewrite Z.div_small, Z.mod_small by lia.
  replace (y + 0) with y by lia. replace (m - 1 + 1) with m by lia.
  unfold daysFromCivil. lia.
Qed.

Lemma isDigit_not_dash c : isDigit c = true -> Ascii.eqb c "-" = false.
Proof.
  intros H. destruct (Ascii.eqb c "-") eqn:E; [|done].
  apply Ascii.eqb_eq in E. subst c. discriminate.
Qed.

Lemma splitOn_digits s : allDigits s = true -> splitOn "-" s = [s].
Proof.
  induction s as [|c s IH]; simpl; [done|].
  intros H. apply andb_prop in H as [Hc Hs].
  by rewrite (isDigit_not_dash c Hc), (IH Hs).
Qed.

Lemma splitOn_digits_dash s r :
  allDigits s = true -> splitOn "-" (s +:+ String "-" r) = s :: splitOn "-" r.
Proof.
  induction s as [|c s IH]; simpl; [done|].
  intros H. apply andb_prop in H as [Hc Hs].
  by rewrite (isDigit_not_dash c Hc), (IH Hs).
Qed.

Lemma readsAs_spec k n s :
  readsAs k n s = true -> allDigits s = true /\ digitsOfLength k s = Some n.
Proof.
  unfold readsAs. intros H. apply andb_prop in H as [Hd Hn]. split; [done|].
  destruct (digitsOfLength k s) as [n'|]; [|done].
  apply Z.eqb_eq in Hn. by subst.
Qed.

(** A date string [YYYY-MM-DD] made of a four-digit year and the padded
    month and day is parsed as midnight UTC of that date. *)
Lemma parseDate_iso ys y m d :
  readsAs 4 y ys = true -> 1 <= m <= 12 -> 1 <= d <= 31 ->
  parseDate (ys +:+ "-" +:+ padStart 2 (showZ m) +:+ "-" +:+ padStart 2 (showZ d))
  = Some (daysFromCivil y m d * msPerDay).
Proof.
  intros Hy Hm Hd.
  apply readsAs_spec in Hy as [Hy1 Hy2].
  destruct (readsAs_spec 2 m _
              (allFrom_spec twoDigitCheck _ 1 m twoDigitCheck_all ltac:(lia)))
    as [Hm1 Hm2].
  destruct (readsAs_spec 2 d _
              (allFrom_spec twoDigitCheck _ 1 d twoDigitCheck_all ltac:(lia)))
    as [Hd1 Hd2].
  unfold parseDate.
  change ("-" +:+ ?x) with (String "-" x).
  rewrite (splitOn_digits_dash ys _ Hy1).
  change ("-" +:+ ?x) with (String "-" x).
  rewrite (splitOn_digits_dash _ _ Hm1), (splitOn_digits _ Hd1).
  rewrite Hy2, Hm2, Hd2.
  replace ((1 <=? m) && (m <=? 12) && (1 <=? d) && (d <=? 31)) with true.
  - by rewrite MakeDay_civil.
  - symmetry. rewrite !andb_true_iff, !Z.leb_le. lia.
Qed.

(** The date of the session loop denotes the day it was made from. *)
Lemma parseDate_toISODate t :
  0 <= getFullYear t <= 9999 -> parseDate (toISODate t) = Some (Day t * msPerDay).
Proof.
  intros Hy. unfold toISODate.
  replace ((0 <=? getFullYear t) && (getFullYear t <=? 9999)) with true
    by (symmetry; rewrite andb_true_iff, !Z.leb_le; lia).
  pose proof (allFrom_spec yearCheck _ 0 (getFullYear t) yearCheck_all ltac:(lia))
    as Hc.
  unfold yearCheck in Hc. apply andb_prop in Hc as [Hc _].
  destruct (civilFromDays_inverse (Day t)) as (Hinv & Hm & Hd).
  unfold getMonth, getDate.
  replace (snd (fst (civilFromDays (Day t))) - 1 + 1)
    with (snd (fst (civilFromDays (Day t)))) by lia.
  rewrite (parseDate_iso _ (getFullYear t)) by done.
  unfold getFullYear. by rewrite Hinv.
Qed.

(** From the year 1000 to the year 9999 [getFormattedDate] writes the ISO
    date, so today's date string denotes the day of the clock. *)
Lemma getFormattedDate_iso t :
  1000 <= getFullYear t <= 9999 -> getFormattedDate t = toISODate t.
Proof.
  intros Hy. unfold toISODate, getFormattedDate.
  replace ((0 <=? getFullYear t) && (getFullYear t <=? 9999)) with true
    by (symmetry; rewrite andb_true_iff, !Z.leb_le; lia).
  pose proof (allFrom_spec yearCheck _ 0 (getFullYear t) yearCheck_all ltac:(lia))
    as Hc.
  unfold yearCheck in Hc. apply andb_prop in Hc as [_ Hc].
  apply orb_prop in Hc as [Hc|Hc]; [apply Z.ltb_lt in Hc; lia|].
  apply String.eqb_eq in Hc. by rewrite Hc.
Qed.

Lemma parseDate_today now :
  1000 <= getFullYear now <= 9999 ->
  parseDate (getFormattedDate now) = Some (Day now * msPerDay).
Proof.
  intros Hy. rewrite getFormattedDate_iso by done.
  apply parseDate_toISODate. lia.
Qed.

Lemma getDay_midnight t : getDay (Day t * msPerDay) = getDay t.
Proof.
  unfold getDay, Day. by rewrite Z.div_mul by (unfold msPerDay; lia).
Qed.

(** In the years 1000 to 9999, today is a Sunday for the handlers exactly
    when the clock stands on a Sunday. *)
Lemma todayIsSunday_clock now :
  1000 <= getFullYear now <= 9999 -> (todayIsSunday now <-> getDay now = 0).
Proof.
  intros Hy. unfold todayIsSunday. rewrite (parseDate_today now Hy). split.
  - intros (t & [= <-] & Hd). by rewrite getDay_midnight in Hd.
  - intros Hd. eexists. split; [done|]. by rewrite getDay_midnight.
Qed.

(* ------------------------------------------------------------------ *)
(** ** The record store *)

Lemma getUserData_updateUserData key updates (db : Store) :
  getUserData key (updateUserData key updates db)
  = mergeDoc (getUserData key db) updates.
Proof.
  unfold updateUserData, getUserData at 1. by rewrite lookup_insert_eq.
Qed.

Lemma getUserData_updateUserData_ne key key' updates (db : Store) :
  key <> key' ->
  getUserData key' (updateUserData key updates db) = getUserData key' db.
Proof.
  intros Hne. unfold updateUserData, getUserData.
  by rewrite lookup_insert_ne.
Qed.

Lemma setDayStatus_other_user ts key key' d s extra (db : Store) :
  key <> key' ->
  getUserData key' (setDayStatus ts key d s extra db) = getUserData key' db.
Proof.
  intros Hne. unfold setDayStatus.
  repeat case_match; by apply getUserData_updateUserData_ne.
Qed.

Lemma holiday_filtered_out d (l : list Holiday.t) :
  existsb (isHolidayOn d) (List.filter (fun h => negb (isHolidayOn d h)) l) = false.
Proof.
  induction l as [|h l IH]; simpl; [done|].
  destruct (isHolidayOn d h) eqn:E; simpl; [done|]. by rewrite E.
Qed.

Lemma date_filtered_out d (l : list string) :
  includes d (List.filter (fun x => negb (String.eqb x d)) l) = false.
Proof.
  unfold includes. induction l as [|x l IH]; simpl; [done|].
  destruct (String.eqb x d) eqn:E; simpl; [done|].
  by rewrite String.eqb_sym, E.
Qed.

Lemma isHolidayOn_self d n : isHolidayOn d (Holiday.mk d n) = true.
Proof. unfold isHolidayOn. simpl. apply String.eqb_refl. Qed.

(** The three containers of the document [setDayStatus] leaves behind. *)
Lemma setDayStatus_doc ts key d s extra (db : Store) :
  let userData := getUserData key db in
  let r1 := delete d (default ∅ (records userData)) in
  let h1 := List.filter (fun h => negb (isHolidayOn d h)) (default [] (holidays userData)) in
  let n1 := List.filter (fun x => negb (String.eqb x d)) (default [] (notEnrolled userData)) in
  let doc := getUserData key (setDayStatus ts key d s extra db) in
  (s = "present" -> records doc = Some (<[d := true]> r1)
                    /\ holidays doc = Some h1 /\ notEnrolled doc = Some n1)
  /\ (s = "absent" -> records doc = Some (<[d := false]> r1)
                      /\ holidays doc = Some h1 /\ notEnrolled doc = Some n1)
  /\ (s = "holiday" ->
        records doc = Some r1
        /\ holidays doc = Some (h1 ++ [Holiday.mk d (orElse (holidayName extra) "Holiday")])
        /\ notEnrolled doc = Some n1)
  /\ (s = "not-enrolled" -> records doc = Some r1
                            /\ holidays doc = Some h1
                            /\ notEnrolled doc = Some (n1 ++ [d])).
Proof.
  cbv zeta. unfold setDayStatus.
  split; [|split; [|split]]; intros ->;
    cbn [String.eqb Ascii.eqb Bool.eqb];
    rewrite getUserData_updateUserData; repeat split.
Qed.

(** C1.  After [setDayStatus(key, d, s)] with [s] one of present, absent,
    holiday and not-enrolled, exactly one of "[records[d]] is defined",
    "[holidays] has an entry dated [d]" and "[notEnrolled] contains [d]"
    holds in the stored document, and it is the one that [s] names: the
    record for present and absent (with the matching boolean), the holiday
    list for holiday, the not-enrolled list for not-enrolled. *)
Theorem setDayStatus_exactly_one ts key d s extra (db : Store) :
  In s dayStatuses ->
  let doc := getUserData key (setDayStatus ts key d s extra db) in
  exactlyOne (holdsIn InRecords d doc) (holdsIn InHolidays d doc)
             (holdsIn InNotEnrolled d doc)
  /\ (holdsIn InRecords d doc <-> s = "present" \/ s = "absent")
  /\ (holdsIn InHolidays d doc <-> s = "holiday")
  /\ (holdsIn InNotEnrolled d doc <-> s = "not-enrolled")
  /\ (s = "present" -> recordOn d doc = Some true)
  /\ (s = "absent" -> recordOn d doc = Some false).
Proof.
  intros Hs doc.
  destruct (setDayStatus_doc ts key d s extra db) as (Hp & Ha & Hh & Hn).
  fold doc in Hp, Ha, Hh, Hn.
  assert (Hcases :
    (holdsIn InRecords d doc /\ ~ holdsIn InHolidays d doc
     /\ ~ holdsIn InNotEnrolled d doc /\ (s = "present" \/ s = "absent")
     /\ (s = "present" -> recordOn d doc = Some true)
     /\ (s = "absent" -> recordOn d doc = Some false))
    \/ (~ holdsIn InRecords d doc /\ holdsIn InHolidays d doc
        /\ ~ holdsIn InNotEnrolled d doc /\ s = "holiday")
    \/ (~ holdsIn InRecords d doc /\ ~ holdsIn InHolidays d doc
        /\ holdsIn InNotEnrolled d doc /\ s = "not-enrolled")).
  { unfold holdsIn, recordOn, isHoliday, isNotEnrolled.
    destruct Hs as [<-|[<-|[<-|[<-|[]]]]].
    - destruct (Hp eq_refl) as (-> & -> & ->). left. simpl.
      rewrite lookup_insert_eq, holiday_filtered_out, date_filtered_out.
      repeat split; eauto; try discriminate.
    - destruct (Ha eq_refl) as (-> & -> & ->). left. simpl.
      rewrite lookup_insert_eq, holiday_filtered_out, date_filtered_out.
      repeat split; eauto; try discriminate.
    - destruct (Hh eq_refl) as (-> & -> & ->). right; left. simpl.
      rewrite lookup_delete_eq, existsb_snoc, date_filtered_out.
      rewrite isHolidayOn_self, orb_true_r.
      repeat split; try discriminate. by intros [? ?].
    - destruct (Hn eq_refl) as (-> & -> & ->). right; right. simpl.
      rewrite lookup_delete_eq, holiday_filtered_out.
      unfold includes. rewrite existsb_snoc, String.eqb_refl, orb_true_r.
      repeat split; try discriminate. by intros [? ?]. }
  unfold exactlyOne.
  destruct Hcases as [(H1 & H2 & H3 & H4 & H5 & H6)|[(H1 & H2 & H3 & ->)|(H1 & H2 & H3 & ->)]].
  - repeat split; auto; try (intros; tauto);
      try (intros ->; destruct H4; discriminate);
      try (intros; exfalso; tauto).
  - repeat split; auto; try tauto; try discriminate;
      try (intros [?|?]; discriminate); try (intros; exfalso; tauto).
  - repeat split; auto; try tauto; try discriminate;
      try (intros [?|?]; discriminate); try (intros; exfalso; tauto).
Qed.

Lemma setDayStatus_exactly_one_witness :
  In "holiday" dayStatuses
  /\ let doc := getUserData "user"
                  (setDayStatus 7 "user" "2024-01-02" "holiday" (mkExtra None) term1Db) in
     holdsIn InHolidays "2024-01-02" doc
     /\ ~ holdsIn InRecords "2024-01-02" doc.
Proof.
  assert (Hs : In "holiday" dayStatuses) by (simpl; tauto).
  split; [exact Hs|].
  destruct (setDayStatus_exactly_one 7 "user" "2024-01-02" "holiday"
              (mkExtra None) term1Db Hs) as (_ & Hr & Hh & _).
  split; [by apply Hh|].
  intros H. apply Hr in H as [H|H]; discriminate.
Defined.

(* ------------------------------------------------------------------ *)
(** ** Selecting the preset session *)

Lemma matchesIdentifier_withSelected ident b s :
  matchesIdentifier ident (withSelected b s) = matchesIdentifier ident s.
Proof. reflexivity. Qed.

Lemma find_selectByCode ident c l :
  List.find (matchesIdentifier ident) (selectByCode c l)
  = (fun s => withSelected (String.eqb (code s) c) s)
      <$> List.find (matchesIdentifier ident) l.
Proof.
  induction l as [|s l IH]; simpl; [done|].
  rewrite matchesIdentifier_withSelected.
  destruct (matchesIdentifier ident s); [done|apply IH].
Qed.

Lemma selectByCode_idem c l :
  selectByCode c (selectByCode c l) = selectByCode c l.
Proof.
  unfold selectByCode. rewrite List.map_map. apply List.map_ext.
  intros s. reflexivity.
Qed.

Lemma filter_isSelected_selectByCode c l :
  List.filter isSelected (selectByCode c l)
  = List.map (withSelected true) (List.filter (fun s => String.eqb (code s) c) l).
Proof.
  induction l as [|s l IH]; simpl; [done|].
  destruct (String.eqb (code s) c); simpl; by rewrite IH.
Qed.

Lemma mergeDoc_twice doc upd :
  mergeDoc (mergeDoc doc upd) upd = mergeDoc doc upd.
Proof.
  destruct doc, upd. unfold mergeDoc. simpl.
  f_equal; match goal with |- mergeField _ ?x = _ => by destruct x end.
Qed.

Lemma updateUserData_twice key upd (db : Store) :
  updateUserData key upd (updateUserData key upd db) = updateUserData key upd db.
Proof.
  unfold updateUserData at 1. rewrite getUserData_updateUserData, mergeDoc_twice.
  unfold updateUserData. by rewrite insert_insert_eq.
Qed.

(** What a successful [setAlexaPresetSession] did: the session it returns
    is the first one matching the identifier, and the stored list is the
    list read with the selection flags recomputed from that session's
    code. *)
Lemma setAlexaPresetSession_ok key ident (db db' : Store) found :
  setAlexaPresetSession key ident db = (db', PresetOk found) ->
  let l := getAvailableSessions key db in
  List.find (matchesIdentifier ident) l = Some found
  /\ l <> []
  /\ sessions (getUserData key db) = Some l
  /\ db' = updateUserData key (sessionsOnly (selectByCode (code found) l)) db
  /\ getAvailableSessions key db' = selectByCode (code found) l.
Proof.
  unfold setAlexaPresetSession, getAvailableSessions.
  destruct (sessions (getUserData key db)) as [[|s l]|] eqn:Hs; simpl;
    try discriminate.
  destruct (if matchesIdentifier ident s then Some s
            else List.find (matchesIdentifier ident) l) as [f|] eqn:Hf;
    [|discriminate].
  intros [= <- <-]. rewrite getUserData_updateUserData. simpl.
  repeat split; done.
Qed.

Lemma setAlexaPresetSession_found key ident (db : Store) l found :
  sessions (getUserData key db) = Some l ->
  List.find (matchesIdentifier ident) l = Some found ->
  setAlexaPresetSession key ident db
  = (updateUserData key (sessionsOnly (selectByCode (code found) l)) db,
     PresetOk found).
Proof.
  intros Hs Hf. unfold setAlexaPresetSession. rewrite Hs.
  destruct l as [|s l]; [discriminate|]. by rewrite Hf.
Qed.




(* ------------------------------------------------------------------ *)
(** ** Counting days *)

Lemma countIf_cons p d l :
  countIf p (d :: l) = (if p d then 1 else 0) + countIf p l.
Proof. unfold countIf. simpl. destruct (p d); simpl; lia. Qed.

Lemma countIf_nonneg p l : 0 <= countIf p l.
Proof. unfold countIf. lia. Qed.

Lemma countIf_le p q l :
  (forall d, q d = true -> p d = true) -> countIf q l <= countIf p l.
Proof.
  intros Hqp. induction l as [|d l IH]; [done|].
  rewrite !countIf_cons. specialize (Hqp d).
  destruct (q d), (p d); try lia; by specialize (Hqp eq_refl).
Qed.

Lemma countIf_none p l :
  (forall d, In d l -> p d = false) -> countIf p l = 0.
Proof.
  intros H. induction l as [|d l IH]; [done|].
  rewrite countIf_cons, (H d) by (by left).
  rewrite IH; [done|]. intros d' Hd'. apply H. by right.
Qed.

Lemma countDay_spec ud d p w :
  countDay ud d (p, w)
  = (p + (if isWorkingPresent ud d then 1 else 0),
     w + (if isWorkingDay ud d then 1 else 0)).
Proof.
  unfold countDay, isWorkingPresent, isWorkingDay.
  destruct (isNonWorkingDay d ud), (isHoliday d ud), (isNotEnrolled d ud),
    (isPresent d ud); simpl; f_equal; lia.
Qed.

(* ------------------------------------------------------------------ *)
(** ** Session attendance *)

Lemma sessionLoop_step ud e t cur acc :
  sessionLoop ud e t cur acc
  = if (cur <=? e) && (cur <=? t)
    then sessionLoop ud e t (cur + msPerDay) (sessionBody ud cur acc)
    else acc.
Proof.
  rewrite sessionLoop_equation_1.
  destruct (inspect ((cur <=? e) && (cur <=? t))) as [[] E];
    simpl; rewrite E; reflexivity.
Qed.

Lemma daysUpTo_after start last : last < start -> daysUpTo start last = [].
Proof.
  intros H. unfold daysUpTo.
  assert ((last - start) / msPerDay < 0)
    by (apply Z.div_lt_upper_bound; unfold msPerDay; lia).
  replace (Z.to_nat _) with 0%nat by lia. reflexivity.
Qed.

Lemma daysUpTo_step start last :
  start <= last ->
  daysUpTo start last = start :: daysUpTo (start + msPerDay) last.
Proof.
  intros H. unfold daysUpTo.
  assert (Hq : (last - start) / msPerDay
               = (last - (start + msPerDay)) / msPerDay + 1).
  { replace (last - start) with (last - (start + msPerDay) + 1 * msPerDay) by lia.
    rewrite Z.div_add by (unfold msPerDay; lia). lia. }
  assert (Hpos : 0 <= (last - start) / msPerDay)
    by (apply Z.div_pos; unfold msPerDay; lia).
  rewrite Hq in *.
  set (k := (last - (start + msPerDay)) / msPerDay + 1) in *.
  replace (Z.to_nat (k + 1)) with (S (Z.to_nat k)) by lia.
  simpl. f_equal; [lia|].
  rewrite <- List.seq_shift, List.map_map. apply List.map_ext.
  intros i. lia.
Qed.

Lemma daysUpTo_bounds start last d :
  In d (daysUpTo start last) -> start <= d <= last.
Proof.
  unfold daysUpTo. rewrite List.in_map_iff. intros (i & <- & Hi).
  apply List.in_seq in Hi.
  assert (Hms : 0 < msPerDay) by (unfold msPerDay; lia).
  destruct (Z_lt_le_dec ((last - start) / msPerDay) 0) as [Hneg|Hpos]; [lia|].
  assert (Z.of_nat i <= (last - start) / msPerDay) by lia.
  assert (msPerDay * ((last - start) / msPerDay) <= last - start)
    by (apply Z.mul_div_le; lia).
  nia.
Qed.

Lemma daysUpTo_last start last :
  start <= last -> (last - start) mod msPerDay = 0 ->
  In last (daysUpTo start last).
Proof.
  intros Hle Hmod. unfold daysUpTo. apply List.in_map_iff.
  assert (Hms : 0 < msPerDay) by (unfold msPerDay; lia).
  assert (Hpos : 0 <= (last - start) / msPerDay) by (apply Z.div_pos; lia).
  exists (Z.to_nat ((last - start) / msPerDay)). split.
  - rewrite Z2Nat.id by done.
    pose proof (Z.div_mod (last - start) msPerDay ltac:(lia)). lia.
  - apply List.in_seq. lia.
Qed.

(** The [while] loop counts exactly the working days, and the days present
    among them, from [cur] to the earlier of [e] and [t]. *)
Lemma sessionLoop_spec ud e t (n : nat) :
  forall cur p w,
    n = Z.to_nat ((Z.min e t - cur) / msPerDay + 1) ->
    sessionLoop ud e t cur (p, w)
    = (p + countIf (isWorkingPresent ud) (List.map toISODate (daysUpTo cur (Z.min e t))),
       w + countIf (isWorkingDay ud) (List.map toISODate (daysUpTo cur (Z.min e t)))).
Proof.
  assert (Hms : 0 < msPerDay) by (unfold msPerDay; lia).
  induction n as [|n IH]; intros cur p w Hn; rewrite sessionLoop_step.
  - assert (Hlt : Z.min e t < cur).
    { destruct (Z_lt_le_dec (Z.min e t) cur) as [|Hle]; [done|].
      assert (0 <= (Z.min e t - cur) / msPerDay) by (apply Z.div_pos; lia). lia. }
    replace ((cur <=? e) && (cur <=? t)) with false
      by (symmetry; apply andb_false_iff; rewrite !Z.leb_gt; lia).
    rewrite daysUpTo_after by done.
    unfold countIf. simpl. f_equal; lia.
  - assert (Hle : cur <= Z.min e t).
    { destruct (Z_lt_le_dec (Z.min e t) cur) as [Hlt|]; [|done].
      assert ((Z.min e t - cur) / msPerDay < 0)
        by (apply Z.div_lt_upper_bound; lia). lia. }
    replace ((cur <=? e) && (cur <=? t)) with true
      by (symmetry; apply andb_true_iff; rewrite !Z.leb_le; lia).
    unfold sessionBody. rewrite countDay_spec, IH.
    + rewrite (daysUpTo_step cur) by done. simpl.
      rewrite !countIf_cons. f_equal; lia.
    + replace (Z.min e t - (cur + msPerDay))
        with (Z.min e t - cur + (-1) * msPerDay) by lia.
      rewrite Z.div_add by lia. lia.
Qed.

Lemma parseDate_midnight s t : parseDate s = Some t -> t mod msPerDay = 0.
Proof.
  unfold parseDate. intros H.
  repeat case_match; try discriminate;
    injection H as <-; apply Z_mod_mult.
Qed.



(* ------------------------------------------------------------------ *)
(** ** Monthly attendance *)

Lemma monthBody_spec ud year month today day p w :
  monthBody ud year month today day (p, w)
  = (p + (if isEligiblePresent ud today (monthDateStr year month day) then 1 else 0),
     w + (if isEligible ud today (monthDateStr year month day) then 1 else 0)).
Proof.
  unfold monthBody, isEligiblePresent, isEligible.
  destruct (String.ltb today (monthDateStr year month day)).
  - simpl. f_equal; lia.
  - rewrite countDay_spec. reflexivity.
Qed.

Lemma monthDates_step year month first n :
  monthDates year month first (S n)
  = monthDateStr year month first :: monthDates year month (first + 1) n.
Proof.
  unfold monthDates. simpl. f_equal; [f_equal; lia|].
  rewrite <- List.seq_shift, List.map_map. apply List.map_ext.
  intros i. f_equal. lia.
Qed.

(** The [for] loop counts the eligible days, and the days present among
    them, of the [n] days from [day]. *)
Lemma monthLoop_spec ud year month today n :
  forall day p w,
    monthLoop ud year month today n day (p, w)
    = (p + countIf (isEligiblePresent ud today) (monthDates year month day n),
       w + countIf (isEligible ud today) (monthDates year month day n)).
Proof.
  induction n as [|n IH]; intros day p w.
  - simpl. unfold countIf. simpl. f_equal; lia.
  - cbn [monthLoop]. rewrite monthBody_spec, IH, monthDates_step, !countIf_cons.
    f_equal; lia.
Qed.

Lemma roundPercent_rounds x y :
  0 < y -> isRoundedPercent x y (roundPercent x y).
Proof.
  intros Hy. unfold isRoundedPercent, roundPercent.
  pose proof (Z.div_mod (200 * x + y) (2 * y) ltac:(lia)) as Hdm.
  pose proof (Z.mod_pos_bound (200 * x + y) (2 * y) ltac:(lia)) as Hb.
  nia.
Qed.


(* ------------------------------------------------------------------ *)
(** ** Saving a session *)

Lemma insertBy_newestFirst_HdRel a x l :
  notOlder a x -> HdRel notOlder a l -> HdRel notOlder a (insertBy newestFirst x l).
Proof.
  intros Hax Hl. destruct l as [|y l]; simpl; [by constructor|].
  destruct (newestFirst x y <=? 0); constructor; [done|].
  by inversion Hl.
Qed.

Lemma insertBy_newestFirst_Sorted x l :
  Sorted notOlder l -> Sorted notOlder (insertBy newestFirst x l).
Proof.
  induction 1 as [|y l Hs IH Hhd]; simpl; [by repeat constructor|].
  destruct (newestFirst x y <=? 0) eqn:E.
  - apply Z.leb_le in E. constructor; [by constructor|].
    constructor. unfold notOlder, newestFirst in *. lia.
  - apply Z.leb_gt in E. constructor; [done|].
    apply insertBy_newestFirst_HdRel; [|done].
    unfold notOlder, newestFirst in *. lia.
Qed.

Lemma sortBy_newestFirst_Sorted l : Sorted notOlder (sortBy newestFirst l).
Proof.
  induction l as [|x l IH]; [constructor|].
  unfold sortBy in *. simpl. by apply insertBy_newestFirst_Sorted.
Qed.

Lemma selectByCode_length c l : length (selectByCode c l) = length l.
Proof. apply List.length_map. Qed.

(** The list [saveSession] leaves in the store, and the session it
    returns. *)
Lemma saveSession_stored now random key sessionName sd ed setAsPreset (db : Store) :
  let sessionData :=
    {| name := sessionName; code := generateSessionCode random sessionName;
       startDate := sd; endDate := ed; createdAt := now;
       isSelected := setAsPreset |} in
  let res := saveSession now random key sessionName sd ed setAsPreset db in
  snd res = sessionData
  /\ getAvailableSessions key (fst res)
     = upsert (getAvailableSessions key db) sessionData setAsPreset.
Proof.
  cbv zeta. unfold saveSession, getAvailableSessions. simpl.
  by rewrite getUserData_updateUserData.
Qed.

(** When a session of the list matches, [upsert] writes the new entry
    over the first match, recomputes the flags if asked to, and sorts. *)
Lemma upsert_replaces l sessionData setAsPreset i :
  findIndex (matchesNameOrCode (name sessionData) (code sessionData)) l = Some i ->
  Permutation (upsert l sessionData setAsPreset)
    (if setAsPreset then selectByCode (code sessionData) (<[i := sessionData]> l)
     else <[i := sessionData]> l).
Proof.
  intros Hi. unfold upsert. rewrite Hi. apply sortBy_Permutation.
Qed.

Lemma sameName_findIndex nm cd l :
  (exists s, In s l /\ sameName nm s = true) ->
  exists i, findIndex (matchesNameOrCode nm cd) l = Some i /\ (i < length l)%nat.
Proof.
  intros (s & Hs & Hn).
  destruct (findIndex (matchesNameOrCode nm cd) l) as [i|] eqn:Hi.
  - exists i. split; [done|].
    apply findIndex_Some in Hi as (x & Hx & _). by eapply lookup_lt_Some.
  - pose proof (findIndex_None _ _ Hi s Hs) as Hf.
    unfold matchesNameOrCode in Hf. unfold sameName in Hn.
    rewrite Hn in Hf. discriminate.
Qed.

(** [saveSession] when the first session matching by name or by the
    generated code sits at index [i]: the entry it returns is stored in
    place of that session. *)
Lemma saveSession_over_first_match
    now random key sessionName sd ed setAsPreset (db : Store) i :
  let l := getAvailableSessions key db in
  let sessionData :=
    mkSession sessionName (generateSessionCode random sessionName) sd ed now
      setAsPreset in
  let res := saveSession now random key sessionName sd ed setAsPreset db in
  let l' := getAvailableSessions key (fst res) in
  findIndex (matchesNameOrCode sessionName (code sessionData)) l = Some i ->
  snd res = sessionData
  /\ Permutation l'
       (if setAsPreset then selectByCode (code sessionData) (<[i := sessionData]> l)
        else <[i := sessionData]> l)
  /\ In sessionData l'.
Proof.
  intros l sessionData res l' Hi.
  destruct (saveSession_stored now random key sessionName sd ed setAsPreset db)
    as [Hres Hl'].
  fold res sessionData in Hres, Hl'. fold l l' in Hl'.
  pose proof (upsert_replaces l sessionData setAsPreset i Hi) as Hperm.
  rewrite <- Hl' in Hperm.
  split; [done|]. split; [done|].
  apply (Permutation_in _ (Permutation_sym Hperm)).
  assert (Hin0 : In sessionData (<[i := sessionData]> l)).
  { apply list_elem_of_In, list_elem_of_lookup. exists i.
    apply list_lookup_insert_eq.
    apply findIndex_Some in Hi as (x & Hx & _). by eapply lookup_lt_Some. }
  subst sessionData. destruct setAsPreset; [|done].
  unfold selectByCode. apply List.in_map_iff. eexists. split; [|exact Hin0].
  simpl. by rewrite String.eqb_refl.
Qed.

Lemma stripNonAlnum_all s c :
  In c (list_ascii_of_string (stripNonAlnum s)) -> isLowerAlnum c = true.
Proof.
  induction s as [|a s IH]; simpl; [done|].
  destruct (isLowerAlnum a) eqn:Ha; [|done].
  simpl. intros [<-|H]; [done|by apply IH].
Qed.

Lemma substring_prefix_length n s : (String.length (String.substring 0 n s) <= n)%nat.
Proof.
  revert s. induction n as [|n IH]; intros [|a s]; simpl; try lia.
  specialize (IH s). lia.
Qed.

Lemma substring_prefix_In n s c :
  In c (list_ascii_of_string (String.substring 0 n s)) ->
  In c (list_ascii_of_string s).
Proof.
  revert s. induction n as [|n IH]; intros [|a s]; simpl; try done.
  intros [<-|H]; [by left|right; by apply IH].
Qed.



(** C6, amended.  [saveSession] generates a code on every call: the
    lower-cased name without the characters outside [a-z0-9], cut to at most
    8 characters, followed by the random suffix.  When an existing session
    has the given name up to case, the entry stored in its place carries
    this generated code, whatever code the existing session had. *)
Theorem saveSession_code_generated_on_every_save
    now random key sessionName sd ed setAsPreset (db : Store) :
  (exists s, In s (getAvailableSessions key db) /\ sameName sessionName s = true) ->
  let l := getAvailableSessions key db in
  let res := saveSession now random key sessionName sd ed setAsPreset db in
  let l' := getAvailableSessions key (fst res) in
  let base := prefix 8 (stripNonAlnum (toLowerCase sessionName)) in
  code (snd res) = base +:+ random
  /\ (String.length base <= 8)%nat
  /\ (forall c, In c (list_ascii_of_string base) -> isLowerAlnum c = true)
  /\ In (snd res) l'
  /\ exists i old,
       l !! i = Some old
       /\ Permutation l'
            (if setAsPreset then selectByCode (code (snd res)) (<[i := snd res]> l)
             else <[i := snd res]> l).
Proof.
  intros Hex l res l' base.
  destruct (sameName_findIndex sessionName
              (generateSessionCode random sessionName) l Hex) as (i & Hi & Hlt).
  destruct (saveSession_over_first_match now random key sessionName sd ed
              setAsPreset db i Hi) as (Hres & Hperm & Hin).
  fold res in Hres. fold res l l' in Hperm, Hin. rewrite Hres.
  split; [done|]. split; [apply substring_prefix_length|].
  split.
  { intros c Hc. apply substring_prefix_In in Hc. by eapply stripNonAlnum_all. }
  split; [done|].
  apply findIndex_Some in Hi as (old & Hold & _).
  exists i, old. split; done.
Qed.

Lemma saveSession_code_generated_on_every_save_witness :
  code (snd (saveSession 500 "zz99" "user" "FALL" (Some "2024-09-01")
               (Some "2024-12-20") false fallDb)) = "fallzz99".
Proof.
  refine (proj1 (saveSession_code_generated_on_every_save 500 "zz99" "user" "FALL"
                   (Some "2024-09-01") (Some "2024-12-20") false fallDb _)).
  exists fallPreset. split; [vm_compute; tauto|vm_compute; reflexivity].
Defined.

(** Saving "FALL" over the stored session "Fall" with code "fallab12"
    stores an entry with the fresh code "fallzz99"; no stored session has
    the previous code any more.  The claim of C6 does not hold. *)
Lemma saveSession_keeps_code_counterexample :
  let res := saveSession 500 "zz99" "user" "FALL" (Some "2024-09-01")
               (Some "2024-12-20") false fallDb in
  getAvailableSessions "user" fallDb = [fallPreset]
  /\ sameName "FALL" fallPreset = true
  /\ code fallPreset = "fallab12"
  /\ List.map code (getAvailableSessions "user" (fst res)) = ["fallzz99"]
  /\ code (snd res) <> code fallPreset.
Proof.
  vm_compute. repeat split; discriminate.
Qed.

(** C10, amended.  When the selected session [S] is the only selected one
    and is the first session of the list that has the given name up to case
    or carries the generated code, [saveSession] with [setAsPreset = false]
    stores in its place an entry with [isSelected = false], changes no other
    session, and so leaves no selected session: the preset is dropped. *)
Theorem upsert_without_preset_drops_preset
    now random key sessionName sd ed (db : Store) i S :
  let l := getAvailableSessions key db in
  let sessionCode := generateSessionCode random sessionName in
  l !! i = Some S ->
  isSelected S = true ->
  (forall j s, j <> i -> l !! j = Some s -> isSelected s = false) ->
  sameName sessionName S = true ->
  (forall j s, (j < i)%nat -> l !! j = Some s ->
     matchesNameOrCode sessionName sessionCode s = false) ->
  let res := saveSession now random key sessionName sd ed false db in
  let l' := getAvailableSessions key (fst res) in
  isSelected (snd res) = false
  /\ Permutation l' (<[i := snd res]> l)
  /\ List.filter isSelected l' = []
  /\ getAlexaPresetSession key (fst res) = None.
Proof.
  intros l sessionCode HS Hsel Hothers Hname Hfirst res l'.
  assert (Hi : findIndex (matchesNameOrCode sessionName sessionCode) l = Some i).
  { apply (findIndex_first _ _ _ S); [done| |done].
    unfold matchesNameOrCode. unfold sameName in Hname. by rewrite Hname. }
  destruct (saveSession_over_first_match now random key sessionName sd ed
              false db i Hi) as (Hres & Hperm & _).
  fold res in Hres. fold res l l' in Hperm. rewrite Hres.
  set (sessionData := mkSession _ _ _ _ _ _) in *.
  assert (Hnone : forall s, In s l' -> isSelected s = false).
  { intros s Hs. apply (Permutation_in _ Hperm) in Hs.
    apply list_elem_of_In, list_elem_of_lookup in Hs as [j Hj].
    destruct (decide (j = i)) as [->|Hne].
    - rewrite list_lookup_insert_eq in Hj by (by eapply lookup_lt_Some).
      by injection Hj as <-.
    - rewrite list_lookup_insert_ne in Hj by done. by eapply Hothers. }
  assert (Hfilter : List.filter isSelected l' = []).
  { clear -Hnone. induction l' as [|s r IH]; [done|]. simpl.
    rewrite (Hnone s) by (by left). apply IH. intros x Hx. apply Hnone. by right. }
  split; [done|]. split; [done|]. split; [done|].
  unfold getAlexaPresetSession. fold (getAvailableSessions key (fst res)). fold l'.
  destruct (List.find isSelected l') as [s|] eqn:Hf; [|done].
  apply List.find_some in Hf as [Hin Hs]. rewrite (Hnone s Hin) in Hs. discriminate.
Qed.

Lemma upsert_without_preset_drops_preset_witness :
  getAlexaPresetSession "user"
    (fst (saveSession 500 "zz99" "user" "FALL" (Some "2024-09-01")
            (Some "2024-12-20") false fallDb)) = None.
Proof.
  refine (proj2 (proj2 (proj2
    (upsert_without_preset_drops_preset 500 "zz99" "user" "FALL"
       (Some "2024-09-01") (Some "2024-12-20") fallDb 0%nat fallPreset
       _ _ _ _ _)))).
  - vm_compute. reflexivity.
  - vm_compute. reflexivity.
  - intros [|j] s Hj Hs; [done|]. vm_compute in Hs. destruct j; discriminate.
  - vm_compute. reflexivity.
  - intros j s Hj. lia.
Defined.

(** With two sessions named "Fall" of which the second is the preset,
    saving "Fall" without [setAsPreset] overwrites the first one and the
    preset stays selected.  The claim of C10 does not hold as stated. *)
Lemma upsert_without_preset_keeps_preset_counterexample :
  let res := saveSession 500 "zz99" "user" "Fall" (Some "2024-09-01")
               (Some "2024-12-20") false twoFallsDb in
  List.find isSelected (getAvailableSessions "user" twoFallsDb) = Some fallPreset
  /\ sameName "Fall" fallPreset = true
  /\ getAlexaPresetSession "user" (fst res) = Some fallPreset
  /\ List.filter isSelected (getAvailableSessions "user" (fst res)) <> [].
Proof.
  vm_compute. repeat split; discriminate.
Qed.

(* ------------------------------------------------------------------ *)
(** ** Resolving a session *)

(** C7.  Evaluation at a list where the identifier "fallab12" is the code
    of the second session and the name of the first: [setAlexaPresetSession]
    resolves the first session, by name, although a session has that code;
    [SelectSessionIntentHandler] finds the session with that code and
    announces it, yet the session that ends up selected is the other one. *)
Theorem setPreset_name_match_shadows_code :
  getAvailableSessions "user" shadowDb = [namedLikeCode; fallPreset]
  /\ code fallPreset = "fallab12"
  /\ snd (setAlexaPresetSession "user" "fallab12" shadowDb) = PresetOk namedLikeCode
  /\ fst (SelectSessionIntentHandler "user" (Some "fallab12") shadowDb)
     = SessionSet (name fallPreset)
  /\ getAvailableSessions "user"
       (snd (SelectSessionIntentHandler "user" (Some "fallab12") shadowDb))
     = [withSelected true namedLikeCode; withSelected false fallPreset].
Proof.
  vm_compute. repeat split.
Qed.




(* ------------------------------------------------------------------ *)
(** ** Marking a day *)

Lemma isNonWorkingDay_sunday dateStr t userData :
  parseDate dateStr = Some t -> getDay t = 0 ->
  isNonWorkingDay dateStr userData = true.
Proof.
  intros Hp Hd. unfold isNonWorkingDay. rewrite Hp, Hd. reflexivity.
Qed.



(* ================================================================== *)
(** * Further properties: the store, the session manager, the calculator,
      account linking and the conversation *)

(* ------------------------------------------------------------------ *)
(** ** Marking a day and reading it back *)

(** The document [setDayStatus] leaves for the user it writes to. *)
Lemma setDayStatus_stored ts key d s extra (db : Store) :
  let userData := getUserData key db in
  let r1 := delete d (default ∅ (records userData)) in
  let h1 := List.filter (fun h => negb (isHolidayOn d h)) (default [] (holidays userData)) in
  let n1 := List.filter (fun x => negb (String.eqb x d)) (default [] (notEnrolled userData)) in
  getUserData key (setDayStatus ts key d s extra db)
  = {| records := Some (if String.eqb s "present" then <[d := true]> r1
                        else if String.eqb s "absent" then <[d := false]> r1
                        else r1);
       holidays := Some (if String.eqb s "holiday"
                         then h1 ++ [Holiday.mk d (orElse (holidayName extra) "Holiday")]
                         else h1);
       notEnrolled := Some (if String.eqb s "not-enrolled" then n1 ++ [d] else n1);
       sessions := sessions userData;
       weeklyDaysOff := weeklyDaysOff userData;
       updatedAt := Some ts |}.
Proof.
  intros userData r1 h1 n1. unfold setDayStatus.
  destruct (String.eqb_spec s "present") as [->|H1];
    [by rewrite getUserData_updateUserData|].
  destruct (String.eqb_spec s "absent") as [->|H2];
    [by rewrite getUserData_updateUserData|].
  destruct (String.eqb_spec s "holiday") as [->|H3];
    [by rewrite getUserData_updateUserData|].
  destruct (String.eqb_spec s "not-enrolled") as [->|H4];
    by rewrite getUserData_updateUserData.
Qed.

Lemma find_filtered_out {A} (p : A -> bool) (l : list A) :
  List.find p (List.filter (fun x => negb (p x)) l) = None.
Proof.
  induction l as [|x l IH]; simpl; [done|].
  destruct (p x) eqn:E; simpl; [done|]. by rewrite E.
Qed.

Lemma find_snoc {A} (p : A -> bool) (l : list A) x :
  List.find p (l ++ [x])
  = match List.find p l with Some y => Some y | None => if p x then Some x else None end.
Proof.
  induction l as [|y l IH]; simpl; [done|]. by destruct (p y).
Qed.

Lemma find_filter_other {A} (p q : A -> bool) (l : list A) :
  (forall x, p x = true -> q x = true) ->
  List.find p (List.filter q l) = List.find p l.
Proof.
  intros H. induction l as [|x l IH]; simpl; [done|].
  destruct (p x) eqn:E.
  - rewrite (H x E). simpl. by rewrite E.
  - destruct (q x); simpl; [by rewrite E|done].
Qed.

Lemma existsb_filter_other {A} (p q : A -> bool) (l : list A) :
  (forall x, p x = true -> q x = true) ->
  existsb p (List.filter q l) = existsb p l.
Proof.
  intros H. induction l as [|x l IH]; simpl; [done|].
  destruct (p x) eqn:E.
  - rewrite (H x E). simpl. by rewrite E.
  - destruct (q x); simpl; [by rewrite E|done].
Qed.

(** The three places of the day that was set, in the stored document. *)
Lemma recordOn_after_set ts key d s extra (db : Store) :
  recordOn d (getUserData key (setDayStatus ts key d s extra db))
  = if String.eqb s "present" then Some true
    else if String.eqb s "absent" then Some false
    else None.
Proof.
  rewrite setDayStatus_stored. unfold recordOn. simpl.
  destruct (String.eqb s "present"); [by rewrite lookup_insert_eq|].
  destruct (String.eqb s "absent"); [by rewrite lookup_insert_eq|].
  by rewrite lookup_delete_eq.
Qed.

Lemma holiday_after_set ts key d s extra (db : Store) :
  List.find (isHolidayOn d)
    (default [] (holidays (getUserData key (setDayStatus ts key d s extra db))))
  = if String.eqb s "holiday"
    then Some (Holiday.mk d (orElse (holidayName extra) "Holiday"))
    else None.
Proof.
  rewrite setDayStatus_stored. simpl.
  destruct (String.eqb s "holiday").
  - rewrite find_snoc, find_filtered_out. by rewrite isHolidayOn_self.
  - apply find_filtered_out.
Qed.

Lemma notEnrolled_after_set ts key d s extra (db : Store) :
  includes d
    (default [] (notEnrolled (getUserData key (setDayStatus ts key d s extra db))))
  = String.eqb s "not-enrolled".
Proof.
  rewrite setDayStatus_stored. simpl.
  destruct (String.eqb s "not-enrolled").
  - unfold includes. rewrite existsb_snoc, String.eqb_refl. apply orb_true_r.
  - apply date_filtered_out.
Qed.

(** A day set present or absent reads back as such, and a day set as a
    holiday reads back as the holiday. *)
Lemma getDayStatus_marked ts key d s extra (db : Store) :
  s = "present" \/ s = "absent" ->
  getDayStatus key d (setDayStatus ts key d s extra db) = Some (Tag s).
Proof.
  intros Hs. unfold getDayStatus. rewrite recordOn_after_set.
  by destruct Hs as [-> | ->].
Qed.

Lemma getDayStatus_holiday ts key d extra (db : Store) :
  getDayStatus key d (setDayStatus ts key d "holiday" extra db)
  = Some (Tagged "holiday" (orElse (holidayName extra) "Holiday")).
Proof.
  unfold getDayStatus. by rewrite recordOn_after_set, holiday_after_set.
Qed.

(** X1.  Reading a day back after it was marked: [getDayStatus] answers
    with the status just written for present, absent and not-enrolled, with
    the holiday and its name (["Holiday"] when none or an empty one was given)
    for a holiday, and with [null] after any other status string, which
    clears the day whatever it was marked as before. *)
Theorem getDayStatus_setDayStatus ts key d s extra (db : Store) :
  getDayStatus key d (setDayStatus ts key d s extra db)
  = if String.eqb s "present" then Some (Tag "present")
    else if String.eqb s "absent" then Some (Tag "absent")
    else if String.eqb s "holiday"
      then Some (Tagged "holiday" (orElse (holidayName extra) "Holiday"))
    else if String.eqb s "not-enrolled" then Some (Tag "not-enrolled")
    else None.
Proof.
  unfold getDayStatus.
  rewrite recordOn_after_set, holiday_after_set, notEnrolled_after_set.
  destruct (String.eqb_spec s "present") as [->|H1]; [done|].
  destruct (String.eqb_spec s "absent") as [->|H2]; [done|].
  destruct (String.eqb_spec s "holiday") as [->|H3]; [done|].
  by destruct (String.eqb s "not-enrolled").
Qed.

(** X2.  Marking one day of one user changes the status of no other day
    and of no other user. *)
Theorem setDayStatus_other_days ts key d s extra key' d' (db : Store) :
  key' <> key \/ d' <> d ->
  getDayStatus key' d' (setDayStatus ts key d s extra db) = getDayStatus key' d' db.
Proof.
  intros Hne. unfold getDayStatus.
  destruct (decide (key' = key)) as [->|Hk];
    [|by rewrite setDayStatus_other_user].
  destruct Hne as [|Hd]; [done|].
  rewrite setDayStatus_stored. unfold recordOn. simpl.
  set (userData := getUserData key db).
  assert (Hrec : forall b : bool,
             (<[d := b]> (delete d (default ∅ (records userData))) : gmap string bool) !! d'
             = match records userData with Some m => m !! d' | None => None end).
  { intros b. rewrite lookup_insert_ne by done. rewrite lookup_delete_ne by done.
    by destruct (records userData). }
  assert (Hrec' : (delete d (default ∅ (records userData)) : gmap string bool) !! d'
                  = match records userData with Some m => m !! d' | None => None end).
  { rewrite lookup_delete_ne by done. by destruct (records userData). }
  assert (Hrecs :
            (if String.eqb s "present"
             then <[d := true]> (delete d (default ∅ (records userData)))
             else if String.eqb s "absent"
                  then <[d := false]> (delete d (default ∅ (records userData)))
                  else delete d (default ∅ (records userData))) !! d'
            = match records userData with Some m => m !! d' | None => None end).
  { by repeat case_match. }
  rewrite Hrecs. clear Hrec Hrec' Hrecs.
  assert (Hother : forall h, isHolidayOn d' h = true -> negb (isHolidayOn d h) = true).
  { intros h Hh. unfold isHolidayOn in *. apply String.eqb_eq in Hh.
    apply negb_true_iff, String.eqb_neq. congruence. }
  assert (Hhol :
            List.find (isHolidayOn d')
              (if String.eqb s "holiday"
               then List.filter (fun h => negb (isHolidayOn d h))
                      (default [] (holidays userData))
                    ++ [Holiday.mk d (orElse (holidayName extra) "Holiday")]
               else List.filter (fun h => negb (isHolidayOn d h))
                      (default [] (holidays userData)))
            = List.find (isHolidayOn d') (default [] (holidays userData))).
  { destruct (String.eqb s "holiday").
    - rewrite find_snoc, find_filter_other by done.
      destruct (List.find _ _); [done|].
      unfold isHolidayOn at 1. simpl.
      by destruct (String.eqb_spec d d').
    - by rewrite find_filter_other. }
  rewrite Hhol. clear Hhol.
  assert (Hinc :
            includes d'
              (if String.eqb s "not-enrolled"
               then List.filter (fun x => negb (String.eqb x d))
                      (default [] (notEnrolled userData)) ++ [d]
               else List.filter (fun x => negb (String.eqb x d))
                      (default [] (notEnrolled userData)))
            = includes d' (default [] (notEnrolled userData))).
  { assert (Hq : forall x, String.eqb d' x = true -> negb (String.eqb x d) = true).
    { intros x Hx. apply String.eqb_eq in Hx. subst x.
      by apply negb_true_iff, String.eqb_neq. }
    unfold includes. destruct (String.eqb s "not-enrolled").
    - rewrite existsb_snoc, existsb_filter_other by done.
      destruct (String.eqb_spec d' d); [done|]. by rewrite orb_false_r.
    - by rewrite existsb_filter_other. }
  by rewrite Hinc.
Qed.

Lemma setDayStatus_other_days_witness :
  getDayStatus "user" "2024-01-03"
    (setDayStatus 7 "user" "2024-01-02" "not-enrolled" (mkExtra None) term1Db)
  = Some (Tagged "holiday" "New Year").
Proof.
  rewrite (setDayStatus_other_days 7 "user" "2024-01-02" "not-enrolled" (mkExtra None)
             "user" "2024-01-03" term1Db); [reflexivity|].
  right. discriminate.
Defined.

(** X3.  Marking a day leaves every user's sessions, preset and weekly days
    off as they are: which days count as non-working is the same before
    and after. *)
Theorem setDayStatus_keeps_sessions ts key d s extra key' (db : Store) :
  let db' := setDayStatus ts key d s extra db in
  getAvailableSessions key' db' = getAvailableSessions key' db
  /\ getAlexaPresetSession key' db' = getAlexaPresetSession key' db
  /\ weeklyDaysOff (getUserData key' db') = weeklyDaysOff (getUserData key' db)
  /\ forall dateStr,
       isNonWorkingDay dateStr (getUserData key' db')
       = isNonWorkingDay dateStr (getUserData key' db).
Proof.
  intros db'. subst db'.
  unfold getAvailableSessions, getAlexaPresetSession, isNonWorkingDay.
  destruct (decide (key' = key)) as [->|Hk].
  - by rewrite setDayStatus_stored.
  - by rewrite setDayStatus_other_user.
Qed.

Lemma filter_filter_same {A} (p : A -> bool) (l : list A) :
  List.filter p (List.filter p l) = List.filter p l.
Proof.
  induction l as [|x l IH]; simpl; [done|].
  destruct (p x) eqn:E; simpl; [rewrite E; by f_equal|done].
Qed.

Lemma filter_snoc {A} (p : A -> bool) (l : list A) x :
  List.filter p (l ++ [x]) = List.filter p l ++ (if p x then [x] else []).
Proof. rewrite List.filter_app. simpl. by destruct (p x). Qed.

(** X4.  Marking a day twice with the same status (and timestamp) is the
    same as marking it once: no duplicate holiday or not-enrolled entry
    is left behind. *)
Theorem setDayStatus_idempotent ts key d s extra (db : Store) :
  setDayStatus ts key d s extra (setDayStatus ts key d s extra db)
  = setDayStatus ts key d s extra db.
Proof.
  assert (Hdoc : forall db0 : Store,
             setDayStatus ts key d s extra db0
             = <[key := getUserData key (setDayStatus ts key d s extra db0)]> db0).
  { intros db0. unfold setDayStatus.
    destruct (String.eqb s "present"), (String.eqb s "absent"),
      (String.eqb s "holiday"), (String.eqb s "not-enrolled");
      by rewrite getUserData_updateUserData. }
  assert (Heq : getUserData key
                  (setDayStatus ts key d s extra (setDayStatus ts key d s extra db))
                = getUserData key (setDayStatus ts key d s extra db));
    [|rewrite (Hdoc (setDayStatus ts key d s extra db)), Heq;
      set (doc := getUserData key (setDayStatus ts key d s extra db));
      rewrite (Hdoc db); by rewrite insert_insert_eq].
  rewrite (setDayStatus_stored ts key d s extra (setDayStatus ts key d s extra db)).
  rewrite !setDayStatus_stored. simpl.
  set (userData := getUserData key db).
  set (r1 := delete d (default ∅ (records userData))).
  set (h1 := List.filter (fun h => negb (isHolidayOn d h)) (default [] (holidays userData))).
  set (n1 := List.filter (fun x => negb (String.eqb x d)) (default [] (notEnrolled userData))).
  assert (Hr1 : delete d r1 = r1) by (subst r1; apply delete_delete_eq).
  f_equal; f_equal.
  - repeat case_match; rewrite ?delete_insert_eq, ?Hr1; done.
  - destruct (String.eqb s "holiday").
    + rewrite filter_snoc. subst h1. rewrite filter_filter_same.
      rewrite isHolidayOn_self. simpl. by rewrite app_nil_r.
    + subst h1. apply filter_filter_same.
  - destruct (String.eqb s "not-enrolled").
    + rewrite filter_snoc. subst n1. rewrite filter_filter_same.
      rewrite String.eqb_refl. simpl. by rewrite app_nil_r.
    + subst n1. apply filter_filter_same.
Qed.

(* ------------------------------------------------------------------ *)
(** ** Sessions and marks are kept apart *)

Lemma sessionsOnly_sameMarks key key' l (db : Store) :
  sameMarks (getUserData key' (updateUserData key (sessionsOnly l) db))
            (getUserData key' db).
Proof.
  destruct (decide (key = key')) as [->|Hk].
  - rewrite getUserData_updateUserData. by destruct (getUserData key' db).
  - by rewrite getUserData_updateUserData_ne.
Qed.

Lemma setAlexaPresetSession_sameMarks key key' ident (db : Store) :
  sameMarks (getUserData key' (fst (setAlexaPresetSession key ident db)))
            (getUserData key' db).
Proof.
  unfold setAlexaPresetSession.
  destruct (sessions (getUserData key db)) as [[|s l]|]; try done.
  destruct (List.find _ _); [apply sessionsOnly_sameMarks|done].
Qed.

Lemma countDay_sameMarks a b d acc : sameMarks a b -> countDay a d acc = countDay b d acc.
Proof.
  intros (Hr & Hh & Hn & Hw).
  unfold countDay, isNonWorkingDay, isHoliday, isNotEnrolled, isPresent, recordOn.
  by rewrite Hr, Hh, Hn, Hw.
Qed.

Lemma monthLoop_sameMarks a b year month today n :
  sameMarks a b ->
  forall day acc,
    monthLoop a year month today n day acc = monthLoop b year month today n day acc.
Proof.
  intros H. induction n as [|n IH]; intros day acc; simpl; [done|].
  rewrite IH. unfold monthBody. by rewrite (countDay_sameMarks a b).
Qed.

Lemma getDayStatus_sameMarks key d (db db' : Store) :
  sameMarks (getUserData key db') (getUserData key db) ->
  getDayStatus key d db' = getDayStatus key d db.
Proof.
  intros (Hr & Hh & Hn & _). unfold getDayStatus, recordOn. by rewrite Hr, Hh, Hn.
Qed.

Lemma calculateMonthlyAttendance_sameMarks now key ym (db db' : Store) :
  sameMarks (getUserData key db') (getUserData key db) ->
  calculateMonthlyAttendance now key ym db' = calculateMonthlyAttendance now key ym db.
Proof.
  intros H. unfold calculateMonthlyAttendance.
  repeat case_match; try done;
    rewrite (monthLoop_sameMarks _ _ _ _ _ _ H) in *; congruence.
Qed.

(** X5.  Saving a session, setting the preset and clearing it change no
    attendance mark: for every user, the status of every day and the
    percentage of every month are what they were. *)
Theorem session_operations_keep_marks
    now random key nm sd ed setAsPreset ident key' (db : Store) :
  forall db',
    db' = fst (saveSession now random key nm sd ed setAsPreset db)
    \/ db' = fst (setAlexaPresetSession key ident db)
    \/ db' = clearAlexaPresetSession key db ->
    (forall d, getDayStatus key' d db' = getDayStatus key' d db)
    /\ (forall clock yearMonth,
          calculateMonthlyAttendance clock key' yearMonth db'
          = calculateMonthlyAttendance clock key' yearMonth db).
Proof.
  intros db' Hdb'.
  assert (H : sameMarks (getUserData key' db') (getUserData key' db)).
  { destruct Hdb' as [-> | [-> | ->]].
    - apply sessionsOnly_sameMarks.
    - apply setAlexaPresetSession_sameMarks.
    - apply sessionsOnly_sameMarks. }
  split; intros.
  - by apply getDayStatus_sameMarks.
  - by apply calculateMonthlyAttendance_sameMarks.
Qed.

Lemma session_operations_keep_marks_witness :
  getDayStatus "user" "2024-01-03" (clearAlexaPresetSession "user" term1Db)
  = Some (Tagged "holiday" "New Year")
  /\ calculateMonthlyAttendance sunday10March "user" "2024-01"
       (clearAlexaPresetSession "user" term1Db) = 8.
Proof.
  destruct (session_operations_keep_marks 0 "" "user" "" None None false "" "user"
              term1Db (clearAlexaPresetSession "user" term1Db)) as [H1 H2].
  - right. right. reflexivity.
  - rewrite H1, H2. by_evaluation.
Defined.

(* ------------------------------------------------------------------ *)
(** ** Setting and clearing the preset *)

(** X6.  [setAlexaPresetSession] fails exactly when no stored session has
    the identifier as its code or (non-empty) name up to case; it then
    leaves the store as it is, and with no session stored at all the error
    is "No sessions found". *)
Theorem setAlexaPresetSession_failure key ident (db : Store) :
  let res := setAlexaPresetSession key ident db in
  ((exists e, snd res = PresetError e)
   <-> forall s, In s (getAvailableSessions key db) -> matchesIdentifier ident s = false)
  /\ ((exists e, snd res = PresetError e) -> fst res = db)
  /\ (getAvailableSessions key db = [] -> snd res = PresetError "No sessions found")
  /\ (getAvailableSessions key db <> [] ->
      (exists e, snd res = PresetError e) -> snd res = PresetError "Session not found").
Proof.
  unfold setAlexaPresetSession, getAvailableSessions.
  destruct (sessions (getUserData key db)) as [[|s0 l]|]; simpl.
  - split; [split; [done|eauto]|]. by repeat split.
  - destruct (if matchesIdentifier ident s0 then Some s0
              else List.find (matchesIdentifier ident) l) as [found|] eqn:Hf; simpl.
    + change (List.find (matchesIdentifier ident) (s0 :: l) = Some found) in Hf.
      apply find_some_In in Hf as [Hin Hm].
      split; [split|].
      * by intros [e He].
      * intros Hall. rewrite (Hall found Hin) in Hm. done.
      * split; [by intros [e He]|]. split; [done|]. by intros _ [e He].
    + change (List.find (matchesIdentifier ident) (s0 :: l) = None) in Hf.
      split; [split|].
      * intros _ s Hs. by eapply find_none in Hf.
      * eauto.
      * by repeat split.
  - split; [split; [done|eauto]|]. by repeat split.
Qed.

(** X7.  When [setAlexaPresetSession] succeeds, the session it reports is a
    stored session that matches the identifier; the stored list keeps its
    order and every field but [isSelected]; a session is selected
    afterwards exactly when it carries the reported session's code; the
    preset read back carries that code; and no other user's document
    changes. *)
Theorem setAlexaPresetSession_success key ident (db db' : Store) found :
  setAlexaPresetSession key ident db = (db', PresetOk found) ->
  let l := getAvailableSessions key db in
  let l' := getAvailableSessions key db' in
  In found l
  /\ matchesIdentifier ident found = true
  /\ List.map (withSelected false) l' = List.map (withSelected false) l
  /\ (forall s, In s l' -> (isSelected s = true <-> code s = code found))
  /\ (exists p, getAlexaPresetSession key db' = Some p /\ code p = code found)
  /\ (forall key', key' <> key -> getUserData key' db' = getUserData key' db).
Proof.
  intros H. apply setAlexaPresetSession_ok in H as (Hfind & Hne & Hs & -> & Hl').
  cbv zeta in *. rewrite Hl'. set (l := getAvailableSessions key db) in *.
  apply find_some_In in Hfind as [Hin Hm].
  assert (Hsel : forall s, In s (selectByCode (code found) l) ->
                           (isSelected s = true <-> code s = code found)).
  { intros s Hs'. unfold selectByCode in Hs'. apply in_map_iff in Hs' as (s0 & <- & _).
    simpl. apply String.eqb_eq. }
  repeat split; try done.
  - unfold selectByCode. rewrite List.map_map. by apply map_ext.
  - by apply Hsel.
  - by apply Hsel.
  - unfold getAlexaPresetSession. fold (getAvailableSessions key
      (updateUserData key (sessionsOnly (selectByCode (code found) l)) db)).
    rewrite Hl'.
    destruct (List.find isSelected (selectByCode (code found) l)) as [p|] eqn:Hp.
    + exists p. split; [done|]. apply find_some_In in Hp as [Hp1 Hp2].
      by apply Hsel.
    + exfalso. eapply find_none in Hp.
      2:{ unfold selectByCode. apply in_map_iff. exists found. split; [reflexivity|done]. }
      simpl in Hp. by rewrite String.eqb_refl in Hp.
  - intros key' Hk. by rewrite getUserData_updateUserData_ne.
Qed.

Lemma setAlexaPresetSession_success_witness :
  exists p, getAlexaPresetSession "user"
              (fst (setAlexaPresetSession "user" "fallcd34" twoFallsDb)) = Some p
            /\ code p = "fallcd34".
Proof.
  destruct (setAlexaPresetSession_success "user" "fallcd34" twoFallsDb
              (fst (setAlexaPresetSession "user" "fallcd34" twoFallsDb)) fallOld)
    as (_ & _ & _ & _ & H & _); [reflexivity|exact H].
Defined.

Lemma find_isSelected_cleared l : List.find isSelected (List.map (withSelected false) l) = None.
Proof. by induction l. Qed.

Lemma getAvailableSessions_updateUserData key l (db : Store) :
  getAvailableSessions key (updateUserData key (sessionsOnly l) db) = l.
Proof. unfold getAvailableSessions. by rewrite getUserData_updateUserData. Qed.

Lemma getFormattedDate_truthy t : truthy (Some (getFormattedDate t)) = true.
Proof.
  unfold getFormattedDate, truthy. destruct (showZ (getFullYear t)); done.
Qed.

(** X8.  After [clearAlexaPresetSession] no session is selected, the stored
    sessions are otherwise what they were, clearing again changes nothing,
    and an attendance query that names no session falls back to the
    current calendar year. *)
Theorem clearAlexaPresetSession_clears key (db : Store) :
  let db' := clearAlexaPresetSession key db in
  getAvailableSessions key db'
  = List.map (withSelected false) (getAvailableSessions key db)
  /\ getAlexaPresetSession key db' = None
  /\ clearAlexaPresetSession key db' = db'
  /\ forall now, sessionName (calculateSessionAttendance now key None db') = "current year".
Proof.
  intros db'. subst db'. unfold clearAlexaPresetSession.
  fold (getAvailableSessions key db).
  set (l := getAvailableSessions key db).
  assert (Hl' : getAvailableSessions key
                  (updateUserData key (sessionsOnly (List.map (withSelected false) l)) db)
                = List.map (withSelected false) l)
    by apply getAvailableSessions_updateUserData.
  split; [done|]. split; [|split].
  - unfold getAlexaPresetSession.
    fold (getAvailableSessions key
            (updateUserData key (sessionsOnly (List.map (withSelected false) l)) db)).
    rewrite Hl'. apply find_isSelected_cleared.
  - fold (getAvailableSessions key
            (updateUserData key (sessionsOnly (List.map (withSelected false) l)) db)).
    rewrite Hl'. rewrite List.map_map.
    rewrite (map_ext _ (withSelected false)) by done.
    apply updateUserData_twice.
  - intros now. unfold calculateSessionAttendance, resolveWindow.
    fold (getAvailableSessions key
            (updateUserData key (sessionsOnly (List.map (withSelected false) l)) db)).
    rewrite Hl', find_isSelected_cleared. simpl.
    by repeat case_match.
Qed.

(* ------------------------------------------------------------------ *)
(** ** Saving a session *)

Lemma selectByCode_fresh c l :
  (forall s, In s l -> code s <> c) ->
  selectByCode c l = List.map (withSelected false) l.
Proof.
  intros H. unfold selectByCode. apply map_ext_in. intros s Hs.
  destruct (String.eqb_spec (code s) c) as [E|E]; [by apply H in E|done].
Qed.

Lemma selectByCode_app c l1 l2 :
  selectByCode c (l1 ++ l2) = selectByCode c l1 ++ selectByCode c l2.
Proof. apply List.map_app. Qed.

Lemma upsert_appends l sessionData setAsPreset :
  findIndex (matchesNameOrCode (name sessionData) (code sessionData)) l = None ->
  Permutation (upsert l sessionData setAsPreset)
    (if setAsPreset then selectByCode (code sessionData) (l ++ [sessionData])
     else l ++ [sessionData]).
Proof. intros H. unfold upsert. rewrite H. apply sortBy_Permutation. Qed.

Lemma upsert_Sorted l sessionData setAsPreset :
  Sorted notOlder (upsert l sessionData setAsPreset).
Proof. apply sortBy_newestFirst_Sorted. Qed.

(** X9.  Saving a session whose name no stored session has (up to case),
    under a code no stored session carries, adds it: the stored list is one
    longer, holds the old sessions and the new entry, and is sorted newest
    first.  With [setAsPreset] the old sessions are all unselected, without
    it they are unchanged. *)
Theorem saveSession_new_session
    now random key sessionName sd ed setAsPreset (db : Store) :
  let l := getAvailableSessions key db in
  let sessionCode := generateSessionCode random sessionName in
  (forall s, In s l -> matchesNameOrCode sessionName sessionCode s = false) ->
  let res := saveSession now random key sessionName sd ed setAsPreset db in
  let l' := getAvailableSessions key (fst res) in
  length l' = S (length l)
  /\ Permutation l'
       ((if setAsPreset then List.map (withSelected false) l else l) ++ [snd res])
  /\ Sorted notOlder l'
  /\ snd res = mkSession sessionName sessionCode sd ed now setAsPreset.
Proof.
  intros l sessionCode Hnew res l'.
  destruct (saveSession_stored now random key sessionName sd ed setAsPreset db)
    as [Hres Hl'].
  fold res in Hres, Hl'. fold l' l in Hl'.
  set (sessionData := mkSession sessionName sessionCode sd ed now setAsPreset) in *.
  assert (Hidx : findIndex (matchesNameOrCode (name sessionData) (code sessionData)) l
                 = None).
  { destruct (findIndex _ l) as [i|] eqn:Hi; [|done].
    apply findIndex_Some in Hi as (x & Hx & Hm & _).
    apply list_elem_of_lookup_2, list_elem_of_In in Hx.
    specialize (Hnew x Hx).
    change (matchesNameOrCode sessionName sessionCode x = true) in Hm.
    congruence. }
  assert (Hperm : Permutation l'
            ((if setAsPreset then List.map (withSelected false) l else l)
               ++ [sessionData])).
  { rewrite Hl'. etransitivity; [by apply upsert_appends|].
    destruct setAsPreset eqn:Hp; [|done].
    rewrite selectByCode_app. rewrite selectByCode_fresh.
    - simpl. by rewrite String.eqb_refl.
    - intros s Hs Hc. specialize (Hnew s Hs). unfold matchesNameOrCode in Hnew.
      apply orb_false_iff in Hnew as [_ Hnew]. apply String.eqb_neq in Hnew.
      by apply Hnew. }
  split; [|split; [|split]].
  - rewrite (Permutation_length Hperm), length_app. simpl.
    destruct setAsPreset; rewrite ?length_map; lia.
  - by rewrite Hres.
  - rewrite Hl'. apply upsert_Sorted.
  - done.
Qed.

Lemma saveSession_new_session_witness :
  let res := saveSession 500 "zz99" "user" "Spring" (Some "2024-01-08")
               (Some "2024-05-31") true fallDb in
  List.map name (getAvailableSessions "user" (fst res)) = ["Spring"; "Fall"]
  /\ length (getAvailableSessions "user" (fst res)) = 2%nat.
Proof.
  split; [reflexivity|].
  apply (saveSession_new_session 500 "zz99" "user" "Spring" (Some "2024-01-08")
           (Some "2024-05-31") true fallDb).
  intros s [<-|[]]. reflexivity.
Defined.

Lemma find_head_filter {A} (p : A -> bool) (l : list A) :
  List.find p l = head (List.filter p l).
Proof. induction l as [|x l IH]; simpl; [done|]. by destruct (p x). Qed.

Lemma filter_Permutation {A} (p : A -> bool) (l l' : list A) :
  Permutation l l' -> Permutation (List.filter p l) (List.filter p l').
Proof.
  induction 1 as [|x l l' _ IH|x y l|l l' l'' _ IH1 _ IH2]; simpl.
  - done.
  - destruct (p x); [by constructor|done].
  - destruct (p x), (p y); try done. apply perm_swap.
  - by etransitivity.
Qed.

Lemma filter_none {A} (p : A -> bool) (l : list A) :
  (forall x, In x l -> p x = false) -> List.filter p l = [].
Proof.
  induction l as [|x l IH]; intros H; simpl; [done|].
  rewrite (H x) by (by left). apply IH. intros y Hy. apply H. by right.
Qed.

Lemma filter_code_insert c (l : list Session) i x :
  (forall s, In s l -> code s <> c) -> code x = c -> (i < length l)%nat ->
  List.filter (fun s => String.eqb (code s) c) (<[i := x]> l) = [x].
Proof.
  revert i. induction l as [|y l IH]; intros i Hl Hx Hi; simpl in *; [lia|].
  destruct i as [|i]; simpl.
  - rewrite Hx, String.eqb_refl. f_equal. apply filter_none.
    intros s Hs. apply String.eqb_neq, Hl. by right.
  - destruct (String.eqb_spec (code y) c) as [E|E]; [by apply Hl in E; [|left]|].
    apply IH; [|done|lia]. intros s Hs. apply Hl. by right.
Qed.

Lemma filter_code_snoc c (l : list Session) x :
  (forall s, In s l -> code s <> c) -> code x = c ->
  List.filter (fun s => String.eqb (code s) c) (l ++ [x]) = [x].
Proof.
  intros Hl Hx. rewrite List.filter_app. simpl. rewrite Hx, String.eqb_refl.
  rewrite filter_none; [done|]. intros s Hs. by apply String.eqb_neq, Hl.
Qed.

(** X10.  Saving with [setAsPreset] makes the saved session the preset:
    provided no stored session already carries the generated code, the
    saved entry is afterwards the one and only selected session, and it is
    what the preset lookup returns. *)
Theorem saveSession_as_preset now random key sessionName sd ed (db : Store) :
  let l := getAvailableSessions key db in
  (forall s, In s l -> code s <> generateSessionCode random sessionName) ->
  let res := saveSession now random key sessionName sd ed true db in
  let l' := getAvailableSessions key (fst res) in
  List.filter isSelected l' = [snd res]
  /\ getAlexaPresetSession key (fst res) = Some (snd res)
  /\ isSelected (snd res) = true.
Proof.
  intros l Hfresh res l'.
  destruct (saveSession_stored now random key sessionName sd ed true db)
    as [Hres Hl'].
  fold res in Hres, Hl'. fold l' l in Hl'.
  set (sessionData := mkSession sessionName (generateSessionCode random sessionName)
                        sd ed now true) in *.
  assert (Hfilter : List.filter isSelected l' = [sessionData]).
  { apply Permutation_length_1_inv. symmetry.
    etransitivity; [apply filter_Permutation; rewrite Hl'; reflexivity|].
    unfold upsert.
    etransitivity; [apply filter_Permutation, sortBy_Permutation|].
    simpl. rewrite filter_isSelected_selectByCode.
    destruct (findIndex _ l) as [i|] eqn:Hi.
    - rewrite filter_code_insert; [done|done|done|].
      apply findIndex_Some in Hi as (x & Hx & _). by apply lookup_lt_Some in Hx.
    - by rewrite filter_code_snoc. }
  split; [by rewrite Hres|]. split; [|by rewrite Hres].
  unfold getAlexaPresetSession. fold (getAvailableSessions key (fst res)). fold l'.
  by rewrite find_head_filter, Hfilter, Hres.
Qed.

Lemma saveSession_as_preset_witness :
  getAlexaPresetSession "user"
    (fst (saveSession 500 "zz99" "user" "Fall" (Some "2024-09-01")
            (Some "2024-12-20") true twoFallsDb))
  = Some (mkSession "Fall" "fallzz99" (Some "2024-09-01") (Some "2024-12-20") 500 true).
Proof.
  apply (saveSession_as_preset 500 "zz99" "user" "Fall" (Some "2024-09-01")
           (Some "2024-12-20") twoFallsDb).
  intros s [<-|[<-|[]]]; discriminate.
Defined.

Lemma Sorted_notOlder_head x l y : Sorted notOlder (x :: l) -> In y (x :: l) -> notOlder x y.
Proof.
  intros Hs Hy. apply Sorted_StronglySorted in Hs.
  - inversion Hs as [|a l0 _ Hall]; subst. destruct Hy as [<-|Hy].
    + unfold notOlder. lia.
    + rewrite List.Forall_forall in Hall. by apply Hall.
  - intros a b c. unfold notOlder. lia.
Qed.

(** X11.  When the clock is ahead of the creation time of every stored
    session, the session just saved comes first in the stored list, which
    is the order in which sessions are listed. *)
Theorem saveSession_listed_first
    now random key sessionName sd ed setAsPreset (db : Store) :
  let l := getAvailableSessions key db in
  (forall s, In s l -> createdAt s < now) ->
  let res := saveSession now random key sessionName sd ed setAsPreset db in
  head (getAvailableSessions key (fst res)) = Some (snd res).
Proof.
  intros l Hclock res.
  destruct (saveSession_stored now random key sessionName sd ed setAsPreset db)
    as [Hres Hl'].
  fold res in Hres, Hl'. fold l in Hl'.
  set (sessionData := mkSession sessionName (generateSessionCode random sessionName)
                        sd ed now setAsPreset) in *.
  set (l' := getAvailableSessions key (fst res)) in *.
  set (updated := match findIndex (matchesNameOrCode (name sessionData)
                                     (code sessionData)) l with
                  | Some i => <[i := sessionData]> l
                  | None => l ++ [sessionData]
                  end).
  assert (Hupd : In sessionData updated
                 /\ forall x, In x updated -> x = sessionData \/ createdAt x < now).
  { subst updated. destruct (findIndex _ l) as [i|] eqn:Hi.
    - apply findIndex_Some in Hi as (x & Hx & _).
      apply lookup_lt_Some in Hx. split.
      + apply list_elem_of_In, list_elem_of_lookup. exists i.
        by apply list_lookup_insert_eq.
      + intros y Hy. apply list_elem_of_In, list_elem_of_lookup in Hy as [j Hj].
        destruct (decide (i = j)) as [->|Hij].
        * rewrite list_lookup_insert_eq in Hj by done. left. congruence.
        * rewrite list_lookup_insert_ne in Hj by done. right. apply Hclock.
          apply list_elem_of_In. by eapply list_elem_of_lookup_2.
    - split; [apply in_or_app; right; by left|].
      intros y Hy. apply in_app_or in Hy as [Hy|[<-|[]]]; [right; by apply Hclock|by left]. }
  destruct Hupd as [Hin Hall].
  set (final := if setAsPreset then selectByCode (code sessionData) updated else updated).
  assert (Hfinal : In sessionData final
                   /\ forall x, In x final -> x = sessionData \/ createdAt x < now).
  { subst final. destruct setAsPreset eqn:Hp; [|done]. split.
    - unfold selectByCode. apply in_map_iff. exists sessionData. split; [|done].
      simpl. by rewrite String.eqb_refl.
    - intros x Hx. unfold selectByCode in Hx. apply in_map_iff in Hx as (y & <- & Hy).
      destruct (Hall y Hy) as [->|Hlt]; [left|right; done].
      simpl. by rewrite String.eqb_refl. }
  destruct Hfinal as [Hin' Hall'].
  assert (Hperm : Permutation l' final).
  { rewrite Hl'. unfold upsert. apply sortBy_Permutation. }
  assert (Hsorted : Sorted notOlder l') by (rewrite Hl'; apply upsert_Sorted).
  rewrite Hres.
  destruct l' as [|x rest] eqn:El'.
  - apply Permutation_nil in Hperm. rewrite Hperm in Hin'. destruct Hin'.
  - simpl. f_equal.
    assert (Hx : In x final) by (eapply Permutation_in; [exact Hperm|by left]).
    destruct (Hall' x Hx) as [->|Hlt]; [done|].
    assert (Hsd : In sessionData (x :: rest))
      by (eapply Permutation_in; [symmetry; exact Hperm|done]).
    pose proof (Sorted_notOlder_head x rest sessionData Hsorted Hsd) as Hno.
    unfold notOlder in Hno. simpl in Hno. lia.
Qed.

Lemma saveSession_listed_first_witness :
  List.map name
    (getAvailableSessions "user"
       (fst (saveSession 500 "zz99" "user" "Spring" (Some "2024-01-08")
               (Some "2024-05-31") false twoFallsDb)))
  = ["Spring"; "Fall"; "Fall"]
  /\ head (getAvailableSessions "user"
             (fst (saveSession 500 "zz99" "user" "Spring" (Some "2024-01-08")
                     (Some "2024-05-31") false twoFallsDb)))
     = Some (mkSession "Spring" "springzz99" (Some "2024-01-08") (Some "2024-05-31")
               500 false).
Proof.
  split; [reflexivity|].
  apply (saveSession_listed_first 500 "zz99" "user" "Spring" (Some "2024-01-08")
           (Some "2024-05-31") false twoFallsDb).
  intros s [<-|[<-|[]]]; simpl; lia.
Defined.

(** The days before the year [y + 1] in the proleptic Gregorian calendar,
    as [daysFromCivil] counts them through the 400-year era of [y]. *)
Lemma era_days y :
  y / 400 * 146097 + ((y - y / 400 * 400) * 365 + (y - y / 400 * 400) / 4
                      - (y - y / 400 * 400) / 100)
  = 365 * y + y / 4 - y / 100 + y / 400.
Proof. Z.div_mod_to_equations. lia. Qed.

(** A year is at most one day longer than 365 days. *)
Lemma leap_step y :
  0 <= (y / 4 - y / 100 + y / 400) - ((y - 1) / 4 - (y - 1) / 100 + (y - 1) / 400) <= 1.
Proof. Z.div_mod_to_equations. lia. Qed.

Lemma daysFromCivil_within_year y m d :
  1 <= m <= 12 -> 1 <= d <= 31 ->
  daysFromCivil y 1 1 <= daysFromCivil y m d <= daysFromCivil y 12 31.
Proof.
  intros Hm Hd. unfold daysFromCivil.
  pose proof (era_days y) as Hy. pose proof (era_days (y - 1)) as Hy1.
  pose proof (leap_step y) as Hl.
  assert (Hcases : m = 1 \/ m = 2 \/ m = 3 \/ m = 4 \/ m = 5 \/ m = 6 \/ m = 7
                   \/ m = 8 \/ m = 9 \/ m = 10 \/ m = 11 \/ m = 12) by lia.
  repeat (destruct Hcases as [-> | Hcases]); try subst m.
  all: repeat match goal with
         | |- context [?a <=? 2] =>
             let v := eval vm_compute in (a <=? 2) in change (a <=? 2) with v
         | |- context [2 <? ?a] =>
             let v := eval vm_compute in (2 <? a) in change (2 <? a) with v
         | |- context [?a / 5] =>
             let v := eval vm_compute in (a / 5) in change (a / 5) with v
         end.
  all: lia.
Qed.

(* ------------------------------------------------------------------ *)
(** ** The session calculation *)

Lemma percentageOf_bounds p w :
  0 <= p <= w ->
  0 <= percentageOf p w <= 100
  /\ (w = 0 -> percentageOf p w = 0)
  /\ (0 < w -> isRoundedPercent p w (percentageOf p w)).
Proof.
  intros Hp. unfold percentageOf. destruct (Z.ltb_spec 0 w) as [Hw|Hw].
  - pose proof (roundPercent_rounds p w Hw) as Hr.
    split; [unfold isRoundedPercent in Hr; nia|]. split; [lia|done].
  - split; [lia|]. split; [done|lia].
Qed.


Lemma truthy_orElse o d : truthy (Some d) = true -> truthy (Some (orElse o d)) = true.
Proof.
  intros Hd. destruct o as [s|]; simpl; [|done].
  destruct (String.eqb s "") eqn:E; [done|]. simpl. by rewrite E.
Qed.

Lemma resolveWindow_selected now userData hint s :
  List.find isSelected (default [] (sessions userData)) = Some s ->
  truthy (startDate s) = true ->
  resolveWindow now userData hint
  = (startDate s, Some (orElse (endDate s) (getFormattedDate now)),
     orElse (Some (name s)) "current session").
Proof.
  intros Hs Hstart. unfold resolveWindow. rewrite Hs. cbn [fst snd].
  rewrite Hstart, (truthy_orElse _ _ (getFormattedDate_truthy now)).
  cbn [negb orb andb fst snd].
  by rewrite Hstart, (truthy_orElse _ _ (getFormattedDate_truthy now)).
Qed.

(** X13.  A preset session with a start date decides the window: the
    session named in the request is not looked at, the report carries the
    preset's name, and a preset without an end date runs up to today. *)
Theorem calculateSessionAttendance_preset_first now key hint (db : Store) s :
  getAlexaPresetSession key db = Some s ->
  truthy (startDate s) = true ->
  calculateSessionAttendance now key hint db = calculateSessionAttendance now key None db
  /\ sessionName (calculateSessionAttendance now key hint db)
     = orElse (Some (name s)) "current session"
  /\ resolveWindow now (getUserData key db) hint
     = (startDate s, Some (orElse (endDate s) (getFormattedDate now)),
        orElse (Some (name s)) "current session").
Proof.
  intros Hs Hstart. unfold getAlexaPresetSession in Hs.
  pose proof (resolveWindow_selected now (getUserData key db) hint s Hs Hstart) as Hw.
  pose proof (resolveWindow_selected now (getUserData key db) None s Hs Hstart) as Hw0.
  unfold calculateSessionAttendance. rewrite Hw, Hw0.
  split; [done|]. split; [|done].
  by repeat case_match.
Qed.

Lemma calculateSessionAttendance_preset_first_witness :
  calculateSessionAttendance sunday10March "user" (Some "nothing stored") term1Db
  = calculateSessionAttendance sunday10March "user" None term1Db.
Proof.
  apply (calculateSessionAttendance_preset_first sunday10March "user"
           (Some "nothing stored") term1Db term1); reflexivity.
Defined.

Lemma resolveWindow_fallback now userData hint :
  (forall s, List.find isSelected (default [] (sessions userData)) = Some s ->
             truthy (startDate s) = false) ->
  (forall h, hint = Some h ->
             forall s, In s (default [] (sessions userData)) ->
                       matchesNameOrCode h h s = false) ->
  resolveWindow now userData hint
  = (Some (showZ (getFullYear now) +:+ "-01-01"),
     Some (showZ (getFullYear now) +:+ "-12-31"), "current year").
Proof.
  intros Hsel Hhint. unfold resolveWindow.
  set (l := default [] (sessions userData)) in *.
  assert (Hfind : truthy hint = true ->
                  List.find (matchesNameOrCode (default "" hint) (default "" hint)) l
                  = None).
  { destruct hint as [h|]; [|done]. intros _. apply find_none_of. by apply Hhint. }
  destruct (List.find isSelected l) as [s|] eqn:Hs; cbn [fst snd].
  - rewrite (Hsel s eq_refl). cbn [negb orb].
    destruct (truthy hint) eqn:Ht; cbn [andb].
    + rewrite (Hfind eq_refl). cbn [fst snd]. by rewrite (Hsel s eq_refl).
    + cbn [fst snd]. by rewrite (Hsel s eq_refl).
  - cbn [truthy negb orb].
    destruct (truthy hint) eqn:Ht; cbn [andb]; [|done].
    by rewrite (Hfind eq_refl).
Qed.

Lemma readsAs_year y : 1000 <= y <= 9999 -> readsAs 4 y (showZ y) = true.
Proof.
  intros Hy.
  pose proof (allFrom_spec yearCheck _ 0 y yearCheck_all ltac:(lia)) as Hc.
  unfold yearCheck in Hc. apply andb_prop in Hc as [Hr Hc].
  apply orb_prop in Hc as [Hc|Hc]; [apply Z.ltb_lt in Hc; lia|].
  apply String.eqb_eq in Hc. by rewrite <- Hc.
Qed.

Lemma parseDate_first_of_year y :
  1000 <= y <= 9999 ->
  parseDate (showZ y +:+ "-01-01") = Some (daysFromCivil y 1 1 * msPerDay).
Proof.
  intros Hy.
  exact (parseDate_iso (showZ y) y 1 1 (readsAs_year y Hy) ltac:(lia) ltac:(lia)).
Qed.

Lemma parseDate_last_of_year y :
  1000 <= y <= 9999 ->
  parseDate (showZ y +:+ "-12-31") = Some (daysFromCivil y 12 31 * msPerDay).
Proof.
  intros Hy.
  exact (parseDate_iso (showZ y) y 12 31 (readsAs_year y Hy) ltac:(lia) ltac:(lia)).
Qed.

Lemma Day_within_year t :
  daysFromCivil (getFullYear t) 1 1 <= Day t <= daysFromCivil (getFullYear t) 12 31.
Proof.
  destruct (civilFromDays_inverse (Day t)) as (Hinv & Hm & Hd).
  pose proof (daysFromCivil_within_year (getFullYear t) _ _ Hm Hd) as H.
  unfold getFullYear in *. by rewrite Hinv in H.
Qed.



(* ------------------------------------------------------------------ *)
(** ** The days of a month *)

(** The length of the year that ends with February of [y], as
    [daysFromCivil] counts it. *)
Lemma year_length y :
  (y / 400 * 146097 + ((y - y / 400 * 400) * 365 + (y - y / 400 * 400) / 4
                       - (y - y / 400 * 400) / 100))
  - ((y - 1) / 400 * 146097
     + ((y - 1 - (y - 1) / 400 * 400) * 365 + (y - 1 - (y - 1) / 400 * 400) / 4
        - (y - 1 - (y - 1) / 400 * 400) / 100))
  = if isLeapYear y then 366 else 365.
Proof.
  rewrite (era_days y), (era_days (y - 1)). unfold isLeapYear.
  destruct (Z.eqb_spec (y mod 4) 0), (Z.eqb_spec (y mod 100) 0),
    (Z.eqb_spec (y mod 400) 0); cbn [andb orb negb];
    Z.div_mod_to_equations; lia.
Qed.

Lemma monthStart_step n :
  monthStart (n + 1) - monthStart n = daysOfMonth (n / 12) (n mod 12 + 1).
Proof.
  unfold monthStart.
  pose proof (Z.mod_pos_bound n 12 ltac:(lia)) as Hr.
  pose proof (Z.div_mod n 12 ltac:(lia)) as Hn.
  set (y := n / 12) in *. set (r := n mod 12) in *.
  assert (Hnext : (r < 11 /\ (n + 1) / 12 = y /\ (n + 1) mod 12 = r + 1)
                  \/ (r = 11 /\ (n + 1) / 12 = y + 1 /\ (n + 1) mod 12 = 0)).
  { subst y r. Z.div_mod_to_equations. lia. }
  pose proof (year_length y) as Hlen.
  unfold daysOfMonth, daysFromCivil. clearbody y r. clear Hn.
  destruct Hnext as [(Hlt & -> & ->) | (-> & -> & ->)].
  - assert (Hcases : r = 0 \/ r = 1 \/ r = 2 \/ r = 3 \/ r = 4 \/ r = 5 \/ r = 6
                     \/ r = 7 \/ r = 8 \/ r = 9 \/ r = 10) by lia.
    clear Hr Hlt.
    repeat match goal with
           | H : _ \/ _ |- _ => destruct H as [H|H]
           end; subst r;
      repeat match goal with
             | |- context [?a =? ?b] =>
                 let v := eval vm_compute in (a =? b) in change (a =? b) with v
             | |- context [?a <=? 2] =>
                 let v := eval vm_compute in (a <=? 2) in change (a <=? 2) with v
             | |- context [2 <? ?a] =>
                 let v := eval vm_compute in (2 <? a) in change (2 <? a) with v
             | |- context [?a / 5] =>
                 let v := eval vm_compute in (a / 5) in change (a / 5) with v
             end;
      cbn [orb]; try lia.
    destruct (isLeapYear y); lia.
  - repeat match goal with
           | |- context [?a =? ?b] =>
               let v := eval vm_compute in (a =? b) in change (a =? b) with v
           | |- context [?a <=? 2] =>
               let v := eval vm_compute in (a <=? 2) in change (a <=? 2) with v
           | |- context [2 <? ?a] =>
               let v := eval vm_compute in (2 <? a) in change (2 <? a) with v
           | |- context [?a / 5] =>
               let v := eval vm_compute in (a / 5) in change (a / 5) with v
           end.
    cbn [orb]. replace (y + 1 - 1) with y by lia. lia.
Qed.

Lemma daysOfMonth_bounds y m : 28 <= daysOfMonth y m <= 31.
Proof. unfold daysOfMonth. repeat case_match; lia. Qed.

Lemma monthStart_ahead n (k : nat) :
  monthStart n + 28 * Z.of_nat k <= monthStart (n + Z.of_nat k)
  <= monthStart n + 31 * Z.of_nat k.
Proof.
  induction k as [|k IH].
  - replace (n + Z.of_nat 0) with n by lia. lia.
  - replace (n + Z.of_nat (S k)) with (n + Z.of_nat k + 1) by lia.
    pose proof (monthStart_step (n + Z.of_nat k)) as Hs.
    pose proof (daysOfMonth_bounds ((n + Z.of_nat k) / 12) ((n + Z.of_nat k) mod 12 + 1)).
    lia.
Qed.

Lemma monthStart_civil y m :
  1 <= m <= 12 -> monthStart (12 * y + (m - 1)) = daysFromCivil y m 1.
Proof.
  intros Hm. unfold monthStart.
  replace (12 * y + (m - 1)) with ((m - 1) + y * 12) by lia.
  rewrite Z.div_add, Z.mod_add, Z.div_small, Z.mod_small by lia.
  f_equal; lia.
Qed.

Lemma daysFromCivil_day y m d : daysFromCivil y m d = daysFromCivil y m 1 + d - 1.
Proof. unfold daysFromCivil. lia. Qed.

(** The last day before the month numbered [n + 1] is the day
    [daysOfMonth] of the month numbered [n]. *)
Lemma civilFromDays_last_of_month y m :
  1 <= m <= 12 ->
  civilFromDays (monthStart (12 * y + m) - 1) = (y, m, daysOfMonth y m).
Proof.
  intros Hm. set (n := 12 * y + (m - 1)).
  replace (12 * y + m) with (n + 1) by (subst n; lia).
  destruct (civilFromDays_inverse (monthStart (n + 1) - 1)) as (Hinv & Hm' & Hd').
  destruct (civilFromDays (monthStart (n + 1) - 1)) as [[y' m'] d']. cbn [fst snd] in *.
  set (n' := 12 * y' + (m' - 1)).
  rewrite daysFromCivil_day, <- (monthStart_civil y' m' Hm') in Hinv. fold n' in Hinv.
  pose proof (monthStart_step n) as Hstep.
  assert (Hym : n / 12 = y /\ n mod 12 + 1 = m).
  { subst n. replace (12 * y + (m - 1)) with ((m - 1) + y * 12) by lia.
    rewrite Z.div_add, Z.mod_add, Z.div_small, Z.mod_small by lia. lia. }
  destruct Hym as [Hy Hmm]. rewrite Hy, Hmm in Hstep.
  pose proof (daysOfMonth_bounds y m) as Hb.
  assert (Hn : n' = n).
  { destruct (Z.lt_trichotomy n' n) as [Hlt|[Heq|Hgt]]; [|done|].
    - pose proof (monthStart_ahead n' (Z.to_nat (n - n'))) as Ha.
      rewrite Z2Nat.id in Ha by lia. replace (n' + (n - n')) with n in Ha by lia.
      lia.
    - pose proof (monthStart_ahead (n + 1) (Z.to_nat (n' - (n + 1)))) as Ha.
      rewrite Z2Nat.id in Ha by lia.
      replace (n + 1 + (n' - (n + 1))) with n' in Ha by lia. lia. }
  assert (Hy' : y' = y /\ m' = m) by (subst n n'; lia).
  destruct Hy' as [-> ->]. rewrite Hn in Hinv. f_equal. lia.
Qed.

Lemma monthStart_range n : 0 <= n <= 2500000 -> Z.abs (monthStart n) <= 80000000.
Proof.
  intros Hn. pose proof (monthStart_ahead 0 (Z.to_nat n)) as Ha.
  rewrite Z2Nat.id in Ha by lia. replace (0 + n) with n in Ha by lia.
  change (monthStart 0) with (-719528) in Ha. lia.
Qed.

(** X30.  The month loop runs over the month: for a year from 100 on and
    a month number 1..12, [new Date(year, month, 0).getDate()] is the
    number of days of that month by the Gregorian rule (28 or 29 for
    February, 30 for April, June, September and November, 31 otherwise),
    and the date it is taken from is the last day of that month. *)
Theorem daysInMonth_is_month_length year month :
  100 <= year <= 200000 -> 1 <= month <= 12 ->
  exists lastDay,
    newDateYMD year month 0 = Some lastDay
    /\ getDate lastDay = daysOfMonth year month
    /\ getFullYear lastDay = year
    /\ getMonth lastDay + 1 = month
    /\ 28 <= getDate lastDay <= 31.
Proof.
  intros Hy Hm.
  assert (Hday : MakeDay year month 0 = monthStart (12 * year + month) - 1).
  { unfold MakeDay, monthStart.
    replace (12 * year + month) with (month + year * 12) by lia.
    rewrite Z.div_add, Z.mod_add by lia.
    rewrite (Z.add_comm (month / 12) year). lia. }
  pose proof (monthStart_range (12 * year + month) ltac:(lia)) as Hr.
  exists (MakeDay year month 0 * msPerDay).
  assert (Hdate : civilFromDays (Day (MakeDay year month 0 * msPerDay))
                  = (year, month, daysOfMonth year month)).
  { unfold Day. rewrite Z.div_mul by (unfold msPerDay; lia).
    rewrite Hday. by apply civilFromDays_last_of_month. }
  split; [|unfold getDate, getFullYear, getMonth; rewrite Hdate; cbn [fst snd];
           pose proof (daysOfMonth_bounds year month); repeat split; lia].
  unfold newDateYMD.
  replace ((0 <=? year) && (year <=? 99)) with false
    by (symmetry; apply andb_false_iff; right; apply Z.leb_gt; lia).
  unfold TimeClip.
  replace (Z.abs (MakeDay year month 0 * msPerDay) <=? 8640000000000000) with true;
    [done|].
  symmetry. apply Z.leb_le. rewrite Hday. unfold msPerDay. lia.
Qed.

Lemma daysInMonth_is_month_length_witness :
  exists lastDay,
    newDateYMD 2024 2 0 = Some lastDay /\ getDate lastDay = 29.
Proof.
  destruct (daysInMonth_is_month_length 2024 2 ltac:(lia) ltac:(lia))
    as (lastDay & H1 & H2 & _).
  exists lastDay. split; [exact H1|exact H2].
Defined.

(* ------------------------------------------------------------------ *)
(** ** The attendance key of an Alexa user *)

Lemma orElse_nonempty o d : d <> "" -> orElse o d <> "".
Proof.
  intros Hd. destruct o as [s|]; simpl; [|done].
  destruct (String.eqb_spec s ""); done.
Qed.

Lemma generated_key_nonempty now random : "key-" +:+ showZ now +:+ "-" +:+ random <> "".
Proof. done. Qed.

(** What [createAlexaUserDocument] writes and returns. *)
Lemma createAlexaUserDocument_spec now ts random id profile linked shared
    (creds : Credentials) :
  let res := createAlexaUserDocument now ts random id profile linked shared creds in
  let userKey := snd (snd res) in
  userKey = orElse shared ("key-" +:+ showZ now +:+ "-" +:+ random)
  /\ userKey <> ""
  /\ (exists data, fst res !! ("alexa-" +:+ id) = Some data
                   /\ Credential.key data = Some userKey
                   /\ Credential.type data = Some "alexa"
                   /\ Credential.linkedGoogleUid data = orNull linked None)
  /\ (forall docId, docId <> "alexa-" +:+ id -> fst res !! docId = creds !! docId).
Proof.
  unfold createAlexaUserDocument. cbn [fst snd].
  split; [done|]. split; [by apply orElse_nonempty|]. split.
  - eexists. rewrite lookup_insert_eq. by repeat split.
  - intros docId Hne. by rewrite lookup_insert_ne.
Qed.

(** [findOrCreateUserMapping] either finds the user's document, or
    creates it. *)
Lemma findOrCreateUserMapping_cases now ts random profile id (creds : Credentials) :
  let res := findOrCreateUserMapping now ts random profile id creds in
  (exists data, creds !! ("alexa-" +:+ id) = Some data
                /\ res = (creds, Credential.key data))
  \/ (creds !! ("alexa-" +:+ id) = None
      /\ exists linked shared,
           res = (fst (createAlexaUserDocument now ts random id profile linked
                         shared creds),
                  Some (snd (snd (createAlexaUserDocument now ts random id profile
                                    linked shared creds))))).
Proof.
  unfold findOrCreateUserMapping, getExistingAlexaUser.
  destruct (creds !! ("alexa-" +:+ id)) as [data|] eqn:Hd.
  - left. by exists data.
  - right. split; [done|].
    destruct (profileEmail profile) as [email|]; [|by exists None, None].
    destruct (String.eqb email ""); [by exists None, None|].
    destruct (findGoogleUserByEmail email creds) as [g|]; [|by exists None, None].
    by exists (Some (GoogleUser.uid g)), (Some (GoogleUser.key g)).
Qed.

(** X15.  An Alexa user keeps the attendance key: once
    [findOrCreateUserMapping] has answered for a user, every later call
    for that user gives the same key and writes nothing, whatever the
    profile, the clock or the random draw then are. *)
Theorem findOrCreateUserMapping_stable now ts random profile id (creds : Credentials)
    now' ts' random' profile' :
  let res := findOrCreateUserMapping now ts random profile id creds in
  let again := findOrCreateUserMapping now' ts' random' profile' id (fst res) in
  snd again = snd res /\ fst again = fst res.
Proof.
  intros res again.
  assert (Hagain : again = res); [|by rewrite Hagain].
  subst again.
  destruct (findOrCreateUserMapping_cases now ts random profile id creds)
    as [(data & Hd & Hres) | (Hd & linked & shared & Hres)];
    fold res in Hres; rewrite Hres; cbn [fst].
  - unfold findOrCreateUserMapping, getExistingAlexaUser. by rewrite Hd.
  - destruct (createAlexaUserDocument_spec now ts random id profile linked shared creds)
      as (_ & _ & (data & Hdata & Hkey & _) & _).
    unfold findOrCreateUserMapping, getExistingAlexaUser.
    rewrite Hdata. cbn. by rewrite Hkey.
Qed.

Lemma findOrCreateUserMapping_other_docs now ts random profile id
    (creds : Credentials) docId :
  docId <> "alexa-" +:+ id ->
  fst (findOrCreateUserMapping now ts random profile id creds) !! docId = creds !! docId.
Proof.
  intros Hne.
  destruct (findOrCreateUserMapping_cases now ts random profile id creds)
    as [(data & Hd & Hres) | (Hd & linked & shared & Hres)]; rewrite Hres; cbn [fst].
  - done.
  - by apply createAlexaUserDocument_spec.
Qed.

(** X16.  The first contact of an Alexa user creates exactly one
    document, ["alexa-" + userId], which carries a non-empty key, the one
    returned; no other document of [credentials] is ever written. *)
Theorem findOrCreateUserMapping_first_contact now ts random profile id
    (creds : Credentials) :
  let res := findOrCreateUserMapping now ts random profile id creds in
  (forall docId, docId <> "alexa-" +:+ id -> fst res !! docId = creds !! docId)
  /\ (creds !! ("alexa-" +:+ id) = None ->
      exists userKey data,
        snd res = Some userKey /\ userKey <> ""
        /\ fst res !! ("alexa-" +:+ id) = Some data
        /\ Credential.key data = Some userKey
        /\ Credential.type data = Some "alexa")
  /\ (is_Some (creds !! ("alexa-" +:+ id)) -> fst res = creds).
Proof.
  intros res.
  destruct (findOrCreateUserMapping_cases now ts random profile id creds)
    as [(data & Hd & Hres) | (Hd & linked & shared & Hres)];
    fold res in Hres; rewrite Hres; cbn [fst snd].
  - split; [done|]. split; [by rewrite Hd|done].
  - destruct (createAlexaUserDocument_spec now ts random id profile linked shared creds)
      as (_ & Hne & (data & Hdata & Hkey & Htype & _) & Hother).
    split; [done|]. split.
    + intros _. by eexists _, data.
    + rewrite Hd. by intros [? ?].
Qed.

Lemma findGoogleUserByEmail_sound email (creds : Credentials) g :
  findGoogleUserByEmail email creds = Some g ->
  exists data, creds !! GoogleUser.uid g = Some data
               /\ Credential.email data = Some email
               /\ GoogleUser.key g = orElse (Credential.key data) (GoogleUser.uid g).
Proof.
  unfold findGoogleUserByEmail.
  destruct (List.filter (hasEmail email) (map_to_list creds)) as [|[docId data] rest] eqn:Hf;
    [done|].
  intros [= <-]. cbn.
  assert (Hin : In (docId, data) (List.filter (hasEmail email) (map_to_list creds)))
    by (rewrite Hf; by left).
  apply filter_In in Hin as [Hin Hmail].
  apply list_elem_of_In, elem_of_map_to_list in Hin.
  exists data. split; [done|]. split; [|done].
  unfold hasEmail in Hmail. cbn in Hmail.
  destruct (Credential.email data) as [e|]; [|done].
  apply String.eqb_eq in Hmail. by subst.
Qed.

Lemma findGoogleUserByEmail_complete email (creds : Credentials) docId data :
  creds !! docId = Some data -> Credential.email data = Some email ->
  is_Some (findGoogleUserByEmail email creds).
Proof.
  intros Hd Hmail. unfold findGoogleUserByEmail.
  destruct (List.filter (hasEmail email) (map_to_list creds)) as [|doc rest] eqn:Hf;
    [|by eexists].
  exfalso.
  assert (Hin : In (docId, data) (List.filter (hasEmail email) (map_to_list creds))).
  { apply filter_In. split.
    - by apply list_elem_of_In, elem_of_map_to_list.
    - unfold hasEmail. cbn. rewrite Hmail. apply String.eqb_refl. }
  by rewrite Hf in Hin.
Qed.

(** X17.  Key sharing: when a new Alexa user's profile gives an email
    address that a stored credentials document carries, the user is
    linked to such a document and gets its key (its document id when it
    has no key), so both read and write the same attendance document. *)
Theorem findOrCreateUserMapping_shares_key now ts random profile id
    (creds : Credentials) email docId0 data0 :
  creds !! ("alexa-" +:+ id) = None ->
  profileEmail profile = Some email -> email <> "" ->
  creds !! docId0 = Some data0 -> Credential.email data0 = Some email ->
  docId0 <> "" -> creds !! "" = None ->
  let res := findOrCreateUserMapping now ts random profile id creds in
  exists docId data own,
    creds !! docId = Some data
    /\ Credential.email data = Some email
    /\ snd res = Some (orElse (Credential.key data) docId)
    /\ fst res !! ("alexa-" +:+ id) = Some own
    /\ Credential.linkedGoogleUid own = Some docId
    /\ Credential.key own = Some (orElse (Credential.key data) docId).
Proof.
  intros Hnew Hmail Hne Hd0 He0 Hid0 Hempty res.
  destruct (findGoogleUserByEmail_complete email creds docId0 data0 Hd0 He0) as [g Hg].
  destruct (findGoogleUserByEmail_sound email creds g Hg) as (data & Hd & He & Hk).
  assert (Huid : GoogleUser.uid g <> "").
  { intros E. rewrite E in Hd. by rewrite Hempty in Hd. }
  assert (Hgk : GoogleUser.key g <> "").
  { rewrite Hk. by apply orElse_nonempty. }
  exists (GoogleUser.uid g), data.
  subst res. unfold findOrCreateUserMapping, getExistingAlexaUser.
  rewrite Hnew, Hmail. apply String.eqb_neq in Hne. rewrite Hne, Hg.
  unfold createAlexaUserDocument. cbn [fst snd].
  assert (Hshared : orElse (Some (GoogleUser.key g))
                      ("key-" +:+ showZ now +:+ "-" +:+ random)
                    = GoogleUser.key g).
  { simpl. apply String.eqb_neq in Hgk. by rewrite Hgk. }
  rewrite Hshared, Hk. eexists. rewrite lookup_insert_eq.
  split; [done|]. split; [done|]. split; [done|]. split; [done|].
  cbn. split; [|done].
  unfold orNull. simpl. apply String.eqb_neq in Huid. by rewrite Huid.
Qed.

(* ------------------------------------------------------------------ *)
(** ** What a request may change *)

Lemma given_Some o s : given o = Some s -> o = Some s /\ s <> "".
Proof.
  unfold given, truthy. destruct o as [x|]; [|done].
  destruct (String.eqb_spec x ""); [done|]. by intros [= ->].
Qed.

Lemma given_nonempty s : s <> "" -> given (Some s) = Some s.
Proof. intros H. unfold given, truthy. apply String.eqb_neq in H. by rewrite H. Qed.

Lemma getUserKey_known t key w :
  Skill.knownUser t key w ->
  Skill.getUserKey t (Skill.credentials w) = Some (Skill.credentials w, Some key)
  /\ Skill.documentPath (Some key) = Some key.
Proof.
  intros (Htoken & Hkey & data & Hdata & Hk). unfold Skill.getUserKey.
  rewrite Htoken. unfold findOrCreateUserMapping, getExistingAlexaUser.
  rewrite Hdata. cbn. rewrite Hk. split; [done|]. by apply given_nonempty.
Qed.

Lemma setAlexaPresetSession_writes key ident (db : Store) :
  fst (setAlexaPresetSession key ident db) = db
  \/ exists l, fst (setAlexaPresetSession key ident db)
               = updateUserData key (sessionsOnly l) db.
Proof.
  unfold setAlexaPresetSession.
  destruct (sessions (getUserData key db)) as [[|s l]|]; try by left.
  destruct (List.find _ _); [right; by eexists|by left].
Qed.

Lemma SelectSessionIntentHandler_writes key slot (db : Store) :
  snd (SelectSessionIntentHandler key slot db) = db
  \/ exists l, snd (SelectSessionIntentHandler key slot db)
               = updateUserData key (sessionsOnly l) db.
Proof.
  unfold SelectSessionIntentHandler.
  repeat case_match; cbn [snd]; try (by left); apply setAlexaPresetSession_writes.
Qed.

Lemma withAttendance_effect request t attrs w onError body :
  (forall k db, snd (body k db) = db \/ Skill.written request k db (snd (body k db))) ->
  Skill.effect request t w (snd (Skill.withAttendance t attrs w onError body)).
Proof.
  intros Hbody. destruct w as [creds db]. unfold Skill.withAttendance, Skill.effect.
  cbn [Skill.credentials Skill.attendance].
  destruct (Skill.getUserKey t creds) as [[creds' key]|] eqn:Hkey;
    [|split; by left].
  destruct (Skill.documentPath key) as [k|] eqn:Hp.
  - apply given_Some in Hp as [-> Hne].
    specialize (Hbody k db). destruct (body k db) as [[speech attrs'] db'].
    cbn [fst snd Skill.credentials Skill.attendance] in *.
    split; [right; by eexists|].
    destruct Hbody as [->|Hw]; [by left|]. right. by exists k.
  - cbn [fst snd Skill.credentials Skill.attendance].
    split; [right; by eexists|by left].
Qed.

Lemma withUserKey_effect request t attrs w onError body :
  Skill.effect request t w (snd (Skill.withUserKey t attrs w onError body)).
Proof.
  destruct w as [creds db]. unfold Skill.withUserKey, Skill.effect.
  cbn [Skill.credentials Skill.attendance].
  destruct (Skill.getUserKey t creds) as [[creds' key]|] eqn:Hkey;
    [|split; by left].
  cbn [fst snd Skill.credentials Skill.attendance].
  split; [right; by eexists|by left].
Qed.

Lemma effect_refl request t w : Skill.effect request t w w.
Proof. split; by left. Qed.

(** Every request has the effect described by [Skill.effect]. *)
Lemma skill_effect request t attrs w :
  Skill.effect request t w (snd (Skill.skill request t attrs w)).
Proof.
  destruct request as [ | | | holidayNameSlot | monthSlot | sessionNameSlot |
                      | sessionNameSlot | | | sessionNameSlot | setAsPresetSlot
                      | sessionNameSlot setAsPresetSlot | dateSlot | | | | | | | | ];
    cbn [Skill.skill].
  - unfold Skill.LaunchRequestHandler.
    destruct (truthy _); cbn [negb]; [apply withUserKey_effect|apply effect_refl].
  - unfold Skill.MarkPresentIntentHandler, Skill.markAttendance.
    destruct (truthy _); cbn [negb]; [|apply effect_refl].
    apply withAttendance_effect. intros k db. cbv zeta.
    repeat case_match; cbn [snd]; try (by left).
    right. left. split; [done|]. by do 4 eexists.
  - unfold Skill.MarkAbsentIntentHandler, Skill.markAttendance.
    destruct (truthy _); cbn [negb]; [|apply effect_refl].
    apply withAttendance_effect. intros k db. cbv zeta.
    repeat case_match; cbn [snd]; try (by left).
    right. left. split; [done|]. by do 4 eexists.
  - unfold Skill.MarkHolidayIntentHandler.
    destruct (truthy _); cbn [negb]; [|apply effect_refl].
    destruct (given holidayNameSlot); [|apply effect_refl].
    apply withAttendance_effect. intros k db. cbv zeta.
    repeat case_match; cbn [snd]; try (by left).
    right. left. split; [done|]. by do 4 eexists.
  - unfold Skill.MonthlyAttendanceIntentHandler.
    destruct (truthy _); cbn [negb]; [|apply effect_refl].
    apply withAttendance_effect. intros k db. by left.
  - unfold Skill.SessionAttendanceIntentHandler.
    destruct (truthy _); cbn [negb]; [|apply effect_refl].
    apply withAttendance_effect. intros k db. by left.
  - unfold Skill.GetAttendancePercentageIntentHandler.
    destruct (truthy _); cbn [negb]; [|apply effect_refl].
    apply withAttendance_effect. intros k db. by left.
  - unfold Skill.SetAlexaPresetIntentHandler.
    destruct (truthy _); cbn [negb]; [|apply effect_refl].
    destruct (given sessionNameSlot).
    + apply withAttendance_effect. intros k db.
      pose proof (setAlexaPresetSession_writes k s db) as Hw.
      destruct (setAlexaPresetSession k s db) as [db' [found|err]]; cbn [fst snd] in *;
        (destruct Hw as [->|[l ->]]; [by left|right; right; split; [done|by exists l]]).
    + apply withAttendance_effect. intros k db. cbv zeta.
      repeat case_match; by left.
  - unfold Skill.GetAlexaPresetIntentHandler.
    destruct (truthy _); cbn [negb]; [|apply effect_refl].
    apply withAttendance_effect. intros k db. repeat case_match; by left.
  - unfold Skill.ClearAlexaPresetIntentHandler.
    destruct (truthy _); cbn [negb]; [|apply effect_refl].
    apply withAttendance_effect. intros k db. right. right. split; [done|].
    by eexists.
  - unfold Skill.SelectSessionIntentHandler.
    destruct (truthy _); cbn [negb]; [|apply effect_refl].
    apply withAttendance_effect. intros k db.
    pose proof (SelectSessionIntentHandler_writes k sessionNameSlot db) as Hw.
    destruct (SelectSessionIntentHandler k sessionNameSlot db) as [response db'].
    cbn [fst snd] in *.
    destruct Hw as [->|[l ->]]; [by left|right; right; split; [done|by exists l]].
  - unfold Skill.CreateSessionIntentHandler.
    destruct (truthy _); cbn [negb]; [apply withUserKey_effect|apply effect_refl].
  - unfold Skill.CreateSessionWithNameIntentHandler.
    destruct (truthy _); cbn [negb]; [|apply effect_refl].
    destruct (given sessionNameSlot); [apply withUserKey_effect|apply effect_refl].
  - unfold Skill.DateIntentHandler. destruct w as [creds db].
    cbn [Skill.credentials Skill.attendance].
    destruct (Skill.getUserKey t creds) as [[creds' key]|] eqn:Hkey;
      [|apply effect_refl].
    assert (Hsame : Skill.effect (Skill.DateIntent dateSlot) t (Skill.mkWorld creds db)
                      (Skill.mkWorld creds' db)).
    { split; [right; by eexists|by left]. }
    cbv zeta.
    destruct (Skill.inSessionCreation attrs); [|by destruct (given dateSlot)].
    destruct (Skill.atStep "startDate" attrs); [by destruct (given dateSlot)|].
    destruct (Skill.atStep "endDate" attrs); [|by destruct (given dateSlot)].
    destruct (given dateSlot) as [d|]; [|done].
    destruct (Skill.documentPath key) as [k|] eqn:Hp; [|done].
    apply given_Some in Hp as [-> Hne].
    destruct (Skill.pendingSessionName attrs) as [sessionName|]; [|done].
    unfold saveSession. cbn [snd Skill.credentials Skill.attendance].
    split; [right; by eexists|]. right. exists k. split; [done|]. split; [done|].
    right. split; [done|]. by eexists.
  - unfold Skill.ListSessionsIntentHandler.
    destruct (truthy _); cbn [negb]; [|apply effect_refl].
    apply withAttendance_effect. intros k db. cbv zeta. repeat case_match; by left.
  - unfold Skill.YesIntentHandler. destruct w as [creds db].
    cbn [Skill.credentials Skill.attendance].
    destruct (Skill.pendingStatusChange attrs) as [pending|].
    + destruct (Skill.getUserKey t creds) as [[creds' key]|] eqn:Hkey;
        [|apply effect_refl].
      destruct (Skill.documentPath key) as [k|] eqn:Hp.
      * apply given_Some in Hp as [-> Hne].
        cbn [snd Skill.credentials Skill.attendance].
        split; [right; by eexists|]. right. exists k. split; [done|]. split; [done|].
        left. split; [done|]. by do 4 eexists.
      * split; [right; by eexists|by left].
    + destruct (negb _); apply effect_refl.
  - apply effect_refl.
  - apply effect_refl.
  - apply effect_refl.
  - apply effect_refl.
  - apply effect_refl.
  - apply effect_refl.
Qed.

(** X18.  Without a linked account no request changes anything in the two
    collections, and every handler that works for an account answers
    with the link-account card and leaves the session attributes as they
    are. *)
Theorem skill_without_account request t attrs w :
  truthy (Skill.accessToken t) = false ->
  snd (Skill.skill request t attrs w) = w
  /\ (Skill.answersWithoutAccount request = false ->
      Skill.skill request t attrs w = (Skill.LinkAccount, attrs, w)).
Proof.
  intros Htoken.
  assert (Hkey : Skill.getUserKey t (Skill.credentials w) = None)
    by (unfold Skill.getUserKey; by rewrite Htoken).
  destruct request; cbn [Skill.skill Skill.answersWithoutAccount];
    unfold Skill.LaunchRequestHandler, Skill.MarkPresentIntentHandler,
      Skill.MarkAbsentIntentHandler, Skill.markAttendance,
      Skill.MarkHolidayIntentHandler, Skill.MonthlyAttendanceIntentHandler,
      Skill.SessionAttendanceIntentHandler,
      Skill.GetAttendancePercentageIntentHandler,
      Skill.SetAlexaPresetIntentHandler, Skill.GetAlexaPresetIntentHandler,
      Skill.ClearAlexaPresetIntentHandler, Skill.SelectSessionIntentHandler,
      Skill.CreateSessionIntentHandler, Skill.CreateSessionWithNameIntentHandler,
      Skill.DateIntentHandler, Skill.ListSessionsIntentHandler,
      Skill.YesIntentHandler, Skill.NoIntentHandler, Skill.HelpIntentHandler,
      Skill.CancelAndStopIntentHandler, Skill.FallbackIntentHandler,
      Skill.SessionEndedRequestHandler;
    rewrite ?Htoken, ?Hkey; cbn [negb fst snd]; try done.
  destruct (Skill.pendingStatusChange attrs); [done|].
  by destruct (negb _).
Qed.

Lemma skill_without_account_witness :
  Skill.skill Skill.MarkPresentIntent
    (Skill.mkTurn "amzn1.ask.account.A" None None sunday10March 1 "k" "c")
    Skill.newSession (Skill.mkWorld ∅ term1Db)
  = (Skill.LinkAccount, Skill.newSession, Skill.mkWorld ∅ term1Db).
Proof.
  apply (skill_without_account Skill.MarkPresentIntent
           (Skill.mkTurn "amzn1.ask.account.A" None None sunday10March 1 "k" "c")
           Skill.newSession (Skill.mkWorld ∅ term1Db)); reflexivity.
Defined.

Lemma getUserKey_other_docs t (creds creds' : Credentials) key docId :
  Skill.getUserKey t creds = Some (creds', key) ->
  docId <> "alexa-" +:+ Skill.userId t ->
  creds' !! docId = creds !! docId.
Proof.
  unfold Skill.getUserKey. destruct (truthy _); [|done].
  intros [= H] Hne.
  pose proof (findOrCreateUserMapping_other_docs (Skill.now t) (Skill.serverTimestamp t)
                (Skill.keyRandom t) (Skill.alexaProfile t) (Skill.userId t) creds
                docId Hne) as Ho.
  destruct (findOrCreateUserMapping _ _ _ _ _ _) as [c k]. cbn in *. congruence.
Qed.

Lemma written_other_user request key key' (db db' : Store) :
  Skill.written request key db db' -> key <> key' ->
  getUserData key' db' = getUserData key' db.
Proof.
  intros [[_ (ts & d & s & extra & ->)] | [_ (l & ->)]] Hne.
  - by apply setDayStatus_other_user.
  - by apply getUserData_updateUserData_ne.
Qed.

(** X19.  A request touches nothing but the caller's own documents: in
    [credentials] only the document ["alexa-" + userId] can change, and
    in [attendance] only the document under the caller's attendance
    key. *)
Theorem skill_touches_only_caller request t attrs w :
  let w' := snd (Skill.skill request t attrs w) in
  (forall docId, docId <> "alexa-" +:+ Skill.userId t ->
                 Skill.credentials w' !! docId = Skill.credentials w !! docId)
  /\ (forall key',
        (forall creds, Skill.getUserKey t (Skill.credentials w) <> Some (creds, Some key')) ->
        getUserData key' (Skill.attendance w') = getUserData key' (Skill.attendance w)).
Proof.
  intros w'. destruct (skill_effect request t attrs w) as [Hc Ha]. fold w' in Hc, Ha.
  split.
  - intros docId Hne. destruct Hc as [->|[key Hkey]]; [done|].
    by eapply getUserKey_other_docs.
  - intros key' Hother. destruct Ha as [->|(key & Hkey & _ & Hw)]; [done|].
    eapply written_other_user; [exact Hw|]. intros ->. by eapply Hother.
Qed.

Lemma written_marks request key key' (db db' : Store) :
  Skill.written request key db db' -> Skill.marksDays request = false ->
  sameMarks (getUserData key' db') (getUserData key' db).
Proof.
  intros [[Hm _] | [_ (l & ->)]] Hno; [congruence|]. apply sessionsOnly_sameMarks.
Qed.

(** X20.  Only the mark requests and the confirmation change attendance
    marks: after any other request every day of every user has the status
    it had, and every month the percentage it had. *)
Theorem skill_keeps_marks request t attrs w :
  Skill.marksDays request = false ->
  let w' := snd (Skill.skill request t attrs w) in
  (forall key d,
     getDayStatus key d (Skill.attendance w') = getDayStatus key d (Skill.attendance w))
  /\ (forall clock key yearMonth,
        calculateMonthlyAttendance clock key yearMonth (Skill.attendance w')
        = calculateMonthlyAttendance clock key yearMonth (Skill.attendance w)).
Proof.
  intros Hno w'.
  assert (Hsame : forall key, sameMarks (getUserData key (Skill.attendance w'))
                                        (getUserData key (Skill.attendance w))).
  { intros key'. destruct (skill_effect request t attrs w) as [_ Ha]. fold w' in Ha.
    destruct Ha as [->|(key & _ & _ & Hw)]; [done|]. by eapply written_marks. }
  split; intros.
  - by apply getDayStatus_sameMarks.
  - by apply calculateMonthlyAttendance_sameMarks.
Qed.

Lemma skill_keeps_marks_witness :
  getDayStatus "user" "2024-01-03"
    (Skill.attendance
       (snd (Skill.skill Skill.ClearAlexaPresetIntent
               (Skill.mkTurn "amzn1.ask.account.A" (Some "token") None sunday10March 1
                  "k" "c")
               Skill.newSession (Skill.mkWorld ∅ term1Db))))
  = Some (Tagged "holiday" "New Year").
Proof.
  destruct (skill_keeps_marks Skill.ClearAlexaPresetIntent
              (Skill.mkTurn "amzn1.ask.account.A" (Some "token") None sunday10March 1
                 "k" "c")
              Skill.newSession (Skill.mkWorld ∅ term1Db) eq_refl) as [H _].
  rewrite H. reflexivity.
Defined.

Lemma written_sessions request key key' (db db' : Store) :
  Skill.written request key db db' -> Skill.writesSessions request = false ->
  sessions (getUserData key' db') = sessions (getUserData key' db)
  /\ weeklyDaysOff (getUserData key' db') = weeklyDaysOff (getUserData key' db).
Proof.
  intros [[_ (ts & d & s & extra & ->)] | [Hs _]] Hno; [|congruence].
  destruct (decide (key' = key)) as [->|Hk].
  - by rewrite setDayStatus_stored.
  - by rewrite setDayStatus_other_user.
Qed.

(** X21.  Only the preset requests, the session selection and the date
    that ends a session creation write sessions: after any other request
    every user has the sessions, the preset and the weekly days off that
    were stored before. *)
Theorem skill_keeps_sessions request t attrs w :
  Skill.writesSessions request = false ->
  let w' := snd (Skill.skill request t attrs w) in
  forall key,
    getAvailableSessions key (Skill.attendance w')
    = getAvailableSessions key (Skill.attendance w)
    /\ getAlexaPresetSession key (Skill.attendance w')
       = getAlexaPresetSession key (Skill.attendance w)
    /\ weeklyDaysOff (getUserData key (Skill.attendance w'))
       = weeklyDaysOff (getUserData key (Skill.attendance w)).
Proof.
  intros Hno w' key'.
  assert (Hsame : sessions (getUserData key' (Skill.attendance w'))
                  = sessions (getUserData key' (Skill.attendance w))
                  /\ weeklyDaysOff (getUserData key' (Skill.attendance w'))
                     = weeklyDaysOff (getUserData key' (Skill.attendance w))).
  { destruct (skill_effect request t attrs w) as [_ Ha]. fold w' in Ha.
    destruct Ha as [->|(key & _ & _ & Hw)]; [done|]. by eapply written_sessions. }
  destruct Hsame as [Hs Hw].
  unfold getAvailableSessions, getAlexaPresetSession. by rewrite Hs, Hw.
Qed.

Lemma skill_keeps_sessions_witness :
  getAlexaPresetSession "user"
    (Skill.attendance
       (snd (Skill.skill Skill.MarkAbsentIntent
               (Skill.mkTurn "amzn1.ask.account.A" (Some "token") None noon3January 1
                  "k" "c")
               Skill.newSession (Skill.mkWorld ∅ term1Db))))
  = Some term1.
Proof.
  destruct (skill_keeps_sessions Skill.MarkAbsentIntent
              (Skill.mkTurn "amzn1.ask.account.A" (Some "token") None noon3January 1
                 "k" "c")
              Skill.newSession (Skill.mkWorld ∅ term1Db) eq_refl "user") as (_ & H & _).
  rewrite H. reflexivity.
Defined.

(* ------------------------------------------------------------------ *)
(** ** Conversations of a known user *)

Lemma world_eta w : Skill.mkWorld (Skill.credentials w) (Skill.attendance w) = w.
Proof. by destruct w. Qed.

Lemma withAttendance_known t key w attrs onError body :
  Skill.knownUser t key w ->
  Skill.withAttendance t attrs w onError body
  = (fst (fst (body key (Skill.attendance w))), snd (fst (body key (Skill.attendance w))),
     Skill.mkWorld (Skill.credentials w) (snd (body key (Skill.attendance w)))).
Proof.
  intros Hk. destruct (getUserKey_known t key w Hk) as [Hkey Hpath].
  unfold Skill.withAttendance. rewrite Hkey, Hpath.
  by destruct (body key (Skill.attendance w)) as [[? ?] ?].
Qed.

Lemma withUserKey_known t key w attrs onError body :
  Skill.knownUser t key w ->
  Skill.withUserKey t attrs w onError body = (fst body, snd body, w).
Proof.
  intros Hk. destruct (getUserKey_known t key w Hk) as [Hkey _].
  unfold Skill.withUserKey. by rewrite Hkey, world_eta.
Qed.

Lemma knownUser_token t key w : Skill.knownUser t key w -> truthy (Skill.accessToken t) = true.
Proof. by intros [? _]. Qed.

Lemma knownUser_same_credentials t key w db :
  Skill.knownUser t key w -> Skill.knownUser t key (Skill.mkWorld (Skill.credentials w) db).
Proof. by intros (? & ? & ?). Qed.

(** What the mark handlers do for a known user. *)
Lemma markAttendance_known status t key w attrs :
  Skill.knownUser t key w ->
  let today := getFormattedDate (Skill.now t) in
  let db := Skill.attendance w in
  Skill.markAttendance status t attrs w
  = if isNonWorkingDay today (getUserData key db) then (Skill.NonWorkingDay, attrs, w)
    else match getDayStatus key today db with
         | Some existingStatus =>
             if String.eqb (statusOf existingStatus) status
             then (Skill.AlreadyMarked status, attrs, w)
             else (Skill.ConfirmChange (statusOf existingStatus) status,
                   Skill.withPending
                     (Some (Skill.mkPending today status (statusOf existingStatus) None))
                     attrs, w)
         | None =>
             (Skill.Marked status, attrs,
              Skill.mkWorld (Skill.credentials w)
                (setDayStatus (Skill.serverTimestamp t) key today status (mkExtra None) db))
         end.
Proof.
  intros Hk today db. unfold Skill.markAttendance.
  rewrite (knownUser_token t key w Hk). cbn [negb].
  rewrite (withAttendance_known t key w _ _ _ Hk). fold db today.
  destruct (isNonWorkingDay today (getUserData key db)); cbn [fst snd];
    [by rewrite world_eta|].
  destruct (getDayStatus key today db) as [st|]; [|done].
  destruct (String.eqb (statusOf st) status); cbn [fst snd]; by rewrite world_eta.
Qed.

Lemma YesIntentHandler_pending t key w attrs pending :
  Skill.knownUser t key w ->
  Skill.pendingStatusChange attrs = Some pending ->
  Skill.YesIntentHandler t attrs w
  = (Skill.Changed (Skill.date pending) (Skill.oldStatus pending)
       (Skill.newStatus pending)
       (if String.eqb (Skill.newStatus pending) "holiday"
        then given (Skill.holidayName pending) else None),
     Skill.withPending None attrs,
     Skill.mkWorld (Skill.credentials w)
       (setDayStatus (Skill.serverTimestamp t) key (Skill.date pending)
          (Skill.newStatus pending) (mkExtra (Skill.holidayName pending))
          (Skill.attendance w))).
Proof.
  intros Hk Hp. destruct (getUserKey_known t key w Hk) as [Hkey Hpath].
  unfold Skill.YesIntentHandler. by rewrite Hp, Hkey, Hpath.
Qed.

(** X22.  On a non-working day (a Sunday or one of the user's weekly days
    off) both "mark present" and "mark absent" are refused and nothing
    changes; "mark holiday" makes no such test, and marks the day as a
    holiday of the given name when it has no status yet. *)
Theorem marking_on_a_non_working_day t key w attrs :
  Skill.knownUser t key w ->
  let today := getFormattedDate (Skill.now t) in
  isNonWorkingDay today (getUserData key (Skill.attendance w)) = true ->
  Skill.skill Skill.MarkPresentIntent t attrs w = (Skill.NonWorkingDay, attrs, w)
  /\ Skill.skill Skill.MarkAbsentIntent t attrs w = (Skill.NonWorkingDay, attrs, w)
  /\ forall holidayName,
       holidayName <> "" ->
       getDayStatus key today (Skill.attendance w) = None ->
       let res := Skill.skill (Skill.MarkHolidayIntent (Some holidayName)) t attrs w in
       fst res = (Skill.MarkedHoliday holidayName, attrs)
       /\ getDayStatus key today (Skill.attendance (snd res))
          = Some (Tagged "holiday" holidayName).
Proof.
  intros Hk today Hoff. cbn [Skill.skill].
  unfold Skill.MarkPresentIntentHandler, Skill.MarkAbsentIntentHandler.
  rewrite !(markAttendance_known _ t key w attrs Hk). fold today. rewrite Hoff.
  split; [done|]. split; [done|].
  intros holidayName Hne Hnone. unfold Skill.MarkHolidayIntentHandler.
  rewrite (knownUser_token t key w Hk), (given_nonempty _ Hne). cbn [negb].
  rewrite (withAttendance_known t key w _ _ _ Hk). fold today. rewrite Hnone.
  cbn [fst snd Skill.attendance]. split; [done|].
  rewrite getDayStatus_holiday. cbn.
  apply String.eqb_neq in Hne. by rewrite Hne.
Qed.

(** X23.  Changing a status takes a confirmation: when today already has
    another status, "mark present" (or "mark absent") writes nothing and
    asks; the "yes" that follows sets the status of the day the question
    was about, which then reads back as the new status, and the pending
    change is forgotten. *)
Theorem status_change_confirmed request status t1 t2 key w attrs st :
  (request = Skill.MarkPresentIntent /\ status = "present")
  \/ (request = Skill.MarkAbsentIntent /\ status = "absent") ->
  Skill.knownUser t1 key w -> Skill.knownUser t2 key w ->
  let today := getFormattedDate (Skill.now t1) in
  isNonWorkingDay today (getUserData key (Skill.attendance w)) = false ->
  getDayStatus key today (Skill.attendance w) = Some st ->
  statusOf st <> status ->
  let db' := setDayStatus (Skill.serverTimestamp t2) key today status (mkExtra None)
               (Skill.attendance w) in
  Skill.skill request t1 attrs w
  = (Skill.ConfirmChange (statusOf st) status,
     Skill.withPending (Some (Skill.mkPending today status (statusOf st) None)) attrs,
     w)
  /\ Skill.converse [(request, t1); (Skill.YesIntent, t2)] attrs w
     = ([Skill.ConfirmChange (statusOf st) status;
         Skill.Changed today (statusOf st) status None],
        Skill.withPending None attrs, Skill.mkWorld (Skill.credentials w) db')
  /\ getDayStatus key today db' = Some (Tag status).
Proof.
  intros Hreq Hk1 Hk2 today Hwork Hst Hne db'.
  assert (Hmark : Skill.skill request t1 attrs w
                  = (Skill.ConfirmChange (statusOf st) status,
                     Skill.withPending
                       (Some (Skill.mkPending today status (statusOf st) None)) attrs,
                     w)).
  { assert (Hm : Skill.skill request t1 attrs w = Skill.markAttendance status t1 attrs w)
      by (by destruct Hreq as [[-> ->]|[-> ->]]).
    rewrite Hm, (markAttendance_known status t1 key w attrs Hk1).
    fold today. rewrite Hwork, Hst.
    apply String.eqb_neq in Hne. by rewrite Hne. }
  split; [done|]. split.
  - cbn [Skill.converse]. rewrite Hmark. cbn [Skill.skill].
    rewrite (YesIntentHandler_pending t2 key w
               (Skill.withPending
                  (Some (Skill.mkPending today status (statusOf st) None)) attrs)
               (Skill.mkPending today status (statusOf st) None) Hk2 eq_refl).
    cbn [Skill.date Skill.oldStatus Skill.newStatus Skill.holidayName].
    by destruct Hreq as [[_ ->]|[_ ->]].
  - subst db'. apply getDayStatus_marked.
    destruct Hreq as [[_ ->]|[_ ->]]; [by left|by right].
Qed.

(** X24.  Declining a change: the "no" after the question leaves both
    collections as they were and forgets the pending change; it also
    abandons a session creation that was under way. *)
Theorem status_change_declined request status t1 t2 key w attrs st :
  (request = Skill.MarkPresentIntent /\ status = "present")
  \/ (request = Skill.MarkAbsentIntent /\ status = "absent") ->
  Skill.knownUser t1 key w ->
  let today := getFormattedDate (Skill.now t1) in
  isNonWorkingDay today (getUserData key (Skill.attendance w)) = false ->
  getDayStatus key today (Skill.attendance w) = Some st ->
  statusOf st <> status ->
  Skill.converse [(request, t1); (Skill.NoIntent, t2)] attrs w
  = ([Skill.ConfirmChange (statusOf st) status; Skill.NoChanges],
     (if Skill.inSessionCreation attrs
      then Skill.endCreation (Skill.withPending None attrs)
      else Skill.withPending None attrs),
     w).
Proof.
  intros Hreq Hk1 today Hwork Hst Hne.
  assert (Hm : Skill.skill request t1 attrs w = Skill.markAttendance status t1 attrs w)
    by (by destruct Hreq as [[-> ->]|[-> ->]]).
  cbn [Skill.converse]. rewrite Hm, (markAttendance_known status t1 key w attrs Hk1).
  fold today. rewrite Hwork, Hst.
  apply String.eqb_neq in Hne. rewrite Hne.
  cbn [Skill.skill]. unfold Skill.NoIntentHandler. reflexivity.
Qed.

Lemma DateIntentHandler_known date t key w attrs :
  Skill.knownUser t key w ->
  Skill.DateIntentHandler date t attrs w
  = let dateValue := given date in
    let outside :=
      match dateValue with
      | Some d => (Skill.DateEcho d, attrs, w)
      | None => (Skill.DateUnknown, attrs, w)
      end in
    if Skill.inSessionCreation attrs then
      if Skill.atStep "startDate" attrs then
        match dateValue with
        | Some d =>
            (Skill.StartsOn d,
             {| Skill.pendingStatusChange := Skill.pendingStatusChange attrs;
                Skill.inSessionCreation := Skill.inSessionCreation attrs;
                Skill.sessionCreationStep := Some "endDate";
                Skill.pendingSessionName := Skill.pendingSessionName attrs;
                Skill.pendingStartDate := Some d;
                Skill.shouldSetAsPreset := Skill.shouldSetAsPreset attrs |},
             w)
        | None => (Skill.AskStartDateAgain, attrs, w)
        end
      else if Skill.atStep "endDate" attrs then
        match dateValue with
        | Some d =>
            match Skill.pendingSessionName attrs with
            | Some sessionName =>
                (Skill.Created sessionName (Skill.pendingStartDate attrs) (Some d)
                   (Skill.flagSet (Skill.shouldSetAsPreset attrs)),
                 Skill.endCreation attrs,
                 Skill.mkWorld (Skill.credentials w)
                   (fst (saveSession (Skill.now t) (Skill.codeRandom t) key sessionName
                           (Skill.pendingStartDate attrs) (Some d)
                           (Skill.flagSet (Skill.shouldSetAsPreset attrs))
                           (Skill.attendance w))))
            | None => (Skill.Trouble, attrs, w)
            end
        | None => (Skill.AskEndDateAgain, attrs, w)
        end
      else outside
    else outside.
Proof.
  intros Hk. destruct (getUserKey_known t key w Hk) as [Hkey Hpath].
  unfold Skill.DateIntentHandler. rewrite Hkey, Hpath, world_eta. cbv zeta.
  unfold saveSession. cbn [fst snd name].
  repeat case_match; reflexivity.
Qed.

(** X25.  Creating a session by voice: "create session called N", a
    start date and an end date, said by a known user, store exactly what
    [saveSession] stores for N and the two dates, as the preset when that
    was asked for, and end the creation, whatever state the session
    attributes were in before. *)
Theorem session_created_by_voice sessionName setAsPreset d1 d2 t1 t2 t3 key w attrs :
  sessionName <> "" -> d1 <> "" -> d2 <> "" ->
  Skill.knownUser t1 key w -> Skill.knownUser t2 key w -> Skill.knownUser t3 key w ->
  let asPreset := Skill.flagSet (Skill.shouldSetAsPresetOf setAsPreset) in
  let saved := saveSession (Skill.now t3) (Skill.codeRandom t3) key sessionName
                 (Some d1) (Some d2) asPreset (Skill.attendance w) in
  Skill.converse
    [(Skill.CreateSessionWithNameIntent (Some sessionName) setAsPreset, t1);
     (Skill.DateIntent (Some d1), t2);
     (Skill.DateIntent (Some d2), t3)] attrs w
  = ([Skill.AskStartDate sessionName; Skill.StartsOn d1;
      Skill.Created sessionName (Some d1) (Some d2) asPreset],
     Skill.endCreation attrs,
     Skill.mkWorld (Skill.credentials w) (fst saved))
  /\ In (snd saved) (getAvailableSessions key (fst saved))
  /\ snd saved = mkSession sessionName (generateSessionCode (Skill.codeRandom t3) sessionName)
                   (Some d1) (Some d2) (Skill.now t3) asPreset.
Proof.
  intros Hn H1 H2 Hk1 Hk2 Hk3 asPreset saved.
  split; [|split; [|done]].
  - cbn [Skill.converse Skill.skill].
    unfold Skill.CreateSessionWithNameIntentHandler.
    rewrite (knownUser_token t1 key w Hk1), (given_nonempty _ Hn). cbn [negb].
    rewrite (withUserKey_known t1 key w _ _ _ Hk1). cbn [fst snd].
    rewrite (DateIntentHandler_known _ t2 key w _ Hk2), (given_nonempty _ H1).
    cbn.
    rewrite (DateIntentHandler_known _ t3 key w _ Hk3), (given_nonempty _ H2).
    cbn. done.
  - subst saved.
    destruct (saveSession_stored (Skill.now t3) (Skill.codeRandom t3) key sessionName
                (Some d1) (Some d2) asPreset (Skill.attendance w)) as [Hres Hl].
    rewrite Hl, Hres. unfold upsert.
    eapply Permutation_in; [symmetry; apply sortBy_Permutation|].
    set (sd := mkSession _ _ _ _ _ _).
    assert (Hin : In sd (match findIndex (matchesNameOrCode (name sd) (code sd))
                                 (getAvailableSessions key (Skill.attendance w)) with
                         | Some i => <[i := sd]> (getAvailableSessions key (Skill.attendance w))
                         | None => getAvailableSessions key (Skill.attendance w) ++ [sd]
                         end)).
    { destruct (findIndex _ _) as [i|] eqn:Hi.
      - apply findIndex_Some in Hi as (x & Hx & _). apply lookup_lt_Some in Hx.
        apply list_elem_of_In, list_elem_of_lookup. exists i.
        by apply list_lookup_insert_eq.
      - apply in_or_app. right. by left. }
    destruct asPreset eqn:Hp; [|done].
    unfold selectByCode. apply in_map_iff. exists sd. split; [|done].
    unfold withSelected. cbn. by rewrite String.eqb_refl.
Qed.

(** Unfolds the handler that [Skill.skill] has chosen. *)
Ltac unfold_handlers :=
  cbn [Skill.skill];
  unfold Skill.LaunchRequestHandler, Skill.MarkPresentIntentHandler,
    Skill.MarkAbsentIntentHandler, Skill.markAttendance,
    Skill.MarkHolidayIntentHandler, Skill.MonthlyAttendanceIntentHandler,
    Skill.SessionAttendanceIntentHandler,
    Skill.GetAttendancePercentageIntentHandler,
    Skill.SetAlexaPresetIntentHandler, Skill.GetAlexaPresetIntentHandler,
    Skill.ClearAlexaPresetIntentHandler, Skill.SelectSessionIntentHandler,
    Skill.CreateSessionIntentHandler, Skill.CreateSessionWithNameIntentHandler,
    Skill.DateIntentHandler, Skill.ListSessionsIntentHandler,
    Skill.YesIntentHandler, Skill.NoIntentHandler, Skill.HelpIntentHandler,
    Skill.CancelAndStopIntentHandler, Skill.FallbackIntentHandler,
    Skill.SessionEndedRequestHandler, Skill.withAttendance, Skill.withUserKey.

(** Uses the equations between tuples that a case analysis leaves. *)
Ltac split_tuples :=
  repeat match goal with
         | H : (_, _) = (_, _) |- _ => apply pair_equal_spec in H as [? ?]
         end;
  subst.

Lemma named_withPending pending attrs :
  Skill.named attrs -> Skill.named (Skill.withPending pending attrs).
Proof. done. Qed.

(** Every handler keeps the attributes [Skill.named]. *)
Lemma skill_named request t attrs w :
  Skill.named attrs -> Skill.named (snd (fst (Skill.skill request t attrs w))).
Proof.
  intros Hn.
  assert (Hend : Skill.named (Skill.endCreation attrs))
    by (unfold Skill.named, Skill.atStep; cbn; intros [?|?]; done).
  assert (Hname : forall step n flag,
             step <> "startDate" -> step <> "endDate" ->
             Skill.named
               {| Skill.pendingStatusChange := Skill.pendingStatusChange attrs;
                  Skill.inSessionCreation := true;
                  Skill.sessionCreationStep := Some step;
                  Skill.pendingSessionName := n;
                  Skill.pendingStartDate := Skill.pendingStartDate attrs;
                  Skill.shouldSetAsPreset := flag |}).
  { intros step n flag H1 H2. unfold Skill.named, Skill.atStep. cbn.
    apply String.eqb_neq in H1, H2. rewrite H1, H2. intros [?|?]; done. }
  destruct request; unfold_handlers;
    repeat case_match; split_tuples; cbn [fst snd];
    first [ done
          | exact (named_withPending _ attrs Hn)
          | by apply Hname
          | unfold Skill.named, Skill.atStep in *; cbn in *; intros Hstep;
            first [ by eexists | by apply Hn; left | by destruct Hstep ] ].
Qed.

(** A known user whose attributes are [Skill.named] is never answered by
    the error handler, and the credentials stay as they are. *)
Lemma skill_known request t key attrs w :
  Skill.knownUser t key w -> Skill.named attrs ->
  fst (fst (Skill.skill request t attrs w)) <> Skill.Trouble
  /\ Skill.credentials (snd (Skill.skill request t attrs w)) = Skill.credentials w.
Proof.
  intros Hk Hn. destruct (getUserKey_known t key w Hk) as [Hkey Hpath].
  split.
  - destruct request; unfold_handlers; rewrite ?Hkey, ?Hpath;
      repeat case_match; split_tuples; cbn [fst snd]; try done.
    unfold Skill.named in Hn.
    match goal with
    | H : Skill.pendingSessionName attrs = None |- _ => rewrite H in Hn
    end.
    destruct Hn as [? ?]; [by right|done].
  - destruct (skill_effect request t attrs w) as [[->|[key' Hkey']] _]; [done|].
    rewrite Hkey in Hkey'. by injection Hkey' as <- _.
Qed.

Lemma knownUser_credentials t key w w' :
  Skill.credentials w' = Skill.credentials w ->
  Skill.knownUser t key w -> Skill.knownUser t key w'.
Proof. intros Hc (? & ? & ?). unfold Skill.knownUser. by rewrite Hc. Qed.

Lemma converse_known requests key :
  forall attrs w,
    Skill.named attrs ->
    (forall request t, In (request, t) requests -> Skill.knownUser t key w) ->
    let res := Skill.converse requests attrs w in
    Forall (fun speech => speech <> Skill.Trouble) (fst (fst res))
    /\ Skill.named (snd (fst res))
    /\ Skill.credentials (snd res) = Skill.credentials w.
Proof.
  induction requests as [|[request t] rest IH]; intros attrs w Hn Hk; cbn [Skill.converse].
  - by repeat split.
  - assert (Hkt : Skill.knownUser t key w) by (apply (Hk request); by left).
    destruct (skill_known request t key attrs w Hkt Hn) as [Hspeech Hcreds].
    pose proof (skill_named request t attrs w Hn) as Hn'.
    destruct (Skill.skill request t attrs w) as [[speech attrs'] w'].
    cbn [fst snd] in *.
    specialize (IH attrs' w' Hn').
    destruct (Skill.converse rest attrs' w') as [[speeches attrs''] w''].
    cbn [fst snd] in *.
    destruct IH as (Hs & Hn'' & Hc).
    { intros r t' Hin. apply (knownUser_credentials t' key w w' Hcreds).
      apply (Hk r). by right. }
    split; [by constructor|]. split; [done|]. congruence.
Qed.

(** X26.  The error handler is never reached in a conversation of a known
    user: from the attributes of a new session, whatever is asked and in
    whatever order, no request is answered with "I had trouble doing what
    you asked"; in the date steps of a session creation the session name
    is always there.  The user's credentials document is not written
    again. *)
Theorem conversation_without_trouble requests key w :
  (forall request t, In (request, t) requests -> Skill.knownUser t key w) ->
  let res := Skill.converse requests Skill.newSession w in
  Forall (fun speech => speech <> Skill.Trouble) (fst (fst res))
  /\ Skill.named (snd (fst res))
  /\ Skill.credentials (snd res) = Skill.credentials w.
Proof.
  intros Hk. apply (converse_known requests key); [|done].
  unfold Skill.named, Skill.atStep. cbn. intros [?|?]; done.
Qed.

Lemma getAlexaPresetSession_cleared key (db : Store) :
  getAlexaPresetSession key (clearAlexaPresetSession key db) = None.
Proof.
  unfold getAlexaPresetSession, clearAlexaPresetSession.
  rewrite getUserData_updateUserData. cbn. apply find_isSelected_cleared.
Qed.

(** X27.  After "clear my preset" the skill reports that there is no
    preset, whatever was stored before.  The sentence for there having
    been no preset to clear is never spoken, by any handler. *)
Theorem preset_cleared_then_none t1 t2 key w attrs :
  Skill.knownUser t1 key w -> Skill.knownUser t2 key w ->
  Skill.converse [(Skill.ClearAlexaPresetIntent, t1); (Skill.GetAlexaPresetIntent, t2)]
    attrs w
  = ([Skill.PresetCleared; Skill.NoPreset], attrs,
     Skill.mkWorld (Skill.credentials w)
       (clearAlexaPresetSession key (Skill.attendance w)))
  /\ forall request t attrs0 w0,
       fst (fst (Skill.skill request t attrs0 w0)) <> Skill.NothingToClear.
Proof.
  intros Hk1 Hk2. split.
  - cbn [Skill.converse Skill.skill].
    unfold Skill.ClearAlexaPresetIntentHandler, Skill.GetAlexaPresetIntentHandler.
    rewrite (knownUser_token t1 key w Hk1), (knownUser_token t2 key w Hk2). cbn [negb].
    rewrite (withAttendance_known t1 key w _ _ _ Hk1). cbn [fst snd].
    rewrite (withAttendance_known t2 key _ _ _ _
               (knownUser_same_credentials t2 key w _ Hk2)).
    cbn [fst snd Skill.attendance Skill.credentials].
    by rewrite getAlexaPresetSession_cleared.
  - intros request t attrs0 w0.
    destruct request; unfold_handlers; repeat case_match; split_tuples; done.
Qed.

Lemma setAlexaPresetSession_preset key ident (db db' : Store) found :
  setAlexaPresetSession key ident db = (db', PresetOk found) ->
  exists p, getAlexaPresetSession key db' = Some p /\ code p = code found.
Proof.
  intros H. apply setAlexaPresetSession_ok in H as (Hfind & _ & _ & _ & Hl').
  cbv zeta in *. unfold getAlexaPresetSession.
  fold (getAvailableSessions key db'). rewrite Hl'.
  apply find_some_In in Hfind as [Hin _].
  destruct (List.find isSelected _) as [p|] eqn:Hp.
  - exists p. split; [done|]. apply find_some_In in Hp as [Hp1 Hp2].
    unfold selectByCode in Hp1. apply in_map_iff in Hp1 as (s0 & <- & _).
    cbn in Hp2. by apply String.eqb_eq.
  - exfalso. eapply find_none in Hp.
    2:{ unfold selectByCode. apply in_map_iff. exists found. split; [reflexivity|done]. }
    cbn in Hp. by rewrite String.eqb_refl in Hp.
Qed.

(** X28.  "Set N as preset" and what is reported afterwards: when a
    stored session matches N, the skill announces that session and the
    preset reported next is a session with its code; when none matches,
    it says that N was not found and writes nothing. *)
Theorem preset_set_then_reported sessionName t1 t2 key w attrs :
  sessionName <> "" ->
  Skill.knownUser t1 key w -> Skill.knownUser t2 key w ->
  (forall db' found,
     setAlexaPresetSession key sessionName (Skill.attendance w) = (db', PresetOk found) ->
     exists p,
       getAlexaPresetSession key db' = Some p /\ code p = code found
       /\ Skill.converse
            [(Skill.SetAlexaPresetIntent (Some sessionName), t1);
             (Skill.GetAlexaPresetIntent, t2)] attrs w
          = ([Skill.PresetSet (name found);
              Skill.CurrentPreset (name p) (startDate p) (endDate p)],
             attrs, Skill.mkWorld (Skill.credentials w) db'))
  /\ (forall db' e,
        setAlexaPresetSession key sessionName (Skill.attendance w) = (db', PresetError e) ->
        Skill.skill (Skill.SetAlexaPresetIntent (Some sessionName)) t1 attrs w
        = (Skill.PresetNotFound sessionName, attrs, w)).
Proof.
  intros Hne Hk1 Hk2.
  assert (Hset : Skill.skill (Skill.SetAlexaPresetIntent (Some sessionName)) t1 attrs w
                 = match setAlexaPresetSession key sessionName (Skill.attendance w) with
                   | (db', PresetOk session) =>
                       (Skill.PresetSet (name session), attrs,
                        Skill.mkWorld (Skill.credentials w) db')
                   | (db', PresetError _) =>
                       (Skill.PresetNotFound sessionName, attrs,
                        Skill.mkWorld (Skill.credentials w) db')
                   end).
  { cbn [Skill.skill]. unfold Skill.SetAlexaPresetIntentHandler.
    rewrite (knownUser_token t1 key w Hk1), (given_nonempty _ Hne). cbn [negb].
    rewrite (withAttendance_known t1 key w _ _ _ Hk1).
    by destruct (setAlexaPresetSession key sessionName (Skill.attendance w))
      as [db' [found|e]]. }
  split.
  - intros db' found Hok.
    destruct (setAlexaPresetSession_preset _ _ _ _ _ Hok) as (p & Hp & Hcode).
    exists p. split; [done|]. split; [done|].
    cbn [Skill.converse]. rewrite Hset, Hok. cbn [Skill.skill].
    unfold Skill.GetAlexaPresetIntentHandler.
    rewrite (knownUser_token t2 key w Hk2). cbn [negb].
    rewrite (withAttendance_known t2 key _ _ _ _
               (knownUser_same_credentials t2 key w _ Hk2)).
    cbn [fst snd Skill.attendance Skill.credentials]. by rewrite Hp.
  - intros db' e Herr. rewrite Hset, Herr.
    assert (Hdb : db' = Skill.attendance w).
    { unfold setAlexaPresetSession in Herr. repeat case_match; congruence. }
    by rewrite Hdb, world_eta.
Qed.

Lemma isNonWorkingDay_after_set ts key d s extra dateStr (db : Store) :
  isNonWorkingDay dateStr (getUserData key (setDayStatus ts key d s extra db))
  = isNonWorkingDay dateStr (getUserData key db).
Proof. unfold isNonWorkingDay. by rewrite setDayStatus_stored. Qed.

(** X29.  A day is marked once: after "mark present" (or "mark absent")
    has marked an unmarked working day, the same request on that day says
    that the day is already marked and writes nothing. *)
Theorem marked_day_not_marked_again request status t1 t2 key w attrs :
  (request = Skill.MarkPresentIntent /\ status = "present")
  \/ (request = Skill.MarkAbsentIntent /\ status = "absent") ->
  Skill.knownUser t1 key w -> Skill.knownUser t2 key w ->
  let today := getFormattedDate (Skill.now t1) in
  getFormattedDate (Skill.now t2) = today ->
  isNonWorkingDay today (getUserData key (Skill.attendance w)) = false ->
  getDayStatus key today (Skill.attendance w) = None ->
  let db' := setDayStatus (Skill.serverTimestamp t1) key today status (mkExtra None)
               (Skill.attendance w) in
  Skill.converse [(request, t1); (request, t2)] attrs w
  = ([Skill.Marked status; Skill.AlreadyMarked status], attrs,
     Skill.mkWorld (Skill.credentials w) db')
  /\ getDayStatus key today db' = Some (Tag status).
Proof.
  intros Hreq Hk1 Hk2 today Hsame Hwork Hnone db'.
  assert (Hm : forall t a w0, Skill.skill request t a w0 = Skill.markAttendance status t a w0)
    by (by destruct Hreq as [[-> ->]|[-> ->]]).
  assert (Hread : getDayStatus key today db' = Some (Tag status)).
  { subst db'. apply getDayStatus_marked.
    destruct Hreq as [[_ ->]|[_ ->]]; [by left|by right]. }
  split; [|done].
  cbn [Skill.converse]. rewrite Hm.
  rewrite (markAttendance_known status t1 key w attrs Hk1). fold today.
  rewrite Hwork, Hnone. fold db'. cbn [Skill.converse]. rewrite Hm.
  rewrite (markAttendance_known status t2 key _ attrs
             (knownUser_same_credentials t2 key w db' Hk2)).
  cbn [Skill.attendance Skill.credentials]. rewrite Hsame.
  assert (Hoff : isNonWorkingDay today (getUserData key db') = false)
    by (unfold db'; by rewrite isNonWorkingDay_after_set).
  rewrite Hoff, Hread. cbn [statusOf]. by rewrite String.eqb_refl.
Qed.

(* ------------------------------------------------------------------ *)
(** ** The properties on the sample worlds *)

(** The sample user is known. *)
Ltac known_user :=
  split; [reflexivity | split; [discriminate | eexists; split; reflexivity]].

Lemma findOrCreateUserMapping_shares_key_witness :
  snd (findOrCreateUserMapping 1700000000000 7 "k9x2m4p1q" (Some bobProfile)
         "amzn1.ask.account.BOB" bobCredentials) = Some "bob-key".
Proof.
  destruct (findOrCreateUserMapping_shares_key 1700000000000 7 "k9x2m4p1q"
              (Some bobProfile) "amzn1.ask.account.BOB" bobCredentials
              "bob@example.org" "uid-bob"
              (Credential.mk None (Some "bob@example.org") (Some "Bob") None None
                 (Some "bob-key") None None None))
    as (docId & data & own & _ & _ & Hkey & _);
    [reflexivity | reflexivity | discriminate | reflexivity | reflexivity
    | discriminate | reflexivity |].
  vm_compute. reflexivity.
Defined.

Lemma marking_on_a_non_working_day_witness :
  Skill.skill Skill.MarkAbsentIntent (aliceTurn sunday10March) Skill.newSession aliceWorld
  = (Skill.NonWorkingDay, Skill.newSession, aliceWorld).
Proof.
  destruct (marking_on_a_non_working_day (aliceTurn sunday10March) "user" aliceWorld
              Skill.newSession) as (_ & H & _); [known_user | reflexivity | exact H].
Defined.

Lemma status_change_confirmed_witness :
  fst (fst (Skill.converse
              [(Skill.MarkPresentIntent, aliceTurn noon3January);
               (Skill.YesIntent, aliceTurn monday8January)]
              Skill.newSession aliceWorld))
  = [Skill.ConfirmChange "holiday" "present";
     Skill.Changed "2024-01-03" "holiday" "present" None].
Proof.
  destruct (status_change_confirmed Skill.MarkPresentIntent "present"
              (aliceTurn noon3January) (aliceTurn monday8January) "user" aliceWorld
              Skill.newSession (Tagged "holiday" "New Year"))
    as (_ & H & _);
    [left; split; reflexivity | known_user | known_user | reflexivity | reflexivity
    | discriminate |].
  rewrite H. reflexivity.
Defined.

Lemma status_change_declined_witness :
  Skill.converse
    [(Skill.MarkAbsentIntent, aliceTurn noon3January);
     (Skill.NoIntent, aliceTurn noon3January)]
    Skill.newSession aliceWorld
  = ([Skill.ConfirmChange "holiday" "absent"; Skill.NoChanges], Skill.newSession,
     aliceWorld).
Proof.
  apply (status_change_declined Skill.MarkAbsentIntent "absent"
           (aliceTurn noon3January) (aliceTurn noon3January) "user" aliceWorld
           Skill.newSession (Tagged "holiday" "New Year"));
    [right; split; reflexivity | known_user | reflexivity | reflexivity | discriminate].
Defined.

Lemma session_created_by_voice_witness :
  fst (fst (Skill.converse
              [(Skill.CreateSessionWithNameIntent (Some "Spring") (Some "yes"),
                aliceTurn noon3January);
               (Skill.DateIntent (Some "2024-01-08"), aliceTurn noon3January);
               (Skill.DateIntent (Some "2024-05-31"), aliceTurn noon3January)]
              Skill.newSession aliceWorld))
  = [Skill.AskStartDate "Spring"; Skill.StartsOn "2024-01-08";
     Skill.Created "Spring" (Some "2024-01-08") (Some "2024-05-31") true].
Proof.
  destruct (session_created_by_voice "Spring" (Some "yes") "2024-01-08" "2024-05-31"
              (aliceTurn noon3January) (aliceTurn noon3January) (aliceTurn noon3January)
              "user" aliceWorld Skill.newSession)
    as (H & _);
    [discriminate | discriminate | discriminate | known_user | known_user | known_user |].
  rewrite H. reflexivity.
Defined.

Lemma conversation_without_trouble_witness :
  Forall (fun speech => speech <> Skill.Trouble)
    (fst (fst (Skill.converse
                 [(Skill.CreateSessionIntent None, aliceTurn noon3January);
                  (Skill.DateIntent (Some "2024-01-08"), aliceTurn noon3January)]
                 Skill.newSession aliceWorld))).
Proof.
  apply (conversation_without_trouble
           [(Skill.CreateSessionIntent None, aliceTurn noon3January);
            (Skill.DateIntent (Some "2024-01-08"), aliceTurn noon3January)]
           "user" aliceWorld).
  intros request t [[= <- <-]|[[= <- <-]|[]]]; known_user.
Defined.

Lemma preset_cleared_then_none_witness :
  fst (fst (Skill.converse
              [(Skill.ClearAlexaPresetIntent, aliceTurn noon3January);
               (Skill.GetAlexaPresetIntent, aliceTurn noon3January)]
              Skill.newSession aliceWorld))
  = [Skill.PresetCleared; Skill.NoPreset].
Proof.
  destruct (preset_cleared_then_none (aliceTurn noon3January) (aliceTurn noon3January)
              "user" aliceWorld Skill.newSession) as [H _]; [known_user | known_user |].
  rewrite H. reflexivity.
Defined.

Lemma preset_set_then_reported_witness :
  Skill.skill (Skill.SetAlexaPresetIntent (Some "Autumn")) (aliceTurn noon3January)
    Skill.newSession aliceWorld
  = (Skill.PresetNotFound "Autumn", Skill.newSession, aliceWorld).
Proof.
  destruct (preset_set_then_reported "Autumn" (aliceTurn noon3January)
              (aliceTurn noon3January) "user" aliceWorld Skill.newSession)
    as [_ H]; [discriminate | known_user | known_user |].
  apply (H term1Db "Session not found"). reflexivity.
Defined.

Lemma marked_day_not_marked_again_witness :
  fst (fst (Skill.converse
              [(Skill.MarkPresentIntent, aliceTurn monday8January);
               (Skill.MarkPresentIntent, aliceTurn (monday8January + 3600000))]
              Skill.newSession aliceWorld))
  = [Skill.Marked "present"; Skill.AlreadyMarked "present"].
Proof.
  destruct (marked_day_not_marked_again Skill.MarkPresentIntent "present"
              (aliceTurn monday8January) (aliceTurn (monday8January + 3600000))
              "user" aliceWorld Skill.newSession)
    as [H _];
    [left; split; reflexivity | known_user | known_user | reflexivity | reflexivity
    | reflexivity |].
  rewrite H. reflexivity.
Defined.
